(** * Completion provider of the Svelte language server

    A shallow embedding of
    [packages/language-server/src/plugins/typescript/features/CompletionProvider.ts]
    and the properties of its completion cache, trigger gate, item translator,
    text-edit range fixer and code-action translation.

    Numbers are [Z] (line and character columns, offsets, lengths), JavaScript
    strings are [string] (one character per code unit), [undefined]/[null] are
    [None], a [Set<string>] is a [gset string].  The collaborators the file
    imports (documents, snapshot, language service, component info, helpers of
    [../utils]) are records of the answers they give. *)

From Stdlib Require Import ZArith Lia Ascii.
From stdpp Require Import base strings gmap list.

Local Open Scope Z_scope.

(** ** JavaScript strings *)

Module JsString.

Fixpoint take (n : nat) (s : string) : string :=
  match n, s with
  | O, _ => EmptyString
  | S _, EmptyString => EmptyString
  | S n', String c s' => String c (take n' s')
  end.

Fixpoint drop (n : nat) (s : string) : string :=
  match n, s with
  | O, _ => s
  | S _, EmptyString => EmptyString
  | S n', String _ s' => drop n' s'
  end.

Definition length (s : string) : Z := Z.of_nat (String.length s).

(** An index argument of [substring]: values below 0 count as 0, values
    above the length count as the length. *)
Definition clamp (s : string) (i : Z) : Z := Z.max 0 (Z.min i (length s)).

(** [s.substring(a, b)]: the arguments are clamped and, if [a > b], swapped. *)
Definition substring2 (s : string) (a b : Z) : string :=
  let a' := clamp s a in
  let b' := clamp s b in
  let lo := Z.min a' b' in
  let hi := Z.max a' b' in
  take (Z.to_nat (hi - lo)) (drop (Z.to_nat lo) s).

(** [s.substring(a)] *)
Definition substring1 (s : string) (a : Z) : string :=
  substring2 s a (length s).

(** [s.startsWith(p)] *)
Definition startsWith (s p : string) : bool := String.prefix p s.

(** [s.endsWith(p)] *)
Definition endsWith (s p : string) : bool :=
  (String.length p <=? String.length s)%nat
  && String.eqb (drop (String.length s - String.length p) s) p.

(** [s.replace(pat, rep)] with a string pattern: only the first occurrence
    is replaced. *)
Fixpoint replace (pat rep s : string) : string :=
  if String.prefix pat s then rep +:+ drop (String.length pat) s
  else match s with
       | EmptyString => EmptyString
       | String c s' => String c (replace pat rep s')
       end.

(** [arr.includes(x)] on an array of strings *)
Definition includes (arr : list string) (x : string) : bool :=
  existsb (String.eqb x) arr.

(** Truthiness of a string: the empty string is falsy. *)
Definition truthy (s : string) : bool := negb (String.eqb s EmptyString).

Definition quote : string := String (ascii_of_nat 34) EmptyString.
Definition lf : string := String (ascii_of_nat 10) EmptyString.
Definition crlf : string := String (ascii_of_nat 13) lf.

End JsString.

(** ** LSP data types (vscode-languageserver) *)

Record Position := mkPosition { line : Z; character : Z }.

Record Range := mkRange { range_start : Position; range_end : Position }.

Record TextEdit := mkTextEdit { range : Range; newText : string }.

(** [TextEdit.replace(range, newText)] *)
Definition TextEdit_replace (r : Range) (t : string) : TextEdit :=
  {| range := r; newText := t |}.

Record InsertReplaceEdit := mkInsertReplaceEdit {
  ire_newText : string;
  ire_insert : Range;
  ire_replace : Range
}.

(** The [textEdit] field of a completion item is a [TextEdit | InsertReplaceEdit];
    [TextEdit.is] holds of the first alternative only. *)
Inductive Edit :=
| PlainEdit (e : TextEdit)
| InsertReplace (e : InsertReplaceEdit).

Record MarkupContent := mkMarkupContent { markup_kind : string; markup_value : string }.

(** The [documentation] field of a completion item: [string | MarkupContent]. *)
Inductive Documentation :=
| DocString (s : string)
| DocMarkup (m : MarkupContent).

Module CompletionTriggerKind.
Definition Invoked : Z := 1.
Definition TriggerCharacter : Z := 2.
Definition TriggerForIncompleteCompletions : Z := 3.
End CompletionTriggerKind.

Module CompletionItemKind.
Definition Field : Z := 5.
End CompletionItemKind.

Module MarkupKind.
Definition Markdown : string := "markdown".
End MarkupKind.

(** ** TypeScript data types *)

Record TextSpan := mkTextSpan { span_start : Z; span_length : Z }.

Module ScriptElementKind.
Definition memberVariableElement : string := "property".
Definition scriptElement : string := "script".
Definition jsxAttribute : string := "JSX attribute".
End ScriptElementKind.

(** The fields of [ts.CompletionEntry] the provider reads. *)
Record CompletionEntry := mkCompletionEntry {
  name : string;
  kind : string;
  kindModifiers : option string;
  sortText : string;
  insertText : option string;
  replacementSpan : option TextSpan;
  isRecommended : option bool;
  source : option string
}.

(** [CompletionEntryWithIdentifier]: the raw entry with the document uri and
    the trigger position. *)
Record CompletionEntryWithIdentifier := mkCompletionEntryWithIdentifier {
  data_entry : CompletionEntry;
  data_uri : string;
  data_position : Position
}.

Record CompletionItem := mkCompletionItem {
  item_label : string;
  item_insertText : option string;
  item_kind : option Z;
  item_commitCharacters : option (list string);
  item_sortText : option string;
  item_preselect : option bool;
  item_detail : option string;
  item_documentation : option Documentation;
  item_textEdit : option Edit;
  item_additionalTextEdits : option (list TextEdit);
  item_data : option CompletionEntryWithIdentifier
}.

Record CompletionList := mkCompletionList {
  isIncomplete : bool;
  items : list CompletionItem
}.

(** [CompletionList.create(items, isIncomplete)] *)
Definition CompletionList_create (its : list CompletionItem) (inc : bool) : CompletionList :=
  {| isIncomplete := inc; items := its |}.

(** ** The text-edit range fixer *)

(** [Is.uinteger] of vscode-languageserver-types: a number from 0 to 2147483647. *)
Definition isUinteger (n : Z) : bool := (0 <=? n) && (n <=? 2147483647).

(** [Position.is]: line and character are unsigned integers. *)
Definition Position_is (p : Position) : bool :=
  isUinteger (line p) && isUinteger (character p).

(** [Range.is]: start and end are positions. *)
Definition Range_is (r : Range) : bool :=
  Position_is (range_start r) && Position_is (range_end r).

(** [TextEdit.is] on an object with a [newText] string and a [range]: the
    range is a range.  An edit with an unmapped position, of line and
    character -1, is no text edit for it. *)
Definition TextEdit_is (e : TextEdit) : bool := Range_is (range e).

(** [fixTextEditRange(wordRangePosition, completionItem)].  The source compares
    [wordRangePosition.line] with itself, which is written out here as it is. *)
Definition fixTextEditRange (wordRangePosition : Position) (completionItem : CompletionItem)
  : CompletionItem :=
  match item_textEdit completionItem with
  | None => completionItem
  | Some (InsertReplace _) => completionItem
  | Some (PlainEdit textEdit) =>
      if negb (TextEdit_is textEdit) then completionItem else
      let newText0 := newText textEdit in
      let start := range_start (range textEdit) in
      let wordRangeStartCharacter := character wordRangePosition in
      if negb (line wordRangePosition =? line wordRangePosition)
         || (character start >? character wordRangePosition)
      then completionItem
      else
        let textEdit' :=
          {| newText := JsString.substring1 newText0 (wordRangeStartCharacter - character start);
             range := {| range_start := {| line := line start;
                                           character := wordRangeStartCharacter |};
                         range_end := range_end (range textEdit) |} |} in
        let additional :=
          [ TextEdit_replace
              {| range_start := start;
                 range_end := {| line := line start; character := wordRangeStartCharacter |} |}
              (JsString.substring2 newText0 0 (wordRangeStartCharacter - character start)) ] in
        {| item_label := item_label completionItem;
           item_insertText := item_insertText completionItem;
           item_kind := item_kind completionItem;
           item_commitCharacters := item_commitCharacters completionItem;
           item_sortText := item_sortText completionItem;
           item_preselect := item_preselect completionItem;
           item_detail := item_detail completionItem;
           item_documentation := item_documentation completionItem;
           item_textEdit := Some (PlainEdit textEdit');
           item_additionalTextEdits := Some additional;
           item_data := item_data completionItem |}
  end.

(** ** Collaborators *)

(** [TagInformation] of a script or style region; the provider reads [start]. *)
Record TagInformation := mkTagInformation { tag_start : Z; tag_end : Z }.

Record WordRange := mkWordRange { wr_start : Z; wr_end : Z }.

Record AttributeContext := mkAttributeContext { attr_ctx_name : string; inValue : bool }.

(** A node of the parsed template: its [type] and the [type] of its parent. *)
Record SvelteNode := mkSvelteNode { node_type : string; node_parent_type : option string }.

(** One element of [ComponentPartInfo]. *)
Record ComponentPart := mkComponentPart {
  part_name : string;
  part_type : string;
  part_doc : option string
}.

Record ComponentInfoProvider := mkComponentInfoProvider {
  getEvents : list ComponentPart;
  getSlotLets : list ComponentPart;
  getProps : list ComponentPart;
  getProp : string -> list CompletionEntry
}.

(** The original document. *)
Record Document := mkDocument {
  getText : string;
  getFilePath : option string;
  doc_offsetAt : Position -> Z;
  doc_positionAt : Z -> Position;
  styleInfo : option TagInformation;
  doc_scriptInfo : option TagInformation;
  doc_moduleScriptInfo : option TagInformation
}.

(** The generated document snapshot ([SvelteDocumentSnapshot]). *)
Record Snapshot := mkSnapshot {
  filePath : string;
  isInGenerated : Position -> bool;
  getGeneratedPosition : Position -> Position;
  offsetAt : Position -> Z;
  svelteNodeAt : Z -> option SvelteNode;
  parserError : option string;
  scriptInfo : option TagInformation;
  moduleScriptInfo : option TagInformation;
  getFullText : string
}.

(** A string-literal or other initializer of a JSX attribute. *)
Record Initializer := mkInitializer {
  isStringLiteral : bool;
  getWidth : Z;
  getStart : Z
}.

Record JsxAttribute := mkJsxAttribute {
  attr_name_text : string;
  initializer : option Initializer
}.

(** The language service: its completion query and, for a file of its
    program, the JSX attribute containing an offset
    ([findContainingNode(sourceFile, {start, length: 0}, ts.isJsxAttribute)]). *)
Record LanguageService := mkLanguageService {
  getCompletionsAtPosition : string -> Z -> option string -> option (list CompletionEntry);
  getSourceFile : string -> option (Z -> option JsxAttribute)
}.

Record LSAndTSDoc := mkLSAndTSDoc { lang : LanguageService; tsDoc : Snapshot }.

(** The uses a request makes of the language service: the queries
    [getCompletionsAtPosition] and [getProgram] that [getCompletions] makes
    itself, and the calls of the helpers it hands the language service to,
    [getComponentAtPosition(lang, ...)] and [getJsDocTemplateCompletion(tsDoc,
    lang, ...)], which query it in their turn. *)
Inductive EngineQuery :=
| QueryCompletions (file : string) (offset : Z) (triggerCharacter : option string)
| QueryProgram
| QueryDocCommentTemplate (file : string) (offset : Z)
| ComponentLookup (pos : Position).

(** The functions imported from [lib/documents], [utils], [../utils] and
    [./utils], the regular expressions of the JavaScript runtime and
    [ts.sys.newLine]. *)
Record Lib := mkLib {
  isInTag : Position -> option TagInformation -> bool;
  getWordRangeAt : string -> Z -> WordRange;
  getComponentAtPosition :
    LanguageService -> Document -> Snapshot -> Position -> option ComponentInfoProvider;
  getAttributeContextAtPosition : Document -> Position -> option AttributeContext;
  getNodeIfIsInStartTag : Document -> Z -> bool;
  getNodeIfIsInHTMLStartTag : Document -> Z -> bool;
  isPartOfImportStatement : string -> Position -> bool;
  toRange : string -> Z -> Z -> Range;
  mapCompletionItemToOriginal : Snapshot -> CompletionItem -> CompletionItem;
  mapRangeToOriginal : Snapshot -> Range -> Range;
  convertRange : Snapshot -> TextSpan -> Range;
  convertRangeDoc : Document -> TextSpan -> Range;
  isInScript : Position -> Document -> bool;
  isInScriptSnapshot : Position -> Snapshot -> bool;
  pathToUrl : string -> string;
  changeSvelteComponentName : string -> string;
  scriptElementKindToCompletionItemKind : string -> option Z;
  getCommitCharactersForScriptElement : string -> option (list string);
  getJsDocTemplateCompletion :
    Snapshot -> LanguageService -> string -> Z -> option CompletionList;
  (** capture groups 1 and 2 of every match of [scriptImportRegex] in a text *)
  scriptImportMatches : string -> list (option string * option string);
  (** whether a text matches the import statement pattern built from a name *)
  matchesSvelteImportOf : string -> string -> bool;
  sys_newLine : string
}.

(** The part of the configuration the provider reads. *)
Record Config := mkConfig {
  defaultScriptLanguage : string;
  useNewTransformation : bool
}.

Record LastCompletion := mkLastCompletion {
  key : string;
  position : Position;
  completionList : option CompletionList
}.

(** What one call of [getCompletions] does: the value it resolves to, the
    cache it leaves and the queries it made of the language service. *)
Record Outcome := mkOutcome {
  returned : option CompletionList;
  cache : option LastCompletion;
  queries : list EngineQuery
}.

(** ** JavaScript operators on optional values *)

(** [a || b] on a number-or-undefined [a]: 0 and [undefined] are falsy. *)
Definition orElseZ (a : option Z) (b : Z) : Z :=
  match a with
  | Some x => if x =? 0 then b else x
  | None => b
  end.

(** [a || ''] on a string-or-null [a]. *)
Definition orEmpty (a : option string) : string :=
  match a with
  | Some x => x
  | None => EmptyString
  end.

(** Truthiness of a string-or-undefined. *)
Definition truthyOpt (a : option string) : bool :=
  match a with
  | Some x => JsString.truthy x
  | None => false
  end.

(** [a === b] of a string-or-undefined with a string constant. *)
Definition isString (a : option string) (b : string) : bool :=
  match a with
  | Some x => String.eqb x b
  | None => false
  end.

(** [a === b] of a number-or-undefined with a number constant. *)
Definition isNumber (a : option Z) (b : Z) : bool :=
  match a with
  | Some x => x =? b
  | None => false
  end.

(** A code unit that [String.prototype.trim] removes (among those below 256). *)
Definition isWhiteSpace (c : ascii) : bool :=
  let n := nat_of_ascii c in
  ((9 <=? n) && (n <=? 13) || (n =? 32) || (n =? 160))%nat.

Fixpoint trimStart (s : string) : string :=
  match s with
  | EmptyString => EmptyString
  | String c s' => if isWhiteSpace c then trimStart s' else s
  end.

(** [s.trim()] *)
Definition trim (s : string) : string :=
  String.rev (trimStart (String.rev (trimStart s))).

(** [s.split(',')] *)
Fixpoint splitComma (s : string) : list string :=
  match s with
  | EmptyString => [EmptyString]
  | String c s' =>
      if Ascii.eqb c ","%char then EmptyString :: splitComma s'
      else match splitComma s' with
           | [] => [String c EmptyString]
           | w :: ws => String c w :: ws
           end
  end.

(** ** Constants of the module *)

Definition beginOfDocumentRange : Range :=
  mkRange (mkPosition 0 0) (mkPosition 0 0).

(** Type definitions of the shims that must not appear in suggestions. *)
Definition svelte2tsxTypes : gset string :=
  list_to_set
    [ "Svelte2TsxComponent";
      "Svelte2TsxComponentConstructorParameters";
      "SvelteComponentConstructor";
      "SvelteActionReturnType";
      "SvelteTransitionConfig";
      "SvelteTransitionReturnType";
      "SvelteAnimationReturnType";
      "SvelteWithOptionalProps";
      "SvelteAllProps";
      "SveltePropsAnyFallback";
      "SvelteSlotsAnyFallback";
      "SvelteRestProps";
      "SvelteSlots";
      "SvelteStore" ].

(** [set.has(x)] *)
Definition has (s : gset string) (x : string) : bool := bool_decide (x ∈ s).

(** ** The provider [CompletionsProviderImpl] *)

(** What [getCompletionLabelAndInsert] returns when it returns an object. *)
Record LabelAndInsert := mkLabelAndInsert {
  li_label : string;
  li_insertText : option string;
  li_isSvelteComp : bool;
  li_replacementSpan : option TextSpan
}.

(** [ts.TextChange] *)
Record TextChange := mkTextChange { change_span : TextSpan; change_newText : string }.

Section Provider.

Context (lib : Lib).
(** The constructor arguments. *)
Context (lsAndTsDocResolver : Document -> LSAndTSDoc) (configManager : Config).

Definition validTriggerCharacters : list string :=
  [ "."; JsString.quote; "'"; "`"; "/"; "@"; "<"; "#" ].

Definition isValidTriggerCharacter (c : option string) : bool :=
  match c with
  | Some c => JsString.includes validTriggerCharacters c
  | None => false
  end.

Definition canReuseLastCompletion
    (lastCompletion : option LastCompletion)
    (triggerKind : option Z) (triggerCharacter : option string)
    (document : Document) (pos : Position) : bool :=
  match lastCompletion with
  | None => false
  | Some lastCompletion =>
      match getFilePath document with
      | Some p => String.eqb (key lastCompletion) p
      | None => false
      end
      && (line (position lastCompletion) =? line pos)
      && (((Z.abs (character (position lastCompletion) - character pos) <? 2)
           && (isNumber triggerKind CompletionTriggerKind.TriggerForIncompleteCompletions
               || (isString triggerCharacter "."
                   && isPartOfImportStatement lib (getText document) pos)))
          || ((Z.abs (character (position lastCompletion) - character pos) <? 4)
              && isString triggerCharacter ":"
              && getNodeIfIsInStartTag lib document (doc_offsetAt document pos)))
  end.

(** [getExistingImports(document)]; of the two groups of [scriptImportRegex]
    one takes part in every match. *)
Definition getExistingImports (document : Document) : gset string :=
  let rawImports :=
    map (fun m : option string * option string =>
           splitComma (match fst m with
                       | Some g => g
                       | None => orEmpty (snd m)
                       end))
        (scriptImportMatches lib (getText document)) in
  let tidiedImports := map trim (concat rawImports) in
  list_to_set tidiedImports.

Definition componentInfoToCompletionEntry
    (info : ComponentPart) (prefix : string) (kind : option Z)
    (doc : Document) (wordRange : WordRange) : CompletionItem :=
  let start := wr_start wordRange in
  let end_ := wr_end wordRange in
  let name := prefix +:+ part_name info in
  {| item_label := name;
     item_insertText := None;
     item_kind := kind;
     item_commitCharacters := None;
     item_sortText := Some "-1";
     item_preselect := None;
     item_detail := Some (part_name info +:+ ": " +:+ part_type info);
     item_documentation :=
       match part_doc info with
       | None => None
       | Some d =>
           if JsString.truthy d
           then Some (DocMarkup {| markup_kind := MarkupKind.Markdown; markup_value := d |})
           else Some (DocString d)
       end;
     item_textEdit :=
       if negb (start =? end_)
       then Some (PlainEdit (TextEdit_replace (toRange lib (getText doc) start end_) name))
       else None;
     item_additionalTextEdits := None;
     item_data := None |}.

Definition getEventAndSlotLetCompletions
    (componentInfo : option ComponentInfoProvider) (document : Document)
    (attributeContext : option AttributeContext) (wordRange : WordRange)
  : list CompletionItem :=
  match componentInfo with
  | None => []
  | Some componentInfo =>
      if match attributeContext with
         | Some ctx => inValue ctx
         | None => false
         end
      then []
      else
        map (fun event =>
               componentInfoToCompletionEntry event "on:" None document wordRange)
            (getEvents componentInfo)
        ++ map (fun slot =>
                  componentInfoToCompletionEntry slot "let:" None document wordRange)
               (getSlotLets componentInfo)
  end.

Definition isSvelteComponentImport (className : string) : bool :=
  JsString.endsWith className "__SvelteComponent_".

Definition isExistingSvelteComponentImport
    (snapshot : Snapshot) (name : string) (source : option string) : bool :=
  truthyOpt source && matchesSvelteImportOf lib name (getFullText snapshot).

Definition getCompletionLabelAndInsert (snapshot : Snapshot) (comp : CompletionEntry)
  : option LabelAndInsert :=
  let isScriptElement := String.eqb (kind comp) ScriptElementKind.scriptElement in
  let hasModifier := truthyOpt (kindModifiers comp) in
  let isSvelteComp := isSvelteComponentImport (name comp) in
  let name' :=
    if isSvelteComp then changeSvelteComponentName lib (name comp) else name comp in
  if isSvelteComp && isExistingSvelteComponentImport snapshot name' (source comp)
  then None
  else if isScriptElement && hasModifier
  then
    let label :=
      match kindModifiers comp with
      | Some m =>
          if JsString.truthy m && negb (JsString.endsWith name' m)
          then name' +:+ m else name'
      | None => name'
      end in
    Some {| li_insertText := Some name';
            li_label := label;
            li_isSvelteComp := isSvelteComp;
            li_replacementSpan := None |}
  else match replacementSpan comp with
       | Some span =>
           Some {| li_label := name';
                   li_isSvelteComp := isSvelteComp;
                   li_insertText :=
                     match insertText comp with
                     | Some t =>
                         if JsString.truthy t
                         then Some (changeSvelteComponentName lib t) else None
                     | None => None
                     end;
                   li_replacementSpan := Some span |}
       | None =>
           Some {| li_label := name';
                   li_isSvelteComp := isSvelteComp;
                   li_insertText := None;
                   li_replacementSpan := None |}
       end.

Definition toCompletionItem
    (snapshot : Snapshot) (comp : CompletionEntry) (uri : string)
    (pos : Position) (existingImports : gset string) : option CompletionItem :=
  match getCompletionLabelAndInsert snapshot comp with
  | None => None
  | Some completionLabelAndInsert =>
      let label := li_label completionLabelAndInsert in
      let insertText := li_insertText completionLabelAndInsert in
      let isSvelteComp := li_isSvelteComp completionLabelAndInsert in
      if isSvelteComp && has existingImports label
      then None
      else
        let textEdit :=
          match li_replacementSpan completionLabelAndInsert with
          | Some span =>
              Some (PlainEdit
                      (TextEdit_replace (convertRange lib snapshot span)
                                        (match insertText with
                                         | Some t => t
                                         | None => label
                                         end)))
          | None => None
          end in
        Some {| item_label := label;
                item_insertText := insertText;
                item_kind := scriptElementKindToCompletionItemKind lib (kind comp);
                item_commitCharacters :=
                  getCommitCharactersForScriptElement lib (kind comp);
                item_sortText := Some (if isSvelteComp then "-1" else sortText comp);
                item_preselect :=
                  if isSvelteComp then Some true else isRecommended comp;
                item_detail := None;
                item_documentation := None;
                item_textEdit := textEdit;
                item_additionalTextEdits := None;
                item_data :=
                  Some {| data_entry := comp; data_uri := uri; data_position := pos |} |}
  end.

Definition withReplacementSpan (item : CompletionEntry) (span : option TextSpan)
  : CompletionEntry :=
  {| name := name item;
     kind := kind item;
     kindModifiers := kindModifiers item;
     sortText := sortText item;
     insertText := insertText item;
     replacementSpan := span;
     isRecommended := isRecommended item;
     source := source item |}.

(** [jsxTransformationPropStringLiteralCompletion]: its value, and the
    queries it makes of the language service. *)
Definition jsxTransformationPropStringLiteralCompletion
    (lang : LanguageService) (componentInfo : option ComponentInfoProvider)
    (pos : Z) (tsDoc : Snapshot)
  : option (list CompletionEntry) * list EngineQuery :=
  match componentInfo with
  | None => (None, [])
  | Some componentInfo =>
      if useNewTransformation configManager then (None, [])
      else
        match getSourceFile lang (filePath tsDoc) with
        | None => (None, [QueryProgram])
        | Some sourceFile =>
            match sourceFile pos with
            | None => (None, [QueryProgram])
            | Some jsxAttribute =>
                match initializer jsxAttribute with
                | None => (None, [QueryProgram])
                | Some init =>
                    if negb (isStringLiteral init) then (None, [QueryProgram])
                    else
                      let replacementSpan :=
                        if getWidth init =? 0 then None
                        else Some {| span_start := getStart init + 1;
                                     span_length := getWidth init - 2 |} in
                      (Some (map (fun item => withReplacementSpan item replacementSpan)
                                 (getProp componentInfo (attr_name_text jsxAttribute))),
                       [QueryProgram])
                end
            end
        end
  end.

Definition isNoSvelte2tsxCompletion (value : CompletionEntry) : bool :=
  negb (isString (kindModifiers value) "declare")
  || (negb (JsString.startsWith (name value) "__sveltets_")
      && negb (has svelte2tsxTypes (name value))).

Definition isValidCompletion (document : Document) (pos : Position)
    (value : CompletionEntry) : bool :=
  let isCompletionInHTMLStartTag :=
    getNodeIfIsInHTMLStartTag lib document (doc_offsetAt document pos) in
  if negb isCompletionInHTMLStartTag then isNoSvelte2tsxCompletion value
  else negb (String.eqb (kind value) ScriptElementKind.jsxAttribute)
       && isNoSvelte2tsxCompletion value.

(** [!!tsDoc.parserError] *)
Definition hasParserError (tsDoc : Snapshot) : bool :=
  match parserError tsDoc with
  | Some _ => true
  | None => false
  end.

(** [svelteNode?.type === t] *)
Definition nodeTypeIs (svelteNode : option SvelteNode) (t : string) : bool :=
  match svelteNode with
  | Some n => String.eqb (node_type n) t
  | None => false
  end.

(** The cursor is somewhere in regular HTML text. *)
Definition isInHTMLText (svelteNode : option SvelteNode) : bool :=
  match svelteNode with
  | Some n =>
      String.eqb (node_type n) "Text"
      && match node_parent_type n with
         | Some p =>
             JsString.includes ["Element"; "InlineComponent"; "Fragment"; "SlotTemplate"] p
         | None => false
         end
  | None => false
  end.

(** [getCompletions(document, position, completionContext, cancellationToken)],
    from the point where the awaited [getLSAndTSDoc] has resolved: the rest
    of the body runs without suspension.  [lastCompletion] is the field of
    the provider when the call starts; [triggerKind] and [triggerCharacter]
    are those of the optional completion context. *)
Definition getCompletions
    (lastCompletion : option LastCompletion)
    (document : Document) (pos : Position)
    (triggerKind : option Z) (triggerCharacter : option string)
    (isCancellationRequested : bool) : Outcome :=
  if isInTag lib pos (styleInfo document)
  then mkOutcome None lastCompletion []
  else
  let lang := lang (lsAndTsDocResolver document) in
  let tsDoc := tsDoc (lsAndTsDocResolver document) in
  let filePath := filePath tsDoc in
  if negb (JsString.truthy filePath)
  then mkOutcome None lastCompletion []
  else
  let validTriggerCharacter :=
    if isValidTriggerCharacter triggerCharacter then triggerCharacter else None in
  let isCustomTriggerCharacter :=
    isNumber triggerKind CompletionTriggerKind.TriggerCharacter in
  let isJsDocTriggerCharacter := isString triggerCharacter "*" in
  let isEventOrSlotLetTriggerCharacter := isString triggerCharacter ":" in
  if isCustomTriggerCharacter
     && negb (truthyOpt validTriggerCharacter)
     && negb isJsDocTriggerCharacter
     && negb isEventOrSlotLetTriggerCharacter
  then mkOutcome None lastCompletion []
  else
  match lastCompletion,
        canReuseLastCompletion lastCompletion triggerKind triggerCharacter document pos
  with
  | Some last, true =>
      mkOutcome (completionList last)
                (Some {| key := key last;
                         position := pos;
                         completionList := completionList last |})
                []
  | _, _ =>
  (* this.lastCompletion = undefined *)
  if negb (isInGenerated tsDoc pos)
  then mkOutcome None None []
  else
  let originalOffset := doc_offsetAt document pos in
  let offset := offsetAt tsDoc (getGeneratedPosition tsDoc pos) in
  if isJsDocTriggerCharacter
  then mkOutcome (getJsDocTemplateCompletion lib tsDoc lang filePath offset) None
                 [QueryDocCommentTemplate filePath offset]
  else
  let svelteNode := svelteNodeAt tsDoc originalOffset in
  if isInHTMLText svelteNode
     || String.eqb (JsString.substring2 (getText document)
                                        (originalOffset - 1) (originalOffset + 2))
                   "></"
  then mkOutcome None None []
  else
  if isCancellationRequested
  then mkOutcome None None []
  else
  let wordRange := getWordRangeAt lib (getText document) originalOffset in
  let componentInfo := getComponentAtPosition lib lang document tsDoc pos in
  let attributeContext :=
    match componentInfo with
    | Some _ => getAttributeContextAtPosition lib document pos
    | None => None
    end in
  let eventAndSlotLetCompletions :=
    getEventAndSlotLetCompletions componentInfo document attributeContext wordRange in
  if isEventOrSlotLetTriggerCharacter
  then mkOutcome (Some (CompletionList_create eventAndSlotLetCompletions
                                              (hasParserError tsDoc)))
                 None [ComponentLookup pos]
  else
  if isCancellationRequested
  then mkOutcome None None [ComponentLookup pos]
  else
  let engineEntries :=
    match getCompletionsAtPosition lang filePath offset validTriggerCharacter with
    | Some entries => entries
    | None => []
    end in
  let fallback :=
    jsxTransformationPropStringLiteralCompletion lang componentInfo offset tsDoc in
  let completions :=
    match engineEntries with
    | [] => match fst fallback with
            | Some entries => entries
            | None => []
            end
    | _ :: _ => engineEntries
    end in
  let log :=
    ComponentLookup pos
    :: QueryCompletions filePath offset validTriggerCharacter
    :: match engineEntries with
       | [] => snd fallback
       | _ :: _ => []
       end in
  if (Z.of_nat (length completions) =? 0)
     && (Z.of_nat (length eventAndSlotLetCompletions) =? 0)
  then mkOutcome (if hasParserError tsDoc
                  then Some (CompletionList_create [] true)
                  else None)
                 None log
  else
  if (500 <? Z.of_nat (length completions))
     && nodeTypeIs svelteNode "Element"
     && negb (match completions with
              | c :: _ => String.eqb (kind c) ScriptElementKind.memberVariableElement
              | [] => false
              end)
  then mkOutcome None None log
  else
  if (500 <? Z.of_nat (length completions))
     && nodeTypeIs svelteNode "InlineComponent"
     && JsString.includes
          ["  "; " >"; " /"]
          (JsString.substring2 (getText document) (originalOffset - 1) (originalOffset + 1))
  then
    let props :=
      if match attributeContext with
         | Some ctx => inValue ctx
         | None => false
         end
      then []
      else match componentInfo with
           | Some componentInfo =>
               map (fun entry =>
                      componentInfoToCompletionEntry
                        entry EmptyString (Some CompletionItemKind.Field) document wordRange)
                   (getProps componentInfo)
           | None => []
           end in
    mkOutcome (Some (CompletionList_create
                       (eventAndSlotLetCompletions ++ props)
                       (hasParserError tsDoc)))
              None log
  else
  let existingImports := getExistingImports document in
  let wordRangeStartPosition := doc_positionAt document (wr_start wordRange) in
  let completionItems :=
    map (fixTextEditRange wordRangeStartPosition)
        (map (mapCompletionItemToOriginal lib tsDoc)
             (omap (fun comp =>
                      toCompletionItem tsDoc comp (pathToUrl lib filePath) pos
                                       existingImports)
                   (List.filter (isValidCompletion document pos) completions)))
    ++ eventAndSlotLetCompletions in
  let completionList :=
    CompletionList_create completionItems (hasParserError tsDoc) in
  mkOutcome (Some completionList)
            (Some {| key := orEmpty (getFilePath document);
                     position := pos;
                     completionList := Some completionList |})
            log
  end.

Definition changeComponentImport (importText : string) (actionTriggeredInScript : bool)
  : string :=
  let changedName := changeSvelteComponentName lib importText in
  if negb (String.eqb importText changedName) || negb actionTriggeredInScript
  then JsString.replace " type " " " changedName
  else importText.

Definition offsetLinesAndMovetoStartOfLine (r : Range) (offsetLines : Z) : Range :=
  mkRange (mkPosition (line (range_start r) + offsetLines) 0)
          (mkPosition (line (range_end r) + offsetLines) 0).

Definition mapRangeForNewImport (snapshot : Snapshot) (virtualRange : Range) : Range :=
  let sourceMappableRange := offsetLinesAndMovetoStartOfLine virtualRange (-1) in
  let mappableRange := mapRangeToOriginal lib snapshot sourceMappableRange in
  offsetLinesAndMovetoStartOfLine mappableRange 1.

(** [snapshot.scriptInfo || snapshot.moduleScriptInfo] *)
Definition scriptTagInfoOf (snapshot : Snapshot) : option TagInformation :=
  match scriptInfo snapshot with
  | Some t => Some t
  | None => moduleScriptInfo snapshot
  end.

(** [codeActionChangeToTextEdit(doc, snapshot, change, isImport, originalTriggerPosition)]:
    the text edit it returns ([change.newText] is a local of the translation). *)
Definition codeActionChangeToTextEdit
    (doc : Document) (snapshot : Snapshot) (change : TextChange)
    (isImport : bool) (originalTriggerPosition : Position) : TextEdit :=
  let newText1 :=
    changeComponentImport (change_newText change)
                          (isInScript lib originalTriggerPosition doc) in
  match scriptTagInfoOf snapshot with
  | None =>
      (* no script tag defined yet, add it. *)
      let lang := defaultScriptLanguage configManager in
      let scriptLang :=
        if String.eqb lang "none" then EmptyString
        else " lang=" +:+ JsString.quote +:+ lang +:+ JsString.quote in
      TextEdit_replace
        beginOfDocumentRange
        ("<script" +:+ scriptLang +:+ ">" +:+ sys_newLine lib +:+ newText1
         +:+ "</script>" +:+ sys_newLine lib)
  | Some scriptTagInfo =>
      let span := change_span change in
      let virtualRange := convertRange lib snapshot span in
      let isNewImport := isImport && (character (range_start virtualRange) =? 0) in
      let range0 :=
        if isNewImport && (line (range_start virtualRange) >? 1)
        then mapRangeForNewImport snapshot virtualRange
        else mapRangeToOriginal lib snapshot virtualRange in
      let range1 :=
        if (line (range_start range0) =? -1)
           || ((line (range_start range0) =? 0)
               && (character (range_start range0) <=? 1)
               && (span_length span =? 0))
           || negb (isInScriptSnapshot lib (range_start range0) snapshot)
        then
          convertRangeDoc lib doc
            {| span_start :=
                 if isInTag lib originalTriggerPosition (doc_scriptInfo doc)
                 then orElseZ (option_map tag_start (scriptInfo snapshot))
                              (tag_start scriptTagInfo)
                 else if isInTag lib originalTriggerPosition (doc_moduleScriptInfo doc)
                 then orElseZ (option_map tag_start (moduleScriptInfo snapshot))
                              (tag_start scriptTagInfo)
                 else tag_start scriptTagInfo;
               span_length := span_length span |}
        else range0 in
      (* prevent newText from being placed like this: <script>import {} from '' *)
      let editOffset := doc_offsetAt doc (range_start range1) in
      let newText2 :=
        if (isNumber (option_map tag_start (scriptInfo snapshot)) editOffset
            || isNumber (option_map tag_start (moduleScriptInfo snapshot)) editOffset)
           && negb (JsString.startsWith newText1 JsString.crlf)
           && negb (JsString.startsWith newText1 JsString.lf)
        then sys_newLine lib +:+ newText1
        else newText1 in
      TextEdit_replace range1 newText2
  end.

Definition codeActionChangesToTextEdit
    (doc : Document) (snapshot : Snapshot) (textChanges : list TextChange)
    (isImport : bool) (originalTriggerPosition : Position) : list TextEdit :=
  map (fun change =>
         codeActionChangeToTextEdit doc snapshot change isImport originalTriggerPosition)
      textChanges.

End Provider.

(** ** Sequences of requests *)

(** The provider serves one request after the other; the [lastCompletion]
    field a request leaves is the one the next request finds. *)
Record Request := mkRequest {
  req_document : Document;
  req_position : Position;
  req_triggerKind : option Z;
  req_triggerCharacter : option string;
  req_isCancellationRequested : bool
}.

Section Serving.

Context (lib : Lib) (lsAndTsDocResolver : Document -> LSAndTSDoc) (configManager : Config).

Definition handle (lastCompletion : option LastCompletion) (r : Request) : Outcome :=
  getCompletions lib lsAndTsDocResolver configManager lastCompletion
                 (req_document r) (req_position r)
                 (req_triggerKind r) (req_triggerCharacter r)
                 (req_isCancellationRequested r).

Fixpoint serve (lastCompletion : option LastCompletion) (rs : list Request)
  : list Outcome :=
  match rs with
  | [] => []
  | r :: rs' =>
      let o := handle lastCompletion r in
      o :: serve (cache o) rs'
  end.

(** The cache after a sequence of requests. *)
Fixpoint cacheAfter (lastCompletion : option LastCompletion) (rs : list Request)
  : option LastCompletion :=
  match rs with
  | [] => lastCompletion
  | r :: rs' => cacheAfter (cache (handle lastCompletion r)) rs'
  end.

(** ** The locals of [getCompletions], as functions of the request *)

Definition langOf (document : Document) : LanguageService :=
  lang (lsAndTsDocResolver document).

Definition tsDocOf (document : Document) : Snapshot :=
  tsDoc (lsAndTsDocResolver document).

(** [originalOffset] *)
Definition originalOffsetOf (document : Document) (pos : Position) : Z :=
  doc_offsetAt document pos.

(** [offset] *)
Definition offsetOf (document : Document) (pos : Position) : Z :=
  offsetAt (tsDocOf document) (getGeneratedPosition (tsDocOf document) pos).

(** [svelteNode] *)
Definition svelteNodeOf (document : Document) (pos : Position) : option SvelteNode :=
  svelteNodeAt (tsDocOf document) (originalOffsetOf document pos).

(** [wordRange] *)
Definition wordRangeOf (document : Document) (pos : Position) : WordRange :=
  getWordRangeAt lib (getText document) (originalOffsetOf document pos).

(** [componentInfo] *)
Definition componentInfoOf (document : Document) (pos : Position)
  : option ComponentInfoProvider :=
  getComponentAtPosition lib (langOf document) document (tsDocOf document) pos.

(** [attributeContext] *)
Definition attributeContextOf (document : Document) (pos : Position)
  : option AttributeContext :=
  match componentInfoOf document pos with
  | Some _ => getAttributeContextAtPosition lib document pos
  | None => None
  end.

(** [attributeContext?.inValue], as a condition *)
Definition inAttributeValue (document : Document) (pos : Position) : bool :=
  match attributeContextOf document pos with
  | Some ctx => inValue ctx
  | None => false
  end.

(** [eventAndSlotLetCompletions] *)
Definition eventAndSlotLetCompletionsOf (document : Document) (pos : Position)
  : list CompletionItem :=
  getEventAndSlotLetCompletions lib (componentInfoOf document pos) document
                                (attributeContextOf document pos)
                                (wordRangeOf document pos).

(** [validTriggerCharacter] *)
Definition validTriggerCharacterOf (triggerCharacter : option string) : option string :=
  if isValidTriggerCharacter triggerCharacter then triggerCharacter else None.

(** The entries of [lang.getCompletionsAtPosition(...)?.entries || []]. *)
Definition engineEntriesOf (document : Document) (pos : Position)
    (triggerCharacter : option string) : list CompletionEntry :=
  match getCompletionsAtPosition (langOf document) (filePath (tsDocOf document))
                                 (offsetOf document pos)
                                 (validTriggerCharacterOf triggerCharacter) with
  | Some entries => entries
  | None => []
  end.

(** The entries of the prop string-literal fallback, [... ?? []]. *)
Definition fallbackEntriesOf (document : Document) (pos : Position)
  : list CompletionEntry :=
  match fst (jsxTransformationPropStringLiteralCompletion
               configManager (langOf document) (componentInfoOf document pos)
               (offsetOf document pos) (tsDocOf document)) with
  | Some entries => entries
  | None => []
  end.

(** The props of the narrowed list. *)
Definition propCompletionsOf (document : Document) (pos : Position)
  : list CompletionItem :=
  if inAttributeValue document pos then []
  else match componentInfoOf document pos with
       | Some componentInfo =>
           map (fun entry =>
                  componentInfoToCompletionEntry
                    lib entry EmptyString (Some CompletionItemKind.Field) document
                    (wordRangeOf document pos))
               (getProps componentInfo)
       | None => []
       end.

(** The request is rejected before the cache is looked up: the cursor is in
    the style region, the snapshot has no file path, or the trigger
    character is a custom one. *)
Definition rejectedBeforeCache (document : Document) (pos : Position)
    (triggerKind : option Z) (triggerCharacter : option string) : bool :=
  isInTag lib pos (styleInfo document)
  || negb (JsString.truthy (filePath (tsDocOf document)))
  || (isNumber triggerKind CompletionTriggerKind.TriggerCharacter
      && negb (truthyOpt (validTriggerCharacterOf triggerCharacter))
      && negb (isString triggerCharacter "*")
      && negb (isString triggerCharacter ":")).

(** The cursor is in text content between tags or at [>|</]. *)
Definition inPlainText (document : Document) (pos : Position) : bool :=
  isInHTMLText (svelteNodeOf document pos)
  || String.eqb (JsString.substring2 (getText document)
                                     (originalOffsetOf document pos - 1)
                                     (originalOffsetOf document pos + 2))
                "></".

(** The request gets as far as the metadata generator: it is not rejected,
    not served from the cache, inside the generated region, not a doc-comment
    request, not in plain text and not cancelled. *)
Definition reachesMetadata (lastCompletion : option LastCompletion)
    (document : Document) (pos : Position)
    (triggerKind : option Z) (triggerCharacter : option string)
    (isCancellationRequested : bool) : bool :=
  negb (rejectedBeforeCache document pos triggerKind triggerCharacter)
  && negb (canReuseLastCompletion lib lastCompletion triggerKind triggerCharacter
                                  document pos)
  && isInGenerated (tsDocOf document) pos
  && negb (isString triggerCharacter "*")
  && negb (inPlainText document pos)
  && negb isCancellationRequested.

(** The request gets as far as the query of the language service. *)
Definition reachesEngineQuery (lastCompletion : option LastCompletion)
    (document : Document) (pos : Position)
    (triggerKind : option Z) (triggerCharacter : option string)
    (isCancellationRequested : bool) : bool :=
  reachesMetadata lastCompletion document pos triggerKind triggerCharacter
                  isCancellationRequested
  && negb (isString triggerCharacter ":").

End Serving.

(** ** The generated region *)


(** ** Re-triggered requests *)

(** A request of kind re-trigger-for-incomplete at a column of a line. *)
Definition retrigger (document : Document) (l c : Z) : Request :=
  mkRequest document (mkPosition l c)
            (Some CompletionTriggerKind.TriggerForIncompleteCompletions) None false.

(** [n] such requests on line [l], at the columns [c + 1], [c + 2], ...: each
    is one column right of the one before it. *)
Fixpoint retriggers (document : Document) (l c : Z) (n : nat) : list Request :=
  match n with
  | O => []
  | S n' => retrigger document l (c + 1) :: retriggers document l (c + 1) n'
  end.

(** ** A concrete setting

    One-line documents of the file [/src/App.svelte] around a component [Foo]
    that declares the events [click] and [change], the slot-let [item] and the
    prop [title].  Positions are on line 0, an offset is a column, and the
    generated document has the coordinates of the original one. *)

Module Example.

Definition isWordChar (c : ascii) : bool :=
  let n := nat_of_ascii c in
  ((48 <=? n) && (n <=? 57) || (65 <=? n) && (n <=? 90)
   || (97 <=? n) && (n <=? 122) || (n =? 95))%nat.

(** The length of the longest prefix whose characters satisfy [p]. *)
Fixpoint spanLength (p : ascii -> bool) (s : string) : nat :=
  match s with
  | EmptyString => O
  | String c s' => if p c then S (spanLength p s') else O
  end.

(** Modelled from the spec: [getWordRangeAt] of [lib/documents] is not in
    the sources; the word range is found by scanning left over characters
    that are neither whitespace nor a dot, and right up to the first
    character that is neither a word character nor [:] nor [$]. *)
Definition scanWordRange (str : string) (pos : Z) : WordRange :=
  let before := JsString.substring2 str 0 pos in
  let after := JsString.substring1 str pos in
  let n := spanLength (fun c => negb (isWhiteSpace c) && negb (Ascii.eqb c "."%char))
                      (String.rev before) in
  let m := spanLength (fun c => isWordChar c || Ascii.eqb c "$"%char || Ascii.eqb c ":"%char)
                      after in
  {| wr_start := if (n =? 0)%nat then pos else pos - Z.of_nat n;
     wr_end := if (m =? String.length after)%nat then JsString.length str
               else pos + Z.of_nat m |}.

(** Modelled from the spec: [changeSvelteComponentName] of [../utils] is not
    in the sources; it rewrites a compiled-component placeholder name to the
    user-facing component name by removing the suffix marker. *)
Definition stripPlaceholder (s : string) : string :=
  JsString.replace "__SvelteComponent_" EmptyString s.

Definition fooInfo : ComponentInfoProvider :=
  {| getEvents := [ mkComponentPart "click" "MouseEvent" None;
                    mkComponentPart "change" "CustomEvent<string>" None ];
     getSlotLets := [ mkComponentPart "item" "string" None ];
     getProps := [ mkComponentPart "title" "string" None ];
     getProp := fun n =>
       if String.eqb n "title"
       then [ mkCompletionEntry "Hello" "string" None "11" None None None None ]
       else [] |}.

Definition lib : Lib :=
  {| isInTag := fun p tag =>
       match tag with
       | Some t => (line p =? 0) && (tag_start t <=? character p) && (character p <=? tag_end t)
       | None => false
       end;
     getWordRangeAt := scanWordRange;
     getComponentAtPosition := fun _ d _ _ =>
       if JsString.startsWith (getText d) "<Foo" then Some fooInfo else None;
     getAttributeContextAtPosition := fun d p =>
       if JsString.startsWith (getText d) "<Foo title=" && (character p =? 12)
       then Some (mkAttributeContext "title" true) else None;
     getNodeIfIsInStartTag := fun d o => (0 <? o) && (o <? JsString.length (getText d));
     getNodeIfIsInHTMLStartTag := fun d o =>
       JsString.startsWith (getText d) "<div"
       && (0 <? o) && (o <? JsString.length (getText d));
     isPartOfImportStatement := fun _ _ => false;
     toRange := fun _ s e => mkRange (mkPosition 0 s) (mkPosition 0 e);
     mapCompletionItemToOriginal := fun _ i => i;
     mapRangeToOriginal := fun _ r => r;
     convertRange := fun _ s =>
       mkRange (mkPosition 0 (span_start s)) (mkPosition 0 (span_start s + span_length s));
     convertRangeDoc := fun _ s =>
       mkRange (mkPosition 0 (span_start s)) (mkPosition 0 (span_start s + span_length s));
     isInScript := fun _ _ => false;
     isInScriptSnapshot := fun _ _ => false;
     pathToUrl := fun p => "file://" +:+ p;
     changeSvelteComponentName := stripPlaceholder;
     scriptElementKindToCompletionItemKind := fun k =>
       if String.eqb k ScriptElementKind.memberVariableElement
       then Some CompletionItemKind.Field else Some 10;
     getCommitCharactersForScriptElement := fun _ => None;
     getJsDocTemplateCompletion := fun _ _ _ _ => None;
     scriptImportMatches := fun _ => [];
     matchesSvelteImportOf := fun _ _ => false;
     sys_newLine := JsString.lf |}.

Definition config : Config :=
  {| defaultScriptLanguage := "ts"; useNewTransformation := false |}.

Definition mkDoc (text : string) : Document :=
  {| getText := text;
     getFilePath := Some "/src/App.svelte";
     doc_offsetAt := fun p => character p;
     doc_positionAt := fun o => mkPosition 0 o;
     styleInfo := None;
     doc_scriptInfo := None;
     doc_moduleScriptInfo := None |}.

(** [<Foo  />], the cursor of the requests at column 5. *)
Definition textEmptyTag : string := "<Foo  />".
(** [<Foo on: />], after [on:] has been typed; the cursor is at column 8. *)
Definition textOnColon : string := "<Foo on: />".
(** [<Foo title=.. />] with an empty string literal; the cursor is at column
    12, between the quotes. *)
Definition textValue : string :=
  "<Foo title=" +:+ JsString.quote +:+ JsString.quote +:+ " />".
(** [<div  />], a plain element. *)
Definition textDiv : string := "<div  />".

Definition docEmptyTag : Document := mkDoc textEmptyTag.
Definition docOnColon : Document := mkDoc textOnColon.
Definition docValue : Document := mkDoc textValue.
Definition docDiv : Document := mkDoc textDiv.

Definition titleEntry : CompletionEntry :=
  mkCompletionEntry "title" ScriptElementKind.jsxAttribute None "11" None None None None.

Definition globalEntry : CompletionEntry :=
  mkCompletionEntry "AbortController" "var" (Some "declare") "15" None None None None.

(** The snapshot of a document: [generatedBelow] is the first column that is
    outside the generated region. *)
Definition mkSnapshot' (text : string) (generatedBelow : Z) : Snapshot :=
  {| filePath := "/src/App.svelte";
     isInGenerated := fun p => character p <? generatedBelow;
     getGeneratedPosition := fun p => p;
     offsetAt := fun p => character p;
     svelteNodeAt := fun _ =>
       Some (mkSvelteNode (if JsString.startsWith text "<div"
                           then "Element" else "InlineComponent")
                          (Some "Fragment"));
     parserError := None;
     scriptInfo := None;
     moduleScriptInfo := None;
     getFullText := text |}.

(** The JSX attribute [title] of the generated file, whose initializer is
    the string literal of width 2 that starts at offset 11. *)
Definition titleAttribute : JsxAttribute :=
  {| attr_name_text := "title";
     initializer := Some {| isStringLiteral := true; getWidth := 2; getStart := 11 |} |}.

(** The language service answers with [entries] in a tag and with nothing
    inside the string literal of [textValue], where the attribute of the
    generated file is found. *)
Definition mkLang (text : string) (entries : list CompletionEntry) : LanguageService :=
  {| getCompletionsAtPosition := fun _ _ _ =>
       if String.eqb text textValue then None else Some entries;
     getSourceFile := fun _ =>
       if String.eqb text textValue
       then Some (fun o => if o =? 12 then Some titleAttribute else None)
       else None |}.

(** The documents of this setting have no style region, and all their
    columns are inside the generated region. *)
Definition resolverWith (entries : list CompletionEntry) (d : Document) : LSAndTSDoc :=
  {| lang := mkLang (getText d) entries;
     tsDoc := mkSnapshot' (getText d) 100 |}.

(** The language service offers the attribute [title]. *)
Definition resolver : Document -> LSAndTSDoc := resolverWith [titleEntry].

(** The language service offers 501 global symbols. *)
Definition floodResolver : Document -> LSAndTSDoc :=
  resolverWith (repeat globalEntry 501).

Definition at_ (c : Z) : Position := mkPosition 0 c.

(** An explicit request for completions at column 5 of [<Foo  />]. *)
Definition invokeInTag : Request :=
  mkRequest docEmptyTag (at_ 5) (Some CompletionTriggerKind.Invoked) None false.

(** The request sent when [:] is typed, at column 8 of [<Foo on: />]. *)
Definition colonTyped : Request :=
  mkRequest docOnColon (at_ 8) (Some CompletionTriggerKind.TriggerCharacter)
            (Some ":") false.

(** An explicit request between the quotes of [<Foo title=.. />]. *)
Definition invokeInValue : Request :=
  mkRequest docValue (at_ 12) (Some CompletionTriggerKind.Invoked) None false.

(** A raw entry of script-element kind whose name carries the placeholder
    suffix and which carries a kind modifier. *)
Definition scriptPlaceholderEntry : CompletionEntry :=
  mkCompletionEntry "Foo__SvelteComponent_" ScriptElementKind.scriptElement
                    (Some ".ts") "11" None None None None.

(** A raw entry for the component class [Foo], under its placeholder name. *)
Definition classPlaceholderEntry : CompletionEntry :=
  mkCompletionEntry "Foo__SvelteComponent_" "class" None "11" None None None
                    (Some "./Foo.svelte").

(** The names the import statements of a document import: [Foo]. *)
Definition importsFoo : gset string := {[ "Foo" ]}.

(** The text change of an auto-import code action. *)
Definition importChange : TextChange :=
  {| change_span := mkTextSpan 0 0;
     change_newText := "import Foo from './Foo.svelte';" +:+ JsString.lf |}.

(** A completion item with a primary text edit. *)
Definition itemWithEdit (l c : Z) (text : string) : CompletionItem :=
  {| item_label := text;
     item_insertText := None;
     item_kind := None;
     item_commitCharacters := None;
     item_sortText := None;
     item_preselect := None;
     item_detail := None;
     item_documentation := None;
     item_textEdit :=
       Some (PlainEdit (TextEdit_replace
                          (mkRange (mkPosition l c)
                                   (mkPosition l (c + JsString.length text)))
                          text));
     item_additionalTextEdits := None;
     item_data := None |}.

(** The cache the request [invokeInTag] leaves when it finds none. *)
Definition cached : option LastCompletion :=
  cache (handle lib resolver config None invokeInTag).

(** The list that request computed, stored at column 5. *)
Definition cachedAt5 : LastCompletion :=
  {| key := "/src/App.svelte";
     position := at_ 5;
     completionList := returned (handle lib resolver config None invokeInTag) |}.

End Example.

(** ** The raw entries and their translation, as functions of the request *)

Section Translating.

Context (lib : Lib) (lsAndTsDocResolver : Document -> LSAndTSDoc) (configManager : Config).

(** [completions], after the fallback has been tried *)
Definition completionsOf (document : Document) (pos : Position)
    (triggerCharacter : option string) : list CompletionEntry :=
  match engineEntriesOf lsAndTsDocResolver document pos triggerCharacter with
  | [] => fallbackEntriesOf lib lsAndTsDocResolver configManager document pos
  | _ :: _ => engineEntriesOf lsAndTsDocResolver document pos triggerCharacter
  end.

(** The queries of a request that gets as far as the language service. *)
Definition engineLogOf (document : Document) (pos : Position)
    (triggerCharacter : option string) : list EngineQuery :=
  ComponentLookup pos
  :: QueryCompletions (filePath (tsDocOf lsAndTsDocResolver document))
                      (offsetOf lsAndTsDocResolver document pos)
                      (validTriggerCharacterOf triggerCharacter)
  :: match engineEntriesOf lsAndTsDocResolver document pos triggerCharacter with
     | [] => snd (jsxTransformationPropStringLiteralCompletion
                    configManager (langOf lsAndTsDocResolver document)
                    (componentInfoOf lib lsAndTsDocResolver document pos)
                    (offsetOf lsAndTsDocResolver document pos)
                    (tsDocOf lsAndTsDocResolver document))
     | _ :: _ => []
     end.

(** The raw entries that pass [isValidCompletion] and are translated. *)
Definition acceptedItemsOf (document : Document) (pos : Position)
    (triggerCharacter : option string) : list CompletionItem :=
  omap (fun comp =>
          toCompletionItem lib (tsDocOf lsAndTsDocResolver document) comp
                           (pathToUrl lib (filePath (tsDocOf lsAndTsDocResolver document)))
                           pos (getExistingImports lib document))
       (List.filter (isValidCompletion lib document pos)
                    (completionsOf document pos triggerCharacter)).

(** The translated items, mapped to the original document and fixed. *)
Definition translatedItemsOf (document : Document) (pos : Position)
    (triggerCharacter : option string) : list CompletionItem :=
  map (fixTextEditRange (doc_positionAt document (wr_start (wordRangeOf lib document pos))))
      (map (mapCompletionItemToOriginal lib (tsDocOf lsAndTsDocResolver document))
           (acceptedItemsOf document pos triggerCharacter)).

End Translating.

(** ** Trimmed strings *)

(** The first code unit of the string is one that [trim] removes. *)
Definition startsWithWhiteSpace (s : string) : bool :=
  match s with
  | String c _ => isWhiteSpace c
  | EmptyString => false
  end.

(** The last code unit of the string is one that [trim] removes. *)
Definition endsWithWhiteSpace (s : string) : bool :=
  startsWithWhiteSpace (String.rev s).

(** ** The range of a translated code-action change *)

Section CodeActionRanges.

Context (lib : Lib).

(** The local [range] of [codeActionChangeToTextEdit] after the span has been
    converted and mapped, before the test for an unusable range. *)
Definition mappedChangeRange (snapshot : Snapshot) (change : TextChange) (isImport : bool)
  : Range :=
  let virtualRange := convertRange lib snapshot (change_span change) in
  if isImport && (character (range_start virtualRange) =? 0)
     && (line (range_start virtualRange) >? 1)
  then mapRangeForNewImport lib snapshot virtualRange
  else mapRangeToOriginal lib snapshot virtualRange.

(** The mapped range is unusable: it is not mapped, or an empty change is
    mapped to the first columns of the document, or the range is outside the
    script region. *)
Definition usesScriptStart (snapshot : Snapshot) (change : TextChange) (isImport : bool)
  : bool :=
  let r := mappedChangeRange snapshot change isImport in
  (line (range_start r) =? -1)
  || ((line (range_start r) =? 0)
      && (character (range_start r) <=? 1)
      && (span_length (change_span change) =? 0))
  || negb (isInScriptSnapshot lib (range_start r) snapshot).

(** The edit is placed at the start of the script or module-script region. *)
Definition atScriptStart (doc : Document) (snapshot : Snapshot) (e : TextEdit) : bool :=
  isNumber (option_map tag_start (scriptInfo snapshot))
           (doc_offsetAt doc (range_start (range e)))
  || isNumber (option_map tag_start (moduleScriptInfo snapshot))
              (doc_offsetAt doc (range_start (range e))).

End CodeActionRanges.

(** ** Resolving a completion item *)

(** The user preferences: the provider reads [importModuleSpecifierEnding] and
    hands the others on as they are. *)
Record UserPreferences := mkUserPreferences {
  importModuleSpecifierEnding : option string;
  otherPreferences : list (string * string)
}.

(** [ts.FileTextChanges] *)
Record FileTextChanges := mkFileTextChanges { textChanges : list TextChange }.

(** [ts.CodeAction] *)
Record CodeAction := mkCodeAction { changes : list FileTextChanges }.

(** The fields of [ts.CompletionEntryDetails] the provider reads; display
    parts, documentation parts and tags are handed to helpers as they are. *)
Record CompletionEntryDetails := mkCompletionEntryDetails {
  displayParts : list string;
  details_documentation : list string;
  details_tags : list string;
  sourceDisplay : option (list string);
  codeActions : option (list CodeAction);
  details_source : option (list string)
}.

(** The query [lang.getCompletionEntryDetails] made when an item is resolved. *)
Inductive DetailsQuery :=
| QueryDetails (file : string) (offset : Z) (entry : CompletionEntry)
               (preferences : UserPreferences).

(** What resolving needs beyond [Lib]: the details query of the language
    service (the entry stands for its name, source and data), the user
    preferences of the resolver, [ts.displayPartsToString] and
    [getMarkdownDocumentation] of [../previewer]. *)
Record ResolveLib := mkResolveLib {
  getCompletionEntryDetails :
    LanguageService -> string -> Z -> CompletionEntry -> UserPreferences ->
    option CompletionEntryDetails;
  userPreferencesOf : Document -> UserPreferences;
  displayPartsToString : list string -> string;
  getMarkdownDocumentation : list string -> list string -> string
}.

(** [fixUserPreferencesForSvelteComponentImport(userPreferences)] *)
Definition fixUserPreferencesForSvelteComponentImport (userPreferences : UserPreferences)
  : UserPreferences :=
  if isString (importModuleSpecifierEnding userPreferences) "js"
  then {| importModuleSpecifierEnding := Some "index";
          otherPreferences := otherPreferences userPreferences |}
  else userPreferences.

Section Resolving.

Context (lib : Lib) (rlib : ResolveLib).
Context (lsAndTsDocResolver : Document -> LSAndTSDoc) (configManager : Config).

(** [getCompletionDocument(compDetail)]: the detail text and the documentation. *)
Definition getCompletionDocument (compDetail : CompletionEntryDetails)
  : string * option Documentation :=
  let detail :=
    changeSvelteComponentName lib (displayPartsToString rlib (displayParts compDetail)) in
  let detail' :=
    match sourceDisplay compDetail with
    | Some parts =>
        "Auto import from " +:+ displayPartsToString rlib parts +:+ JsString.lf +:+ detail
    | None => detail
    end in
  let markdownDoc :=
    getMarkdownDocumentation rlib (details_documentation compDetail)
                             (details_tags compDetail) in
  (detail',
   if JsString.truthy markdownDoc
   then Some (DocMarkup {| markup_kind := MarkupKind.Markdown;
                           markup_value := markdownDoc |})
   else None).

(** The item with its [detail] and [documentation] set. *)
Definition withDetail (item : CompletionItem) (detail : string)
    (documentation : option Documentation) : CompletionItem :=
  {| item_label := item_label item;
     item_insertText := item_insertText item;
     item_kind := item_kind item;
     item_commitCharacters := item_commitCharacters item;
     item_sortText := item_sortText item;
     item_preselect := item_preselect item;
     item_detail := Some detail;
     item_documentation := documentation;
     item_textEdit := item_textEdit item;
     item_additionalTextEdits := item_additionalTextEdits item;
     item_data := item_data item |}.

(** The item with its [additionalTextEdits] set. *)
Definition withAdditionalTextEdits (item : CompletionItem) (edits : list TextEdit)
  : CompletionItem :=
  {| item_label := item_label item;
     item_insertText := item_insertText item;
     item_kind := item_kind item;
     item_commitCharacters := item_commitCharacters item;
     item_sortText := item_sortText item;
     item_preselect := item_preselect item;
     item_detail := item_detail item;
     item_documentation := item_documentation item;
     item_textEdit := item_textEdit item;
     item_additionalTextEdits := Some edits;
     item_data := item_data item |}.

(** [resolveCompletion(document, completionItem, cancellationToken)], from the
    point where the awaited [getLSAndTSDoc] has resolved: the item it returns
    and the queries it makes of the language service. *)
Definition resolveCompletion
    (document : Document) (completionItem : CompletionItem)
    (isCancellationRequested : bool) : CompletionItem * list DetailsQuery :=
  let tsDoc := tsDoc (lsAndTsDocResolver document) in
  let lang := lang (lsAndTsDocResolver document) in
  let userPreferences := userPreferencesOf rlib document in
  let filePath := filePath tsDoc in
  match item_data completionItem with
  | None => (completionItem, [])
  | Some comp =>
      if negb (JsString.truthy filePath) || isCancellationRequested
      then (completionItem, [])
      else
        let errorPreventingUserPreferences :=
          if match source (data_entry comp) with
             | Some s => JsString.endsWith s ".svelte"
             | None => false
             end
          then fixUserPreferencesForSvelteComponentImport userPreferences
          else userPreferences in
        let offset := offsetAt tsDoc (getGeneratedPosition tsDoc (data_position comp)) in
        let detail :=
          getCompletionEntryDetails rlib lang filePath offset (data_entry comp)
                                    errorPreventingUserPreferences in
        let query :=
          [QueryDetails filePath offset (data_entry comp) errorPreventingUserPreferences] in
        match detail with
        | None => (completionItem, query)
        | Some detail =>
            let doc := getCompletionDocument detail in
            let item1 := withDetail completionItem (fst doc) (snd doc) in
            let isImport :=
              match details_source detail with
              | Some _ => true
              | None => false
              end in
            match codeActions detail with
            | None => (item1, query)
            | Some actions =>
                let edit :=
                  concat
                    (map (fun action =>
                            concat
                              (map (fun change =>
                                      codeActionChangesToTextEdit
                                        lib configManager document tsDoc
                                        (textChanges change) isImport
                                        (data_position comp))
                                   (changes action)))
                         actions) in
                (withAdditionalTextEdits
                   item1
                   (match item_additionalTextEdits item1 with
                    | Some previous => previous
                    | None => []
                    end ++ edit),
                 query)
            end
        end
  end.

End Resolving.

(** ** The locals of [resolveCompletion], as functions of the payload *)

Section ResolvingLocals.

Context (rlib : ResolveLib) (lsAndTsDocResolver : Document -> LSAndTSDoc).

(** [errorPreventingUserPreferences] *)
Definition errorPreventingUserPreferencesOf (document : Document)
    (comp : CompletionEntryWithIdentifier) : UserPreferences :=
  if match source (data_entry comp) with
     | Some s => JsString.endsWith s ".svelte"
     | None => false
     end
  then fixUserPreferencesForSvelteComponentImport (userPreferencesOf rlib document)
  else userPreferencesOf rlib document.

(** [detail] *)
Definition detailOf (document : Document) (comp : CompletionEntryWithIdentifier)
  : option CompletionEntryDetails :=
  getCompletionEntryDetails
    rlib (lang (lsAndTsDocResolver document))
    (filePath (tsDoc (lsAndTsDocResolver document)))
    (offsetAt (tsDoc (lsAndTsDocResolver document))
              (getGeneratedPosition (tsDoc (lsAndTsDocResolver document))
                                    (data_position comp)))
    (data_entry comp)
    (errorPreventingUserPreferencesOf document comp).

(** The text changes of all code actions of the detail, in order. *)
Definition textChangesOf (detail : option CompletionEntryDetails) : list TextChange :=
  match detail with
  | Some d =>
      match codeActions d with
      | Some actions => concat (map textChanges (concat (map changes actions)))
      | None => []
      end
  | None => []
  end.

(** [additionalTextEdits ?? []] *)
Definition additionalTextEditsOf (item : CompletionItem) : list TextEdit :=
  match item_additionalTextEdits item with
  | Some edits => edits
  | None => []
  end.

End ResolvingLocals.

(** ** A second concrete setting

    The documents [<script>import a from 'a';</script>] followed by a tag, with
    a script region that starts at offset 8, for resolving an auto-import. *)

Module ResolveExample.

Definition textWithScript : string := "<script>import a from 'a';</script><Foo />".

Definition scriptRegion : TagInformation := {| tag_start := 8; tag_end := 26 |}.

Definition doc : Document :=
  {| getText := textWithScript;
     getFilePath := Some "/src/App.svelte";
     doc_offsetAt := fun p => character p;
     doc_positionAt := fun o => mkPosition 0 o;
     styleInfo := None;
     doc_scriptInfo := Some scriptRegion;
     doc_moduleScriptInfo := None |}.

Definition snapshot : Snapshot :=
  {| filePath := "/src/App.svelte";
     isInGenerated := fun _ => true;
     getGeneratedPosition := fun p => p;
     offsetAt := fun p => character p;
     svelteNodeAt := fun _ => None;
     parserError := None;
     scriptInfo := Some scriptRegion;
     moduleScriptInfo := None;
     getFullText := textWithScript |}.

Definition resolver (d : Document) : LSAndTSDoc :=
  {| lang := Example.mkLang (getText d) []; tsDoc := snapshot |}.

(** The helpers of this setting: the mapper sends every range to line -1
    (the span of an auto-import cannot be mapped), and the import pattern has
    one match in the text, with [a] as its second group. *)
Definition lib : Lib :=
  {| isInTag := isInTag Example.lib;
     getWordRangeAt := getWordRangeAt Example.lib;
     getComponentAtPosition := getComponentAtPosition Example.lib;
     getAttributeContextAtPosition := getAttributeContextAtPosition Example.lib;
     getNodeIfIsInStartTag := getNodeIfIsInStartTag Example.lib;
     getNodeIfIsInHTMLStartTag := getNodeIfIsInHTMLStartTag Example.lib;
     isPartOfImportStatement := isPartOfImportStatement Example.lib;
     toRange := toRange Example.lib;
     mapCompletionItemToOriginal := mapCompletionItemToOriginal Example.lib;
     mapRangeToOriginal := fun _ _ => mkRange (mkPosition (-1) (-1)) (mkPosition (-1) (-1));
     convertRange := convertRange Example.lib;
     convertRangeDoc := convertRangeDoc Example.lib;
     isInScript := fun p _ => (8 <=? character p) && (character p <=? 26);
     isInScriptSnapshot := fun p _ => (8 <=? character p) && (character p <=? 26);
     pathToUrl := pathToUrl Example.lib;
     changeSvelteComponentName := changeSvelteComponentName Example.lib;
     scriptElementKindToCompletionItemKind :=
       scriptElementKindToCompletionItemKind Example.lib;
     getCommitCharactersForScriptElement := getCommitCharactersForScriptElement Example.lib;
     getJsDocTemplateCompletion := getJsDocTemplateCompletion Example.lib;
     scriptImportMatches := fun _ => [(None, Some "a")];
     matchesSvelteImportOf := matchesSvelteImportOf Example.lib;
     sys_newLine := JsString.lf |}.

Definition importEdit : CodeAction :=
  {| changes := [ {| textChanges := [ Example.importChange ] |} ] |}.

Definition fooDetails : CompletionEntryDetails :=
  {| displayParts := ["class "; "Foo__SvelteComponent_"];
     details_documentation := [];
     details_tags := [];
     sourceDisplay := Some ["./Foo.svelte"];
     codeActions := Some [importEdit];
     details_source := Some ["./Foo.svelte"] |}.

Definition rlib : ResolveLib :=
  {| getCompletionEntryDetails := fun _ _ _ entry _ =>
       if String.eqb (name entry) "Foo__SvelteComponent_" then Some fooDetails else None;
     userPreferencesOf := fun _ =>
       {| importModuleSpecifierEnding := Some "js"; otherPreferences := [] |};
     displayPartsToString := fun parts => foldr String.append EmptyString parts;
     getMarkdownDocumentation := fun _ _ => EmptyString |}.

(** The item of the component [Foo], as [toCompletionItem] builds it and as
    the range fixer may have left it: with one additional edit. *)
Definition fooItem : CompletionItem :=
  {| item_label := "Foo";
     item_insertText := None;
     item_kind := Some 7;
     item_commitCharacters := None;
     item_sortText := Some "-1";
     item_preselect := Some true;
     item_detail := None;
     item_documentation := None;
     item_textEdit := None;
     item_additionalTextEdits :=
       Some [ mkTextEdit (mkRange (mkPosition 0 36) (mkPosition 0 36)) EmptyString ];
     item_data :=
       Some {| data_entry := Example.classPlaceholderEntry;
               data_uri := "file:///src/App.svelte";
               data_position := mkPosition 0 36 |} |}.

(** Helpers of a setting in which the third line of the generated file maps to
    the second line of the original document: a span is converted to a range
    on line 2, ranges keep their columns and move one line up when mapped, and
    every position is inside the script region. *)
Definition mappingLib : Lib :=
  {| isInTag := isInTag Example.lib;
     getWordRangeAt := getWordRangeAt Example.lib;
     getComponentAtPosition := getComponentAtPosition Example.lib;
     getAttributeContextAtPosition := getAttributeContextAtPosition Example.lib;
     getNodeIfIsInStartTag := getNodeIfIsInStartTag Example.lib;
     getNodeIfIsInHTMLStartTag := getNodeIfIsInHTMLStartTag Example.lib;
     isPartOfImportStatement := isPartOfImportStatement Example.lib;
     toRange := toRange Example.lib;
     mapCompletionItemToOriginal := mapCompletionItemToOriginal Example.lib;
     mapRangeToOriginal := fun _ r =>
       mkRange (mkPosition (line (range_start r) - 1) (character (range_start r)))
               (mkPosition (line (range_end r) - 1) (character (range_end r)));
     convertRange := fun _ s =>
       mkRange (mkPosition 2 (span_start s)) (mkPosition 2 (span_start s + span_length s));
     convertRangeDoc := convertRangeDoc Example.lib;
     isInScript := fun _ _ => true;
     isInScriptSnapshot := fun _ _ => true;
     pathToUrl := pathToUrl Example.lib;
     changeSvelteComponentName := changeSvelteComponentName Example.lib;
     scriptElementKindToCompletionItemKind :=
       scriptElementKindToCompletionItemKind Example.lib;
     getCommitCharactersForScriptElement := getCommitCharactersForScriptElement Example.lib;
     getJsDocTemplateCompletion := getJsDocTemplateCompletion Example.lib;
     scriptImportMatches := fun _ => [(None, Some "a")];
     matchesSvelteImportOf := matchesSvelteImportOf Example.lib;
     sys_newLine := JsString.lf |}.





(** A completion item whose text edit was not mapped: its positions have line
    and character -1. *)
Definition unmappedItem : CompletionItem :=
  {| item_label := "foo";
     item_insertText := None;
     item_kind := None;
     item_commitCharacters := None;
     item_sortText := None;
     item_preselect := None;
     item_detail := None;
     item_documentation := None;
     item_textEdit :=
       Some (PlainEdit (mkTextEdit (mkRange (mkPosition (-1) (-1)) (mkPosition (-1) (-1)))
                                   "foo"));
     item_additionalTextEdits := None;
     item_data := None |}.

(** A document without import statements imports no names. *)
Definition noImports : gset string := ∅.

End ResolveExample.

(** * Properties *)

(** ** JavaScript strings *)

Lemma take_drop (n : nat) (s : string) :
  JsString.take n s +:+ JsString.drop n s = s.
Proof.
  revert s; induction n as [|n IH]; intros [|c s]; simpl; try reflexivity.
  change (String c (JsString.take n s +:+ JsString.drop n s) = String c s).
  f_equal. apply IH.
Qed.

Lemma length_drop (n : nat) (s : string) :
  String.length (JsString.drop n s) = (String.length s - n)%nat.
Proof.
  revert s; induction n as [|n IH]; intros [|c s]; simpl; auto with arith.
Qed.

Lemma take_all (n : nat) (s : string) :
  (String.length s <= n)%nat -> JsString.take n s = s.
Proof.
  revert s; induction n as [|n IH]; intros [|c s]; simpl; intros H;
    try reflexivity; try lia.
  rewrite IH; [reflexivity | lia].
Qed.

(** [s.substring(0, k) + s.substring(k)] is [s], whatever the number [k]. *)
Lemma substring_split (s : string) (k : Z) :
  JsString.substring2 s 0 k +:+ JsString.substring1 s k = s.
Proof.
  unfold JsString.substring1, JsString.substring2, JsString.clamp, JsString.length.
  set (len := Z.of_nat (String.length s)).
  assert (Hlen : 0 <= len) by (unfold len; lia).
  set (c := Z.max 0 (Z.min k len)).
  assert (Hc : 0 <= c <= len) by (unfold c; lia).
  replace (Z.max 0 (Z.min 0 len)) with 0 by lia.
  replace (Z.max 0 (Z.min len len)) with len by lia.
  replace (Z.min 0 c) with 0 by lia.
  replace (Z.max 0 c) with c by lia.
  replace (Z.min c len) with c by lia.
  replace (Z.max c len) with len by lia.
  replace (c - 0) with c by lia.
  simpl (Z.to_nat 0). simpl (JsString.drop 0 s).
  rewrite (take_all (Z.to_nat (len - c)) (JsString.drop (Z.to_nat c) s)).
  - apply take_drop.
  - rewrite length_drop. unfold len. lia.
Qed.

(** ** The text-edit range fixer *)

(** What the fixer does to an item with a text edit that does not start right
    of the anchor column. *)
Lemma fixTextEditRange_split (anchor : Position) (item : CompletionItem) (e : TextEdit) :
  item_textEdit item = Some (PlainEdit e) ->
  TextEdit_is e = true ->
  character (range_start (range e)) <= character anchor ->
  let k := character anchor - character (range_start (range e)) in
  item_textEdit (fixTextEditRange anchor item)
  = Some (PlainEdit
            {| range := {| range_start := {| line := line (range_start (range e));
                                             character := character anchor |};
                           range_end := range_end (range e) |};
               newText := JsString.substring1 (newText e) k |})
  /\ item_additionalTextEdits (fixTextEditRange anchor item)
     = Some [ {| range := {| range_start := range_start (range e);
                             range_end := {| line := line (range_start (range e));
                                             character := character anchor |} |};
                 newText := JsString.substring2 (newText e) 0 k |} ].
Proof.
  intros He His Hle k. unfold fixTextEditRange. rewrite He, His. cbn [negb].
  rewrite Z.eqb_refl. simpl negb. simpl orb.
  destruct (character (range_start (range e)) >? character anchor) eqn:Hgt.
  - rewrite Z.gtb_ltb in Hgt. apply Z.ltb_lt in Hgt. lia.
  - simpl. split; reflexivity.
Qed.

(** An item whose text edit starts right of the anchor column, and an item
    without a text edit or with one that [TextEdit.is] does not accept, are
    returned as they are. *)
Lemma fixTextEditRange_unchanged (anchor : Position) (item : CompletionItem) :
  match item_textEdit item with
  | Some (PlainEdit e) =>
      TextEdit_is e = false \/ character anchor < character (range_start (range e))
  | _ => True
  end ->
  fixTextEditRange anchor item = item.
Proof.
  unfold fixTextEditRange.
  destruct (item_textEdit item) as [[e|e]|]; try reflexivity.
  intros H. destruct (TextEdit_is e); [|reflexivity]. cbn [negb].
  destruct H as [H | H]; [discriminate|].
  rewrite Z.eqb_refl. simpl.
  destruct (character (range_start (range e)) >? character anchor) eqn:Hgt;
    [reflexivity|].
  rewrite Z.gtb_ltb in Hgt. apply Z.ltb_ge in Hgt. lia.
Qed.

(** C3, as the code has it: the primary edit of a fixed item that
    [TextEdit.is] accepts (a text edit whose positions are unsigned) never
    starts left of the anchor column; and whenever the fixer removed a prefix
    of its replacement text, the item carries exactly one additional text edit,
    from the original start to the anchor column on the line of that start,
    whose text followed by the text of the primary edit is the text that was
    proposed.  An item without a text edit, with an insert-replace edit, or
    with an edit that [TextEdit.is] does not accept (an unmapped edit, of
    line and character -1) is returned as it is. *)
Theorem fixTextEditRange_anchor_and_prefix (anchor : Position) (item : CompletionItem) :
  match item_textEdit item with
  | Some (PlainEdit e) =>
      if TextEdit_is e
      then
        exists e' : TextEdit,
          item_textEdit (fixTextEditRange anchor item) = Some (PlainEdit e')
          /\ character anchor <= character (range_start (range e'))
          /\ (newText e' <> newText e ->
              exists a : TextEdit,
                item_additionalTextEdits (fixTextEditRange anchor item) = Some [a]
                /\ range_start (range a) = range_start (range e)
                /\ range_end (range a)
                   = {| line := line (range_start (range e));
                        character := character anchor |}
                /\ newText a +:+ newText e' = newText e)
      else fixTextEditRange anchor item = item
  | _ => fixTextEditRange anchor item = item
  end.
Proof.
  destruct (item_textEdit item) as [[e|e]|] eqn:He;
    try (apply fixTextEditRange_unchanged; now rewrite He).
  destruct (TextEdit_is e) eqn:His;
    [|apply fixTextEditRange_unchanged; rewrite He; now left].
  destruct (Z.lt_ge_cases (character anchor) (character (range_start (range e))))
    as [Hlt|Hge].
  - exists e. rewrite fixTextEditRange_unchanged by (rewrite He; now right).
    split; [exact He|]. split; [lia | intros Hne; now elim Hne].
  - destruct (fixTextEditRange_split anchor item e He His Hge) as [Hp Ha].
    eexists. split; [exact Hp|]. cbn [range range_start character newText].
    split; [lia | intros _].
    eexists. split; [exact Ha|]. cbn [range range_start range_end newText].
    repeat split. apply substring_split.
Qed.

Lemma fixTextEditRange_anchor_and_prefix_witness :
  exists e' : TextEdit,
    item_textEdit (fixTextEditRange (Example.at_ 5) (Example.itemWithEdit 0 1 "abcdefg"))
    = Some (PlainEdit e')
    /\ 5 <= character (range_start (range e'))
    /\ (newText e' <> "abcdefg" ->
        exists a : TextEdit,
          item_additionalTextEdits
            (fixTextEditRange (Example.at_ 5) (Example.itemWithEdit 0 1 "abcdefg"))
          = Some [a]
          /\ range_start (range a) = mkPosition 0 1
          /\ range_end (range a) = mkPosition 0 5
          /\ newText a +:+ newText e' = "abcdefg").
Proof.
  exact (fixTextEditRange_anchor_and_prefix
           (Example.at_ 5) (Example.itemWithEdit 0 1 "abcdefg")).
Defined.

(** An item whose text edit was not mapped, with line and character -1, is
    returned as it is by the fixer: its primary edit starts at column -1, left
    of the anchor column 5, and no additional edit accounts for it. *)
Lemma unmapped_edit_starts_left_of_anchor :
  let anchor := mkPosition 0 5 in
  let fixed := fixTextEditRange anchor ResolveExample.unmappedItem in
  fixed = ResolveExample.unmappedItem
  /\ (exists e' : TextEdit,
        item_textEdit fixed = Some (PlainEdit e')
        /\ character (range_start (range e')) = -1
        /\ character (range_start (range e')) < character anchor)
  /\ item_additionalTextEdits fixed = None.
Proof.
  cbv zeta. split; [reflexivity|]. split; [|reflexivity].
  eexists. split; [reflexivity|]. cbn. split; [reflexivity | lia].
Qed.

(** The line of the anchor has no part in what the fixer does. *)
Lemma fixTextEditRange_ignores_anchor_line (l l' c : Z) (item : CompletionItem) :
  fixTextEditRange (mkPosition l c) item = fixTextEditRange (mkPosition l' c) item.
Proof.
  unfold fixTextEditRange.
  destruct (item_textEdit item) as [[e|e]|]; try reflexivity.
  destruct (TextEdit_is e); [|reflexivity].
  cbn [negb line character]. rewrite !Z.eqb_refl. reflexivity.
Qed.

(** C7: an edit that starts exactly at the anchor column is not returned
    unchanged: the fixer adds an empty additional edit; and an edit on another
    line than the anchor is split all the same, since the line test of the
    source compares the anchor's line with itself. *)
Theorem fixTextEditRange_at_anchor_and_other_line :
  fixTextEditRange (mkPosition 0 5) (Example.itemWithEdit 0 5 "foo")
  <> Example.itemWithEdit 0 5 "foo"
  /\ item_additionalTextEdits
       (fixTextEditRange (mkPosition 0 5) (Example.itemWithEdit 0 5 "foo"))
     = Some [ mkTextEdit (mkRange (mkPosition 0 5) (mkPosition 0 5)) EmptyString ]
  /\ item_textEdit
       (fixTextEditRange (mkPosition 0 5) (Example.itemWithEdit 2 1 "abcdefg"))
     = Some (PlainEdit (mkTextEdit (mkRange (mkPosition 2 5) (mkPosition 2 8)) "efg"))
  /\ item_additionalTextEdits
       (fixTextEditRange (mkPosition 0 5) (Example.itemWithEdit 2 1 "abcdefg"))
     = Some [ mkTextEdit (mkRange (mkPosition 2 1) (mkPosition 2 5)) "abcd" ].
Proof.
  repeat split; try reflexivity.
  intros H. apply (f_equal item_additionalTextEdits) in H. discriminate H.
Qed.

(** ** The completion cache *)

Lemma isString_true (a : option string) (b : string) :
  isString a b = true <-> a = Some b.
Proof.
  destruct a as [x|]; simpl.
  - rewrite String.eqb_eq. split; [intros -> | intros [= ->]]; reflexivity.
  - split; discriminate.
Qed.

Lemma isNumber_true (a : option Z) (b : Z) :
  isNumber a b = true <-> a = Some b.
Proof.
  destruct a as [x|]; simpl.
  - rewrite Z.eqb_eq. split; [intros -> | intros [= ->]]; reflexivity.
  - split; discriminate.
Qed.

(** The reuse predicate, clause by clause. *)
Lemma canReuseLastCompletion_iff
    (lib : Lib) (last : option LastCompletion) (triggerKind : option Z)
    (triggerCharacter : option string) (document : Document) (pos : Position) :
  canReuseLastCompletion lib last triggerKind triggerCharacter document pos = true
  <-> exists lc : LastCompletion,
      last = Some lc
      /\ getFilePath document = Some (key lc)
      /\ line (position lc) = line pos
      /\ ((Z.abs (character (position lc) - character pos) < 2
           /\ (triggerKind = Some CompletionTriggerKind.TriggerForIncompleteCompletions
               \/ (triggerCharacter = Some "."
                   /\ isPartOfImportStatement lib (getText document) pos = true)))
          \/ (Z.abs (character (position lc) - character pos) < 4
              /\ triggerCharacter = Some ":"
              /\ getNodeIfIsInStartTag lib document (doc_offsetAt document pos) = true)).
Proof.
  unfold canReuseLastCompletion. destruct last as [lc|].
  - rewrite !andb_true_iff, !orb_true_iff, !andb_true_iff, !orb_true_iff, !andb_true_iff.
    rewrite !Z.ltb_lt, Z.eqb_eq, !isString_true, isNumber_true.
    split.
    + intros [[Hk Hl] H]. exists lc. split; [reflexivity|].
      split; [|split; [exact Hl|tauto]].
      destruct (getFilePath document) as [p|]; [|discriminate].
      apply String.eqb_eq in Hk. now subst.
    + intros (lc' & [= <-] & Hk & Hl & H).
      rewrite Hk, String.eqb_refl. tauto.
  - split; [discriminate | intros (lc & [=] & _)].
Qed.

(** A request for which the reuse predicate holds is never one that the
    trigger gate rejects for its trigger character. *)
Lemma canReuseLastCompletion_trigger_gate
    (lib : Lib) (last : option LastCompletion) (triggerKind : option Z)
    (triggerCharacter : option string) (document : Document) (pos : Position) :
  canReuseLastCompletion lib last triggerKind triggerCharacter document pos = true ->
  isNumber triggerKind CompletionTriggerKind.TriggerCharacter
  && negb (truthyOpt (if isValidTriggerCharacter triggerCharacter
                      then triggerCharacter else None))
  && negb (isString triggerCharacter "*")
  && negb (isString triggerCharacter ":") = false.
Proof.
  intros H. apply canReuseLastCompletion_iff in H.
  destruct H as (lc & _ & _ & _ & [[_ [-> | [-> _]]] | (_ & -> & _)]);
    try reflexivity.
  destruct (isNumber triggerKind CompletionTriggerKind.TriggerCharacter); reflexivity.
  destruct (isNumber triggerKind CompletionTriggerKind.TriggerCharacter); reflexivity.
Qed.

(** A hit: the cached list is returned, the stored position becomes the
    position of the request, and the language service is not queried. *)
Lemma getCompletions_hit
    (lib : Lib) (resolver : Document -> LSAndTSDoc) (config : Config)
    (lc : LastCompletion) (document : Document) (pos : Position)
    (triggerKind : option Z) (triggerCharacter : option string) (cancelled : bool) :
  isInTag lib pos (styleInfo document) = false ->
  JsString.truthy (filePath (tsDoc (resolver document))) = true ->
  canReuseLastCompletion lib (Some lc) triggerKind triggerCharacter document pos = true ->
  getCompletions lib resolver config (Some lc) document pos triggerKind triggerCharacter
                 cancelled
  = {| returned := completionList lc;
       cache := Some {| key := key lc; position := pos;
                        completionList := completionList lc |};
       queries := [] |}.
Proof.
  intros Hstyle Hpath Hreuse. unfold getCompletions.
  rewrite Hstyle, Hpath. simpl negb. cbv iota.
  rewrite (canReuseLastCompletion_trigger_gate _ _ _ _ _ _ Hreuse).
  rewrite Hreuse. reflexivity.
Qed.

(** C1: the reuse predicate holds exactly when there is a last completion whose
    key is the file path of the document and whose position is on the line of
    the request, and either the columns differ by less than 2 and the request
    is a re-trigger for an incomplete list or was triggered by [.] inside an
    import statement, or the columns differ by less than 4 and the request was
    triggered by [:] inside a start tag.  On such a hit, at the cache lookup of
    a request that was not turned away before it (cursor in the style region,
    snapshot without a file path), [getCompletions] returns the cached list as
    it is, makes no query, and only sets the stored position to the position
    of the request. *)
Theorem canReuseLastCompletion_hit
    (lib : Lib) (resolver : Document -> LSAndTSDoc) (config : Config)
    (last : option LastCompletion) (triggerKind : option Z)
    (triggerCharacter : option string) (document : Document) (pos : Position) :
  (canReuseLastCompletion lib last triggerKind triggerCharacter document pos = true
   <-> exists lc : LastCompletion,
       last = Some lc
       /\ getFilePath document = Some (key lc)
       /\ line (position lc) = line pos
       /\ ((Z.abs (character (position lc) - character pos) < 2
            /\ (triggerKind = Some CompletionTriggerKind.TriggerForIncompleteCompletions
                \/ (triggerCharacter = Some "."
                    /\ isPartOfImportStatement lib (getText document) pos = true)))
           \/ (Z.abs (character (position lc) - character pos) < 4
               /\ triggerCharacter = Some ":"
               /\ getNodeIfIsInStartTag lib document (doc_offsetAt document pos) = true)))
  /\ (forall cancelled : bool,
      isInTag lib pos (styleInfo document) = false ->
      JsString.truthy (filePath (tsDoc (resolver document))) = true ->
      canReuseLastCompletion lib last triggerKind triggerCharacter document pos = true ->
      exists lc : LastCompletion,
        last = Some lc
        /\ getCompletions lib resolver config last document pos triggerKind
                          triggerCharacter cancelled
           = {| returned := completionList lc;
                cache := Some {| key := key lc; position := pos;
                                 completionList := completionList lc |};
                queries := [] |}).
Proof.
  split.
  - apply canReuseLastCompletion_iff.
  - intros cancelled Hstyle Hpath Hreuse.
    destruct last as [lc|]; [|discriminate Hreuse].
    exists lc. split; [reflexivity|].
    now apply getCompletions_hit.
Qed.

Lemma canReuseLastCompletion_hit_witness :
  exists lc : LastCompletion,
    Example.cached = Some lc
    /\ getCompletions Example.lib Example.resolver Example.config Example.cached
                      Example.docEmptyTag (Example.at_ 6)
                      (Some CompletionTriggerKind.TriggerForIncompleteCompletions) None false
       = {| returned := completionList lc;
            cache := Some {| key := key lc; position := Example.at_ 6;
                             completionList := completionList lc |};
            queries := [] |}.
Proof.
  apply (proj2 (canReuseLastCompletion_hit
                  Example.lib Example.resolver Example.config Example.cached
                  (Some CompletionTriggerKind.TriggerForIncompleteCompletions) None
                  Example.docEmptyTag (Example.at_ 6)));
    vm_compute; reflexivity.
Defined.

(** One re-trigger one column right of the stored position is a hit. *)
Lemma retrigger_hit
    (lib : Lib) (resolver : Document -> LSAndTSDoc) (config : Config)
    (document : Document) (lc : LastCompletion) :
  getFilePath document = Some (key lc) ->
  isInTag lib (mkPosition (line (position lc)) (character (position lc) + 1))
          (styleInfo document) = false ->
  JsString.truthy (filePath (tsDoc (resolver document))) = true ->
  handle lib resolver config (Some lc)
         (retrigger document (line (position lc)) (character (position lc) + 1))
  = {| returned := completionList lc;
       cache := Some {| key := key lc;
                        position := mkPosition (line (position lc))
                                               (character (position lc) + 1);
                        completionList := completionList lc |};
       queries := [] |}.
Proof.
  intros Hkey Hstyle Hpath. unfold handle, retrigger. simpl.
  apply getCompletions_hit; [exact Hstyle | exact Hpath |].
  apply canReuseLastCompletion_iff. exists lc.
  split; [reflexivity|]. split; [exact Hkey|]. split; [reflexivity|].
  left. simpl. split; [lia | left; reflexivity].
Qed.

(** C10: every hit moves the stored position to the position of the request
    and keeps the stored list, so the window of the reuse predicate follows the
    request served last.  From a cache computed at column [c], [n] re-triggers
    at the columns [c + 1], ..., [c + n] of the same line, each one column from
    the one before, are all served the cached list without a query, and the
    list is then stored at column [c + n], as far from [c] as one likes. *)
Theorem cache_window_follows_last_served
    (lib : Lib) (resolver : Document -> LSAndTSDoc) (config : Config)
    (document : Document) (lc : LastCompletion) (n : nat) :
  getFilePath document = Some (key lc) ->
  (forall c : Z,
     isInTag lib (mkPosition (line (position lc)) c) (styleInfo document) = false) ->
  JsString.truthy (filePath (tsDoc (resolver document))) = true ->
  let rs := retriggers document (line (position lc)) (character (position lc)) n in
  Forall (fun o : Outcome => returned o = completionList lc /\ queries o = [])
         (serve lib resolver config (Some lc) rs)
  /\ length (serve lib resolver config (Some lc) rs) = n
  /\ cacheAfter lib resolver config (Some lc) rs
     = Some {| key := key lc;
               position := mkPosition (line (position lc))
                                      (character (position lc) + Z.of_nat n);
               completionList := completionList lc |}.
Proof.
  intros Hkey Hstyle Hpath. cbv zeta.
  revert lc Hkey Hstyle. induction n as [|n IH]; intros lc Hkey Hstyle.
  - simpl. split; [constructor|]. split; [reflexivity|].
    destruct lc as [k [l c] cl]. simpl. now rewrite Z.add_0_r.
  - cbn [retriggers serve cacheAfter].
    rewrite (retrigger_hit lib resolver config document lc Hkey (Hstyle _) Hpath).
    cbn [cache returned queries].
    set (lc' := {| key := key lc;
                   position := mkPosition (line (position lc))
                                          (character (position lc) + 1);
                   completionList := completionList lc |}).
    specialize (IH lc' Hkey Hstyle). cbn [lc' key position completionList line character] in IH.
    destruct IH as (Hall & Hlen & Hcache).
    split; [constructor; [split; reflexivity | exact Hall]|].
    split; [cbn [length]; now rewrite Hlen|].
    rewrite Hcache. do 2 f_equal. f_equal. lia.
Qed.

Lemma cache_window_follows_last_served_witness :
  let rs := retriggers Example.docEmptyTag 0 5 3 in
  Forall (fun o : Outcome =>
            returned o = completionList Example.cachedAt5 /\ queries o = [])
         (serve Example.lib Example.resolver Example.config (Some Example.cachedAt5) rs)
  /\ length (serve Example.lib Example.resolver Example.config
                   (Some Example.cachedAt5) rs) = 3%nat
  /\ cacheAfter Example.lib Example.resolver Example.config (Some Example.cachedAt5) rs
     = Some {| key := "/src/App.svelte";
               position := mkPosition 0 (5 + Z.of_nat 3);
               completionList := completionList Example.cachedAt5 |}.
Proof.
  apply (cache_window_follows_last_served
           Example.lib Example.resolver Example.config Example.docEmptyTag
           Example.cachedAt5 3).
  - reflexivity.
  - intros c. reflexivity.
  - reflexivity.
Defined.

(** ** Walking through [getCompletions] *)

(** Case analysis on the outermost test of the outcome under a projection. *)
Ltac outer_test :=
  lazymatch goal with
  | |- ?p (if ?b then _ else _) = _ => destruct b eqn:?
  | |- ?p (match ?l with Some _ => _ | None => _ end) = _ => destruct l eqn:?
  end.

Ltac open_getCompletions :=
  cbv beta zeta delta [getCompletions].

(** The parts of [reachesMetadata]. *)
Lemma reachesMetadata_parts
    (lib : Lib) (resolver : Document -> LSAndTSDoc) (last : option LastCompletion)
    (document : Document) (pos : Position)
    (triggerKind : option Z) (triggerCharacter : option string) (cancelled : bool) :
  reachesMetadata lib resolver last document pos triggerKind triggerCharacter cancelled
  = true ->
  isInTag lib pos (styleInfo document) = false
  /\ JsString.truthy (filePath (tsDoc (resolver document))) = true
  /\ isNumber triggerKind CompletionTriggerKind.TriggerCharacter
     && negb (truthyOpt (if isValidTriggerCharacter triggerCharacter
                         then triggerCharacter else None))
     && negb (isString triggerCharacter "*")
     && negb (isString triggerCharacter ":") = false
  /\ canReuseLastCompletion lib last triggerKind triggerCharacter document pos = false
  /\ isInGenerated (tsDoc (resolver document)) pos = true
  /\ isString triggerCharacter "*" = false
  /\ isInHTMLText (svelteNodeAt (tsDoc (resolver document)) (doc_offsetAt document pos))
     || String.eqb (JsString.substring2 (getText document)
                                        (doc_offsetAt document pos - 1)
                                        (doc_offsetAt document pos + 2))
                   "></" = false
  /\ cancelled = false.
Proof.
  unfold reachesMetadata, rejectedBeforeCache, inPlainText, svelteNodeOf,
    originalOffsetOf, validTriggerCharacterOf, tsDocOf.
  rewrite !andb_true_iff, !negb_true_iff, !orb_false_iff, negb_false_iff.
  tauto.
Qed.

(** A request that reaches the metadata generator: what [getCompletions]
    leaves in the cache is decided after it, the cache found is dropped. *)
Lemma getCompletions_colon
    (lib : Lib) (resolver : Document -> LSAndTSDoc) (config : Config)
    (last : option LastCompletion) (document : Document) (pos : Position)
    (triggerKind : option Z) (cancelled : bool) :
  reachesMetadata lib resolver last document pos triggerKind (Some ":") cancelled = true ->
  getCompletions lib resolver config last document pos triggerKind (Some ":") cancelled
  = {| returned :=
         Some (CompletionList_create
                 (eventAndSlotLetCompletionsOf lib resolver document pos)
                 (hasParserError (tsDocOf resolver document)));
       cache := None;
       queries := [ComponentLookup pos] |}.
Proof.
  intros H. apply reachesMetadata_parts in H.
  destruct H as (H1 & H2 & H3 & H4 & H5 & H6 & H7 & H8).
  open_getCompletions.
  rewrite H1, H2. cbn [negb]. rewrite H3.
  destruct last as [lc|]; [rewrite H4|];
    rewrite H5, H6, H7, H8; cbn [negb];
    change (isString (Some ":") ":") with true; reflexivity.
Qed.

(** ** Requests triggered by [:] *)

(** The only use a request triggered by [:] makes of the language service is
    to hand it to [getComponentAtPosition], and it does so exactly when it gets
    as far as the metadata generator: [getCompletions] itself makes no
    completion query, no program query and no doc-comment query. *)
Lemma getCompletions_colon_queries
    (lib : Lib) (resolver : Document -> LSAndTSDoc) (config : Config)
    (last : option LastCompletion) (document : Document) (pos : Position)
    (triggerKind : option Z) (cancelled : bool) :
  queries (getCompletions lib resolver config last document pos triggerKind (Some ":")
                          cancelled)
  = if reachesMetadata lib resolver last document pos triggerKind (Some ":") cancelled
    then [ComponentLookup pos]
    else [].
Proof.
  destruct (reachesMetadata lib resolver last document pos triggerKind (Some ":")
                            cancelled) eqn:H.
  - now rewrite (getCompletions_colon _ _ _ _ _ _ _ _ H).
  - revert H.
    unfold reachesMetadata, rejectedBeforeCache, inPlainText, svelteNodeOf,
      originalOffsetOf, validTriggerCharacterOf, tsDocOf.
    open_getCompletions.
    change (isString (Some ":") ":") with true.
    change (isString (Some ":") "*") with false.
    destruct (isInTag lib pos (styleInfo document)); [reflexivity|].
    destruct (JsString.truthy (filePath (tsDoc (resolver document)))); [|reflexivity].
    cbn [negb orb]. rewrite andb_false_r. cbn [negb andb].
    destruct last as [lc|];
      [destruct (canReuseLastCompletion lib (Some lc) triggerKind (Some ":")
                                        document pos); [reflexivity|]|];
      (destruct (isInGenerated (tsDoc (resolver document)) pos); [|reflexivity]);
      cbn [negb andb];
      (destruct (isInHTMLText _ || _); [reflexivity|]);
      (destruct cancelled; [reflexivity|]);
      cbn [negb andb]; discriminate.
Qed.

(** The labels of the metadata items: one [on:] item per declared event, then
    one [let:] item per declared slot-let. *)
Lemma getEventAndSlotLetCompletions_labels
    (lib : Lib) (componentInfo : ComponentInfoProvider) (document : Document)
    (attributeContext : option AttributeContext) (wordRange : WordRange) :
  match attributeContext with Some ctx => inValue ctx | None => false end = false ->
  map item_label
      (getEventAndSlotLetCompletions lib (Some componentInfo) document attributeContext
                                     wordRange)
  = map (fun event => "on:" +:+ part_name event) (getEvents componentInfo)
    ++ map (fun slot => "let:" +:+ part_name slot) (getSlotLets componentInfo).
Proof.
  intros H. unfold getEventAndSlotLetCompletions. rewrite H.
  rewrite map_app, !map_map. reflexivity.
Qed.

(** C2, as the code has it: on a request triggered by [:], [getCompletions]
    makes no completion query; the only use it makes of the language service is
    to hand it to [getComponentAtPosition], once, when the request gets as far
    as the metadata generator (it is not turned away by the trigger gate, not
    served from the cache, and not cancelled).  The list it then returns holds
    exactly the items of the metadata generator and is marked incomplete
    exactly when the document has a parser error.  Those items are one [on:]
    item per declared event followed by one [let:] item per declared slot-let
    when a component is at the cursor and the cursor is not in an attribute
    value, and none otherwise. *)
Theorem colon_trigger_returns_metadata_items
    (lib : Lib) (resolver : Document -> LSAndTSDoc) (config : Config)
    (last : option LastCompletion) (document : Document) (pos : Position)
    (triggerKind : option Z) (cancelled : bool) :
  let outcome :=
    getCompletions lib resolver config last document pos triggerKind (Some ":")
                   cancelled in
  let metadata := eventAndSlotLetCompletionsOf lib resolver document pos in
  queries outcome
  = (if reachesMetadata lib resolver last document pos triggerKind (Some ":") cancelled
     then [ComponentLookup pos]
     else [])
  /\ (reachesMetadata lib resolver last document pos triggerKind (Some ":") cancelled
      = true ->
      returned outcome
      = Some {| isIncomplete := hasParserError (tsDocOf resolver document);
                items := metadata |})
  /\ (forall componentInfo : ComponentInfoProvider,
        componentInfoOf lib resolver document pos = Some componentInfo ->
        inAttributeValue lib resolver document pos = false ->
        map item_label metadata
        = map (fun event => "on:" +:+ part_name event) (getEvents componentInfo)
          ++ map (fun slot => "let:" +:+ part_name slot) (getSlotLets componentInfo))
  /\ (componentInfoOf lib resolver document pos = None
      \/ inAttributeValue lib resolver document pos = true ->
      metadata = []).
Proof.
  cbv zeta. split; [apply getCompletions_colon_queries|].
  split; [intros H; now rewrite (getCompletions_colon _ _ _ _ _ _ _ _ H)|].
  unfold eventAndSlotLetCompletionsOf, inAttributeValue. split.
  - intros componentInfo Hc Hv. rewrite Hc.
    now apply getEventAndSlotLetCompletions_labels.
  - intros [Hc | Hv].
    + rewrite Hc. reflexivity.
    + unfold getEventAndSlotLetCompletions.
      destruct (componentInfoOf lib resolver document pos); [|reflexivity].
      now rewrite Hv.
Qed.

Lemma colon_trigger_returns_metadata_items_witness :
  map item_label
      (eventAndSlotLetCompletionsOf Example.lib Example.resolver Example.docEmptyTag
                                    (Example.at_ 5))
  = ["on:click"; "on:change"; "let:item"]
  /\ returned (getCompletions Example.lib Example.resolver Example.config None
                              Example.docEmptyTag (Example.at_ 5)
                              (Some CompletionTriggerKind.TriggerCharacter) (Some ":")
                              false)
     = Some {| isIncomplete := false;
               items := eventAndSlotLetCompletionsOf
                          Example.lib Example.resolver Example.docEmptyTag
                          (Example.at_ 5) |}.
Proof.
  pose proof (colon_trigger_returns_metadata_items
                Example.lib Example.resolver Example.config None
                Example.docEmptyTag (Example.at_ 5)
                (Some CompletionTriggerKind.TriggerCharacter) false) as H.
  cbv zeta in H. destruct H as (_ & Hret & Hlabels & _).
  split.
  - apply (Hlabels Example.fooInfo); reflexivity.
  - apply Hret. reflexivity.
Defined.

(** The request [colonTyped], sent when [:] is typed three columns right of the
    position at which [invokeInTag] computed the cached list, is served that
    list, with the item [title] of the language service in it, and not the
    items of the metadata generator alone. *)
Lemma colon_trigger_served_from_cache :
  let first := handle Example.lib Example.resolver Example.config None
                      Example.invokeInTag in
  let second := handle Example.lib Example.resolver Example.config (cache first)
                       Example.colonTyped in
  req_triggerCharacter Example.colonTyped = Some ":"
  /\ option_map (fun l => map item_label (items l)) (returned second)
     = Some ["title"; "on:click"; "on:change"; "let:item"]
  /\ map item_label
         (eventAndSlotLetCompletionsOf Example.lib Example.resolver Example.docOnColon
                                       (Example.at_ 8))
     = ["on:click"; "on:change"; "let:item"]
  /\ returned second
     <> Some {| isIncomplete := hasParserError (tsDocOf Example.resolver Example.docOnColon);
                items := eventAndSlotLetCompletionsOf
                           Example.lib Example.resolver Example.docOnColon
                           (Example.at_ 8) |}.
Proof.
  cbv zeta. split; [reflexivity|]. split; [vm_compute; reflexivity|].
  split; [vm_compute; reflexivity|].
  intros H.
  apply (f_equal (option_map (fun l => map item_label (items l)))) in H.
  vm_compute in H. discriminate H.
Qed.

(** ** Requests outside the generated region *)



(** ** Empty results *)

(** A request that reaches the query of the language service. *)
Lemma reachesEngineQuery_parts
    (lib : Lib) (resolver : Document -> LSAndTSDoc) (last : option LastCompletion)
    (document : Document) (pos : Position)
    (triggerKind : option Z) (triggerCharacter : option string) (cancelled : bool) :
  reachesEngineQuery lib resolver last document pos triggerKind triggerCharacter cancelled
  = true ->
  reachesMetadata lib resolver last document pos triggerKind triggerCharacter cancelled
  = true
  /\ isString triggerCharacter ":" = false.
Proof.
  unfold reachesEngineQuery. rewrite andb_true_iff, negb_true_iff. tauto.
Qed.

(** C9, as the code has it: when the query of the language service yields no
    entries, the prop string-literal fallback yields none either, and the
    metadata generator yields no items, [getCompletions] returns an empty list
    marked incomplete if the document has a parser error, and [null]
    otherwise.  The outcome is a value in either case: [getCompletions] is a
    total function and absence of results is no fault. *)
Theorem empty_result_incomplete_or_null
    (lib : Lib) (resolver : Document -> LSAndTSDoc) (config : Config)
    (last : option LastCompletion) (document : Document) (pos : Position)
    (triggerKind : option Z) (triggerCharacter : option string) (cancelled : bool) :
  reachesEngineQuery lib resolver last document pos triggerKind triggerCharacter cancelled
  = true ->
  engineEntriesOf resolver document pos triggerCharacter = [] ->
  fallbackEntriesOf lib resolver config document pos = [] ->
  eventAndSlotLetCompletionsOf lib resolver document pos = [] ->
  returned (getCompletions lib resolver config last document pos triggerKind
                           triggerCharacter cancelled)
  = if hasParserError (tsDocOf resolver document)
    then Some (CompletionList_create [] true)
    else None.
Proof.
  intros H He Hf Hm. apply reachesEngineQuery_parts in H. destruct H as [H Hc].
  apply reachesMetadata_parts in H.
  destruct H as (H1 & H2 & H3 & H4 & H5 & H6 & H7 & H8).
  unfold engineEntriesOf, offsetOf, validTriggerCharacterOf, langOf, tsDocOf in He.
  unfold fallbackEntriesOf, componentInfoOf, offsetOf, langOf, tsDocOf in Hf.
  unfold eventAndSlotLetCompletionsOf, attributeContextOf, componentInfoOf, wordRangeOf,
    originalOffsetOf, langOf, tsDocOf in Hm.
  unfold tsDocOf.
  open_getCompletions.
  rewrite H1, H2. cbn [negb]. rewrite H3.
  destruct last as [lc|]; [rewrite H4|];
    rewrite H5, H6, H7, H8, Hc; cbn [negb];
    rewrite He, Hf, Hm; cbn [length Z.of_nat Z.eqb andb returned];
    destruct (hasParserError (tsDoc (resolver document))); reflexivity.
Qed.

Lemma empty_result_incomplete_or_null_witness :
  returned (getCompletions Example.lib (Example.resolverWith []) Example.config None
                           Example.docDiv (Example.at_ 5)
                           (Some CompletionTriggerKind.Invoked) None false)
  = if hasParserError (tsDocOf (Example.resolverWith []) Example.docDiv)
    then Some (CompletionList_create [] true)
    else None.
Proof.
  apply (empty_result_incomplete_or_null
           Example.lib (Example.resolverWith []) Example.config None
           Example.docDiv (Example.at_ 5) (Some CompletionTriggerKind.Invoked) None false);
    reflexivity.
Defined.

(** Between the quotes of [<Foo title=.. />] the language service has no
    entries and the metadata generator no items, the document has no parser
    error, and the request is answered with the list of the fallback. *)
Lemma empty_engine_result_with_fallback :
  let outcome := handle Example.lib Example.resolver Example.config None
                        Example.invokeInValue in
  engineEntriesOf Example.resolver Example.docValue (Example.at_ 12) None = []
  /\ eventAndSlotLetCompletionsOf Example.lib Example.resolver Example.docValue
                                  (Example.at_ 12) = []
  /\ hasParserError (tsDocOf Example.resolver Example.docValue) = false
  /\ option_map (fun l => map item_label (items l)) (returned outcome) = Some ["Hello"]
  /\ returned outcome <> None.
Proof.
  cbv zeta. repeat split; try (vm_compute; reflexivity).
  intros H. vm_compute in H. discriminate H.
Qed.

(** ** More than 500 entries *)

Lemma length_positive {A : Type} (l : list A) :
  500 < Z.of_nat (length l) -> exists x rest, l = x :: rest.
Proof.
  destruct l as [|x rest]; simpl; [lia|]. intros _. now exists x, rest.
Qed.

(** The labels of the prop completions: the names of the declared props. *)
Lemma propCompletionsOf_labels
    (lib : Lib) (resolver : Document -> LSAndTSDoc) (document : Document) (pos : Position) :
  map item_label (propCompletionsOf lib resolver document pos)
  = if inAttributeValue lib resolver document pos then []
    else match componentInfoOf lib resolver document pos with
         | Some componentInfo => map part_name (getProps componentInfo)
         | None => []
         end.
Proof.
  unfold propCompletionsOf.
  destruct (inAttributeValue lib resolver document pos); [reflexivity|].
  destruct (componentInfoOf lib resolver document pos); [|reflexivity].
  rewrite map_map. reflexivity.
Qed.

(** C5: when the language service returns more than 500 entries to a request
    that reaches its query, a cursor in a plain element whose first entry is
    not of the member-variable kind is answered [null]; and a cursor in a
    component start tag, between one of the character pairs [  ], [ >], [ /],
    is answered the metadata items followed by one item per declared prop of
    the component (none when the cursor is in an attribute value), and none of
    the entries of the language service. *)
Theorem more_than_500_entries
    (lib : Lib) (resolver : Document -> LSAndTSDoc) (config : Config)
    (last : option LastCompletion) (document : Document) (pos : Position)
    (triggerKind : option Z) (triggerCharacter : option string) (cancelled : bool) :
  let outcome :=
    getCompletions lib resolver config last document pos triggerKind triggerCharacter
                   cancelled in
  let entries := engineEntriesOf resolver document pos triggerCharacter in
  reachesEngineQuery lib resolver last document pos triggerKind triggerCharacter cancelled
  = true ->
  500 < Z.of_nat (length entries) ->
  (nodeTypeIs (svelteNodeOf resolver document pos) "Element" = true ->
   match entries with
   | first :: _ => kind first <> ScriptElementKind.memberVariableElement
   | [] => True
   end ->
   returned outcome = None)
  /\ (nodeTypeIs (svelteNodeOf resolver document pos) "InlineComponent" = true ->
      JsString.includes
        ["  "; " >"; " /"]
        (JsString.substring2 (getText document)
                             (originalOffsetOf document pos - 1)
                             (originalOffsetOf document pos + 1)) = true ->
      returned outcome
      = Some {| isIncomplete := hasParserError (tsDocOf resolver document);
                items := eventAndSlotLetCompletionsOf lib resolver document pos
                         ++ propCompletionsOf lib resolver document pos |}
      /\ map item_label (propCompletionsOf lib resolver document pos)
         = if inAttributeValue lib resolver document pos then []
           else match componentInfoOf lib resolver document pos with
                | Some componentInfo => map part_name (getProps componentInfo)
                | None => []
                end).
Proof.
  cbv zeta. intros H Hlen.
  apply reachesEngineQuery_parts in H. destruct H as [H Hc].
  apply reachesMetadata_parts in H.
  destruct H as (H1 & H2 & H3 & H4 & H5 & H6 & H7 & H8).
  destruct (length_positive _ Hlen) as (first & rest & He).
  rewrite He in Hlen |- *.
  assert (Hnz : (Z.of_nat (length (first :: rest)) =? 0) = false)
    by (apply Z.eqb_neq; lia).
  assert (Hbig : (500 <? Z.of_nat (length (first :: rest))) = true)
    by (apply Z.ltb_lt; lia).
  unfold engineEntriesOf, offsetOf, validTriggerCharacterOf, langOf, tsDocOf in He.
  unfold svelteNodeOf, originalOffsetOf, tsDocOf.
  split.
  - intros Hnode Hkind.
    assert (Hk : String.eqb (kind first) ScriptElementKind.memberVariableElement = false)
      by (apply String.eqb_neq; exact Hkind).
    open_getCompletions.
    rewrite H1, H2. cbn [negb]. rewrite H3.
    destruct last as [lc|]; [rewrite H4|];
      rewrite H5, H6, H7, H8, Hc; cbn [negb];
      rewrite He; cbv iota; rewrite Hnz, Hbig, Hnode, Hk; reflexivity.
  - intros Hnode Hchars. split; [|apply propCompletionsOf_labels].
    assert (Hnot : nodeTypeIs (svelteNodeAt (tsDoc (resolver document))
                                            (doc_offsetAt document pos)) "Element" = false).
    { unfold nodeTypeIs in *.
      destruct (svelteNodeAt (tsDoc (resolver document)) (doc_offsetAt document pos))
        as [n|]; [|reflexivity].
      apply String.eqb_eq in Hnode. rewrite Hnode. reflexivity. }
    unfold eventAndSlotLetCompletionsOf, propCompletionsOf, inAttributeValue,
      attributeContextOf, componentInfoOf, wordRangeOf, originalOffsetOf, langOf, tsDocOf.
    open_getCompletions.
    rewrite H1, H2. cbn [negb]. rewrite H3.
    destruct last as [lc|]; [rewrite H4|];
      rewrite H5, H6, H7, H8, Hc; cbn [negb];
      rewrite He; cbv iota; rewrite Hnz, Hbig, Hnot, Hnode, Hchars; reflexivity.
Qed.

Lemma more_than_500_entries_witness :
  returned (getCompletions Example.lib Example.floodResolver Example.config None
                           Example.docDiv (Example.at_ 5)
                           (Some CompletionTriggerKind.Invoked) None false) = None
  /\ (returned (getCompletions Example.lib Example.floodResolver Example.config None
                               Example.docEmptyTag (Example.at_ 5)
                               (Some CompletionTriggerKind.Invoked) None false)
      = Some {| isIncomplete := hasParserError
                                  (tsDocOf Example.floodResolver Example.docEmptyTag);
                items := eventAndSlotLetCompletionsOf
                           Example.lib Example.floodResolver Example.docEmptyTag
                           (Example.at_ 5)
                         ++ propCompletionsOf
                              Example.lib Example.floodResolver Example.docEmptyTag
                              (Example.at_ 5) |}
      /\ map item_label (propCompletionsOf Example.lib Example.floodResolver
                                           Example.docEmptyTag (Example.at_ 5))
         = ["title"]).
Proof.
  split.
  - apply (proj1 (more_than_500_entries
                    Example.lib Example.floodResolver Example.config None
                    Example.docDiv (Example.at_ 5)
                    (Some CompletionTriggerKind.Invoked) None false
                    ltac:(vm_compute; reflexivity) ltac:(vm_compute; reflexivity))).
    + vm_compute; reflexivity.
    + vm_compute. discriminate.
  - apply (proj2 (more_than_500_entries
                    Example.lib Example.floodResolver Example.config None
                    Example.docEmptyTag (Example.at_ 5)
                    (Some CompletionTriggerKind.Invoked) None false
                    ltac:(vm_compute; reflexivity) ltac:(vm_compute; reflexivity)));
      vm_compute; reflexivity.
Defined.

(** ** Placeholder names of compiled components *)

(** What [getCompletionLabelAndInsert] returns when it returns an object. *)
Lemma getCompletionLabelAndInsert_some
    (lib : Lib) (snapshot : Snapshot) (comp : CompletionEntry) (li : LabelAndInsert) :
  getCompletionLabelAndInsert lib snapshot comp = Some li ->
  let name' := if isSvelteComponentImport (name comp)
               then changeSvelteComponentName lib (name comp) else name comp in
  li_isSvelteComp li = isSvelteComponentImport (name comp)
  /\ li_label li
     = if String.eqb (kind comp) ScriptElementKind.scriptElement
          && truthyOpt (kindModifiers comp)
       then match kindModifiers comp with
            | Some m => if JsString.truthy m && negb (JsString.endsWith name' m)
                        then name' +:+ m else name'
            | None => name'
            end
       else name'.
Proof.
  unfold getCompletionLabelAndInsert. cbv zeta.
  destruct (isSvelteComponentImport (name comp)
            && isExistingSvelteComponentImport
                 lib snapshot
                 (if isSvelteComponentImport (name comp)
                  then changeSvelteComponentName lib (name comp) else name comp)
                 (source comp)); [discriminate|].
  destruct (String.eqb (kind comp) ScriptElementKind.scriptElement
            && truthyOpt (kindModifiers comp)).
  - intros [= <-]. split; reflexivity.
  - destruct (replacementSpan comp); intros [= <-]; split; reflexivity.
Qed.

(** An item translated from a placeholder entry has a label that is not among
    the existing imports. *)
Lemma toCompletionItem_label_not_imported
    (lib : Lib) (snapshot : Snapshot) (comp : CompletionEntry) (uri : string)
    (pos : Position) (existingImports : gset string) (item : CompletionItem) :
  toCompletionItem lib snapshot comp uri pos existingImports = Some item ->
  isSvelteComponentImport (name comp) = true ->
  item_label item ∉ existingImports.
Proof.
  unfold toCompletionItem.
  destruct (getCompletionLabelAndInsert lib snapshot comp) as [li|] eqn:Hli;
    [|discriminate].
  destruct (getCompletionLabelAndInsert_some lib snapshot comp li Hli) as [Hc _].
  rewrite Hc. intros H Hs. rewrite Hs in H. cbn [andb] in H.
  unfold has in H.
  destruct (bool_decide (li_label li ∈ existingImports)) eqn:Hin; [discriminate|].
  injection H as <-. cbn [item_label].
  now apply bool_decide_eq_false in Hin.
Qed.

(** C6, as the code has it: for a raw entry whose name carries the placeholder
    suffix, [toCompletionItem] returns [null] when the label computed for the
    entry is among the existing imports.  That label is the rewritten
    component name, except for an entry of script-element kind that carries a
    kind modifier, where it is that name followed by the modifier unless the
    name ends with it.  So no item translated from a placeholder entry has a
    label that is among the existing imports. *)
Theorem placeholder_of_existing_import_is_dropped
    (lib : Lib) (snapshot : Snapshot) (uri : string) (pos : Position)
    (existingImports : gset string) :
  (forall comp : CompletionEntry,
     isSvelteComponentImport (name comp) = true ->
     String.eqb (kind comp) ScriptElementKind.scriptElement
     && truthyOpt (kindModifiers comp) = false ->
     changeSvelteComponentName lib (name comp) ∈ existingImports ->
     toCompletionItem lib snapshot comp uri pos existingImports = None)
  /\ (forall (comp : CompletionEntry) (m : string),
        isSvelteComponentImport (name comp) = true ->
        kind comp = ScriptElementKind.scriptElement ->
        kindModifiers comp = Some m ->
        JsString.truthy m = true ->
        (if JsString.endsWith (changeSvelteComponentName lib (name comp)) m
         then changeSvelteComponentName lib (name comp)
         else changeSvelteComponentName lib (name comp) +:+ m) ∈ existingImports ->
        toCompletionItem lib snapshot comp uri pos existingImports = None)
  /\ (forall (comps : list CompletionEntry) (item : CompletionItem),
        item ∈ omap (fun comp => toCompletionItem lib snapshot comp uri pos existingImports)
                    comps ->
        exists comp : CompletionEntry,
          comp ∈ comps
          /\ toCompletionItem lib snapshot comp uri pos existingImports = Some item
          /\ (isSvelteComponentImport (name comp) = true ->
              item_label item ∉ existingImports)).
Proof.
  split; [|split].
  - intros comp Hs Hk Hin.
    destruct (toCompletionItem lib snapshot comp uri pos existingImports)
      as [item|] eqn:Hitem; [|reflexivity].
    exfalso.
    apply (toCompletionItem_label_not_imported _ _ _ _ _ _ _ Hitem Hs).
    unfold toCompletionItem in Hitem.
    destruct (getCompletionLabelAndInsert lib snapshot comp) as [li|] eqn:Hli;
      [|discriminate].
    destruct (getCompletionLabelAndInsert_some lib snapshot comp li Hli) as [_ Hl].
    rewrite Hs, Hk in Hl.
    destruct (li_isSvelteComp li && has existingImports (li_label li)); [discriminate|].
    injection Hitem as <-. cbn [item_label]. rewrite Hl. exact Hin.
  - intros comp m Hs Hk Hm Ht Hin.
    destruct (toCompletionItem lib snapshot comp uri pos existingImports)
      as [item|] eqn:Hitem; [|reflexivity].
    exfalso.
    apply (toCompletionItem_label_not_imported _ _ _ _ _ _ _ Hitem Hs).
    unfold toCompletionItem in Hitem.
    destruct (getCompletionLabelAndInsert lib snapshot comp) as [li|] eqn:Hli;
      [|discriminate].
    destruct (getCompletionLabelAndInsert_some lib snapshot comp li Hli) as [_ Hl].
    rewrite Hs, Hk, Hm in Hl. cbn [truthyOpt] in Hl. rewrite Ht in Hl.
    rewrite String.eqb_refl in Hl. cbn [andb] in Hl.
    destruct (li_isSvelteComp li && has existingImports (li_label li)); [discriminate|].
    injection Hitem as <-. cbn [item_label]. rewrite Hl.
    destruct (JsString.endsWith (changeSvelteComponentName lib (name comp)) m);
      exact Hin.
  - intros comps item Hin.
    apply list_elem_of_omap in Hin. destruct Hin as (comp & Hc & Hitem).
    exists comp. split; [exact Hc|]. split; [exact Hitem|].
    now apply toCompletionItem_label_not_imported with (1 := Hitem).
Qed.

Lemma placeholder_of_existing_import_is_dropped_witness :
  toCompletionItem Example.lib (Example.mkSnapshot' Example.textEmptyTag 100)
                   Example.classPlaceholderEntry "file:///src/App.svelte"
                   (Example.at_ 5) Example.importsFoo
  = None.
Proof.
  apply (proj1 (placeholder_of_existing_import_is_dropped
                  Example.lib (Example.mkSnapshot' Example.textEmptyTag 100)
                  "file:///src/App.svelte" (Example.at_ 5) Example.importsFoo)).
  - vm_compute; reflexivity.
  - vm_compute; reflexivity.
  - unfold Example.importsFoo. apply elem_of_singleton_2. reflexivity.
Defined.

(** The entry [Foo__SvelteComponent_] of script-element kind with the modifier
    [.ts] is rewritten to [Foo], which is among the existing imports, and is
    translated to an item all the same: its label is [Foo.ts]. *)
Lemma script_placeholder_of_existing_import_is_kept :
  let item :=
    toCompletionItem Example.lib (Example.mkSnapshot' Example.textEmptyTag 100)
                     Example.scriptPlaceholderEntry "file:///src/App.svelte"
                     (Example.at_ 5) Example.importsFoo in
  isSvelteComponentImport (name Example.scriptPlaceholderEntry) = true
  /\ changeSvelteComponentName Example.lib (name Example.scriptPlaceholderEntry) = "Foo"
  /\ "Foo" ∈ Example.importsFoo
  /\ option_map item_label item = Some "Foo.ts"
  /\ option_map item_insertText item = Some (Some "Foo")
  /\ item <> None.
Proof.
  cbv zeta. split; [vm_compute; reflexivity|]. split; [vm_compute; reflexivity|].
  split; [unfold Example.importsFoo; apply elem_of_singleton_2; reflexivity|].
  split; [vm_compute; reflexivity|]. split; [vm_compute; reflexivity|].
  intros H. vm_compute in H. discriminate H.
Qed.

(** ** Code actions for a document without a script region *)

(** C8: when the snapshot has neither a script region nor a module-script
    region, the text edit for a change has the empty range at position (0,0)
    and the text [<script], the [lang] attribute of the configured default
    script language (none for the language [none]), [>], a line break, the text
    of the change as rewritten for component imports, [</script>] and a line
    break; neither the span of the change nor the import flag has a part in
    it. *)
Theorem no_script_region_wraps_change
    (lib : Lib) (config : Config) (doc : Document) (snapshot : Snapshot)
    (change : TextChange) (isImport : bool) (originalTriggerPosition : Position) :
  scriptInfo snapshot = None ->
  moduleScriptInfo snapshot = None ->
  let scriptLang :=
    if String.eqb (defaultScriptLanguage config) "none" then EmptyString
    else " lang=" +:+ JsString.quote +:+ defaultScriptLanguage config
         +:+ JsString.quote in
  codeActionChangeToTextEdit lib config doc snapshot change isImport
                             originalTriggerPosition
  = {| range := {| range_start := {| line := 0; character := 0 |};
                   range_end := {| line := 0; character := 0 |} |};
       newText :=
         "<script" +:+ scriptLang +:+ ">" +:+ sys_newLine lib
         +:+ changeComponentImport lib (change_newText change)
                                   (isInScript lib originalTriggerPosition doc)
         +:+ "</script>" +:+ sys_newLine lib |}
  /\ (forall (span' : TextSpan) (isImport' : bool),
        codeActionChangeToTextEdit
          lib config doc snapshot
          {| change_span := span'; change_newText := change_newText change |}
          isImport' originalTriggerPosition
        = codeActionChangeToTextEdit lib config doc snapshot change isImport
                                     originalTriggerPosition).
Proof.
  intros Hs Hm. cbv zeta.
  unfold codeActionChangeToTextEdit, scriptTagInfoOf. rewrite Hs, Hm.
  split; reflexivity.
Qed.

Lemma no_script_region_wraps_change_witness :
  codeActionChangeToTextEdit
    Example.lib Example.config Example.docEmptyTag
    (Example.mkSnapshot' Example.textEmptyTag 100) Example.importChange true
    (Example.at_ 5)
  = {| range := {| range_start := {| line := 0; character := 0 |};
                   range_end := {| line := 0; character := 0 |} |};
       newText :=
         "<script lang=" +:+ JsString.quote +:+ "ts" +:+ JsString.quote +:+ ">"
         +:+ JsString.lf +:+ "import Foo from './Foo.svelte';" +:+ JsString.lf
         +:+ "</script>" +:+ JsString.lf |}.
Proof.
  apply (proj1 (no_script_region_wraps_change
                  Example.lib Example.config Example.docEmptyTag
                  (Example.mkSnapshot' Example.textEmptyTag 100) Example.importChange true
                  (Example.at_ 5) eq_refl eq_refl)).
Defined.

(** * Further properties *)

(** ** The ways [getCompletions] returns *)

Lemma length_empty {A : Type} (l : list A) :
  (Z.of_nat (length l) =? 0) = true <-> l = [].
Proof.
  destruct l; simpl; split; intros H; try reflexivity; discriminate.
Qed.

(** Every way [getCompletions] returns, with the tests that lead to it. *)
Lemma getCompletions_cases
    (lib : Lib) (resolver : Document -> LSAndTSDoc) (config : Config)
    (last : option LastCompletion) (document : Document) (pos : Position)
    (triggerKind : option Z) (triggerCharacter : option string) (cancelled : bool)
    (P : Outcome -> Prop) :
  let metadata := eventAndSlotLetCompletionsOf lib resolver document pos in
  let completions := completionsOf lib resolver config document pos triggerCharacter in
  let log := engineLogOf lib resolver config document pos triggerCharacter in
  let incomplete := hasParserError (tsDocOf resolver document) in
  let reaches :=
    reachesEngineQuery lib resolver last document pos triggerKind triggerCharacter
                       cancelled in
  (rejectedBeforeCache lib resolver document pos triggerKind triggerCharacter = true ->
   P {| returned := None; cache := last; queries := [] |}) ->
  (forall lc : LastCompletion,
     last = Some lc ->
     rejectedBeforeCache lib resolver document pos triggerKind triggerCharacter = false ->
     canReuseLastCompletion lib last triggerKind triggerCharacter document pos = true ->
     P {| returned := completionList lc;
          cache := Some {| key := key lc; position := pos;
                           completionList := completionList lc |};
          queries := [] |}) ->
  (rejectedBeforeCache lib resolver document pos triggerKind triggerCharacter = false ->
   canReuseLastCompletion lib last triggerKind triggerCharacter document pos = false ->
   isInGenerated (tsDocOf resolver document) pos = false
   \/ isString triggerCharacter "*" = false
      /\ (inPlainText resolver document pos = true \/ cancelled = true) ->
   P {| returned := None; cache := None; queries := [] |}) ->
  (rejectedBeforeCache lib resolver document pos triggerKind triggerCharacter = false ->
   canReuseLastCompletion lib last triggerKind triggerCharacter document pos = false ->
   isInGenerated (tsDocOf resolver document) pos = true ->
   isString triggerCharacter "*" = true ->
   P {| returned := getJsDocTemplateCompletion
                      lib (tsDocOf resolver document) (langOf resolver document)
                      (filePath (tsDocOf resolver document))
                      (offsetOf resolver document pos);
        cache := None;
        queries := [QueryDocCommentTemplate (filePath (tsDocOf resolver document))
                                            (offsetOf resolver document pos)] |}) ->
  (reachesMetadata lib resolver last document pos triggerKind triggerCharacter cancelled
   = true ->
   isString triggerCharacter ":" = true ->
   P {| returned := Some (CompletionList_create metadata incomplete);
        cache := None; queries := [ComponentLookup pos] |}) ->
  (reaches = true -> completions = [] -> metadata = [] ->
   P {| returned := if incomplete then Some (CompletionList_create [] true) else None;
        cache := None; queries := log |}) ->
  (reaches = true -> 500 < Z.of_nat (length completions) ->
   nodeTypeIs (svelteNodeOf resolver document pos) "Element" = true ->
   P {| returned := None; cache := None; queries := log |}) ->
  (reaches = true -> 500 < Z.of_nat (length completions) ->
   nodeTypeIs (svelteNodeOf resolver document pos) "InlineComponent" = true ->
   P {| returned := Some (CompletionList_create
                            (metadata ++ propCompletionsOf lib resolver document pos)
                            incomplete);
        cache := None; queries := log |}) ->
  (reaches = true -> completions <> [] \/ metadata <> [] ->
   let completionList :=
     CompletionList_create
       (translatedItemsOf lib resolver config document pos triggerCharacter ++ metadata)
       incomplete in
   P {| returned := Some completionList;
        cache := Some {| key := orEmpty (getFilePath document); position := pos;
                         completionList := Some completionList |};
        queries := log |}) ->
  P (getCompletions lib resolver config last document pos triggerKind triggerCharacter
                    cancelled).
Proof.
  cbv zeta. intros HA HB HC HD HE HF HG HH HI.
  unfold reachesEngineQuery, reachesMetadata in *.
  destruct (rejectedBeforeCache lib resolver document pos triggerKind triggerCharacter)
    eqn:Hrej.
  { specialize (HA eq_refl). clear - HA Hrej.
    unfold rejectedBeforeCache, validTriggerCharacterOf, tsDocOf in Hrej.
    open_getCompletions.
    destruct (isInTag lib pos (styleInfo document)); [exact HA|].
    destruct (JsString.truthy (filePath (tsDoc (resolver document)))); [|exact HA].
    cbn [negb orb] in Hrej. rewrite Hrej. exact HA. }
  clear HA. specialize (HC eq_refl). specialize (HD eq_refl).
  cbn [negb andb] in HE, HF, HG, HH, HI.
  assert (Hrej' := Hrej).
  unfold rejectedBeforeCache, validTriggerCharacterOf, tsDocOf in Hrej'.
  apply orb_false_iff in Hrej'. destruct Hrej' as [Hrej' H3].
  apply orb_false_iff in Hrej'. destruct Hrej' as [H1 H2].
  apply negb_false_iff in H2.
  assert (Hgo :
    (canReuseLastCompletion lib last triggerKind triggerCharacter document pos = false ->
     P (let tsDoc := tsDoc (resolver document) in
        getCompletions lib resolver config None document pos triggerKind triggerCharacter
                       cancelled)) ->
    P (getCompletions lib resolver config last document pos triggerKind triggerCharacter
                      cancelled)).
  { intros Hmiss. cbv zeta in Hmiss. revert Hmiss. open_getCompletions.
    rewrite H1, H2. cbn [negb]. rewrite H3.
    destruct last as [lc|].
    - destruct (canReuseLastCompletion lib (Some lc) triggerKind triggerCharacter
                                       document pos) eqn:Hreuse.
      + intros _. exact (HB lc eq_refl eq_refl eq_refl).
      + intros Hmiss. exact (Hmiss eq_refl).
    - intros Hmiss. exact (Hmiss eq_refl). }
  apply Hgo. intros Hreuse. clear Hgo HB. cbv zeta.
  specialize (HC Hreuse). specialize (HD Hreuse).
  rewrite Hreuse in HE, HF, HG, HH, HI. cbn [negb andb] in HE, HF, HG, HH, HI.
  unfold inPlainText, svelteNodeOf, originalOffsetOf, tsDocOf, langOf, offsetOf in *.
  open_getCompletions. rewrite H1, H2. cbn [negb]. rewrite H3. cbv iota.
  destruct (isInGenerated (tsDoc (resolver document)) pos) eqn:Hgen;
    [|exact (HC (or_introl eq_refl))].
  cbn [negb]. cbn [andb] in HE, HF, HG, HH, HI.
  destruct (isString triggerCharacter "*") eqn:Hstar;
    [exact (HD eq_refl eq_refl)|].
  clear HD. cbn [negb andb] in HE, HF, HG, HH, HI.
  match goal with
  | |- P (if ?b then _ else _) =>
      destruct b eqn:Htext; [exact (HC (or_intror (conj eq_refl (or_introl eq_refl))))|]
  end.
  cbn [negb andb] in HE, HF, HG, HH, HI.
  destruct cancelled;
    [exact (HC (or_intror (conj eq_refl (or_intror eq_refl))))|].
  clear HC. cbn [negb andb] in HE, HF, HG, HH, HI.
  destruct (isString triggerCharacter ":") eqn:Hcolon; [exact (HE eq_refl eq_refl)|].
  clear HE. cbn [negb] in HF, HG, HH, HI.
  specialize (HF eq_refl). specialize (HG eq_refl). specialize (HH eq_refl).
  specialize (HI eq_refl).
  unfold completionsOf, engineLogOf, translatedItemsOf, acceptedItemsOf,
    eventAndSlotLetCompletionsOf, propCompletionsOf, fallbackEntriesOf, engineEntriesOf,
    inAttributeValue, attributeContextOf, componentInfoOf, wordRangeOf, offsetOf,
    validTriggerCharacterOf, originalOffsetOf, langOf, tsDocOf in *.
  match goal with
  | |- P (if (Z.of_nat (length ?c) =? 0) && (Z.of_nat (length ?m) =? 0) then _ else _) =>
      destruct (Z.of_nat (length c) =? 0) eqn:Hc;
      [destruct (Z.of_nat (length m) =? 0) eqn:Hm|]
  end.
  - apply length_empty in Hc. apply length_empty in Hm. cbn [andb].
    exact (HF Hc Hm).
  - cbn [andb].
    assert (Hle : ~ 500 < Z.of_nat (length
              (match
                 match getCompletionsAtPosition (lang (resolver document))
                         (filePath (tsDoc (resolver document)))
                         (offsetAt (tsDoc (resolver document))
                            (getGeneratedPosition (tsDoc (resolver document)) pos))
                         (if isValidTriggerCharacter triggerCharacter
                          then triggerCharacter else None)
                 with Some entries => entries | None => [] end
               with
               | [] =>
                   match fst (jsxTransformationPropStringLiteralCompletion config
                                (lang (resolver document))
                                (getComponentAtPosition lib (lang (resolver document))
                                   document (tsDoc (resolver document)) pos)
                                (offsetAt (tsDoc (resolver document))
                                   (getGeneratedPosition (tsDoc (resolver document)) pos))
                                (tsDoc (resolver document)))
                   with Some entries => entries | None => [] end
               | _ :: _ =>
                   match getCompletionsAtPosition (lang (resolver document))
                           (filePath (tsDoc (resolver document)))
                           (offsetAt (tsDoc (resolver document))
                              (getGeneratedPosition (tsDoc (resolver document)) pos))
                           (if isValidTriggerCharacter triggerCharacter
                            then triggerCharacter else None)
                   with Some entries => entries | None => [] end
               end))) by (apply Z.eqb_eq in Hc; lia).
    apply Z.ltb_nlt in Hle. rewrite Hle. cbn [andb].
    apply HI. right. intros Hm'. apply (proj2 (length_empty _)) in Hm'.
    exact (eq_true_false_abs _ Hm' Hm).
  - cbn [andb].
    match goal with
    | |- P (if (500 <? ?n) && _ && _ then _ else _) => destruct (500 <? n) eqn:Hbig
    end.
    + apply Z.ltb_lt in Hbig. cbn [andb].
      match goal with
      | |- P (if nodeTypeIs ?n "Element" && _ then _ else _) =>
          destruct (nodeTypeIs n "Element") eqn:Hel
      end.
      * cbn [andb].
        match goal with
        | |- P (if negb ?k then _ else _) => destruct k
        end; cbn [negb].
        -- match goal with
           | |- P (if nodeTypeIs ?n "InlineComponent" && _ then _ else _) =>
               destruct (nodeTypeIs n "InlineComponent") eqn:Hic
           end.
           ++ cbn [andb].
              match goal with
              | |- P (if ?b then _ else _) => destruct b
              end; [exact (HH Hbig eq_refl)|].
              apply HI. left. intros Hc'; apply (proj2 (length_empty _)) in Hc';
              exact (eq_true_false_abs _ Hc' Hc).
           ++ cbn [andb]. apply HI. left. intros Hc'; apply (proj2 (length_empty _)) in Hc';
              exact (eq_true_false_abs _ Hc' Hc).
        -- exact (HG Hbig eq_refl).
      * cbn [andb].
        match goal with
        | |- P (if nodeTypeIs ?n "InlineComponent" && _ then _ else _) =>
            destruct (nodeTypeIs n "InlineComponent") eqn:Hic
        end.
        -- cbn [andb].
           match goal with
           | |- P (if ?b then _ else _) => destruct b
           end; [exact (HH Hbig eq_refl)|].
           apply HI. left. intros Hc'; apply (proj2 (length_empty _)) in Hc';
              exact (eq_true_false_abs _ Hc' Hc).
        -- cbn [andb]. apply HI. left. intros Hc'; apply (proj2 (length_empty _)) in Hc';
              exact (eq_true_false_abs _ Hc' Hc).
    + cbn [andb]. apply HI. left. intros Hc'; apply (proj2 (length_empty _)) in Hc';
              exact (eq_true_false_abs _ Hc' Hc).
Qed.

Ltac by_cases :=
  lazymatch goal with
  | |- context [getCompletions ?l ?r ?c ?last ?d ?p ?k ?t ?x] =>
      pattern (getCompletions l r c last d p k t x);
      apply getCompletions_cases; cbv zeta
  end.

(** ** The trigger gate *)

(** X1: a request of kind trigger-character whose character is neither in
    the allow-list nor [*] nor [:] is answered [null]; the cache is left as it
    was found and the language service is not queried. *)
Theorem custom_trigger_character_rejected
    (lib : Lib) (resolver : Document -> LSAndTSDoc) (config : Config)
    (last : option LastCompletion) (document : Document) (pos : Position)
    (triggerCharacter : option string) (cancelled : bool) :
  isValidTriggerCharacter triggerCharacter = false ->
  triggerCharacter <> Some "*" ->
  triggerCharacter <> Some ":" ->
  getCompletions lib resolver config last document pos
                 (Some CompletionTriggerKind.TriggerCharacter) triggerCharacter cancelled
  = {| returned := None; cache := last; queries := [] |}.
Proof.
  intros Hv Hs Hc.
  assert (Hrej : rejectedBeforeCache lib resolver document pos
                   (Some CompletionTriggerKind.TriggerCharacter) triggerCharacter = true).
  { unfold rejectedBeforeCache, validTriggerCharacterOf. rewrite Hv.
    destruct (isString triggerCharacter "*") eqn:E1;
      [apply isString_true in E1; contradiction|].
    destruct (isString triggerCharacter ":") eqn:E2;
      [apply isString_true in E2; contradiction|].
    cbn. now rewrite !orb_true_r. }
  by_cases; try reflexivity; unfold reachesEngineQuery, reachesMetadata;
    rewrite Hrej; cbn [negb andb]; intros; discriminate.
Qed.

Lemma custom_trigger_character_rejected_witness :
  getCompletions Example.lib Example.resolver Example.config Example.cached
                 Example.docEmptyTag (Example.at_ 6)
                 (Some CompletionTriggerKind.TriggerCharacter) (Some "!") false
  = {| returned := None; cache := Example.cached; queries := [] |}.
Proof.
  apply (custom_trigger_character_rejected
           Example.lib Example.resolver Example.config Example.cached
           Example.docEmptyTag (Example.at_ 6) (Some "!") false);
    [reflexivity | discriminate | discriminate].
Defined.

(** ** When the cache is not reused *)

(** X2: the cached list is never reused for a request that is neither a
    re-trigger for an incomplete list nor triggered by [.] or [:] (so never for
    an explicit invocation), never for a document without a file path, never
    on another line than the stored one, and never four or more columns away
    from the stored position. *)
Theorem reuse_excluded
    (lib : Lib) (last : option LastCompletion) (triggerKind : option Z)
    (triggerCharacter : option string) (document : Document) (pos : Position) :
  (triggerKind <> Some CompletionTriggerKind.TriggerForIncompleteCompletions ->
   triggerCharacter <> Some "." -> triggerCharacter <> Some ":" ->
   canReuseLastCompletion lib last triggerKind triggerCharacter document pos = false)
  /\ (getFilePath document = None ->
      canReuseLastCompletion lib last triggerKind triggerCharacter document pos = false)
  /\ (forall lc : LastCompletion,
        last = Some lc ->
        line (position lc) <> line pos
        \/ 4 <= Z.abs (character (position lc) - character pos) ->
        canReuseLastCompletion lib last triggerKind triggerCharacter document pos = false).
Proof.
  repeat split; intros;
    destruct (canReuseLastCompletion lib last triggerKind triggerCharacter document pos)
      eqn:Hreuse; try reflexivity;
    apply canReuseLastCompletion_iff in Hreuse;
    destruct Hreuse as (lc' & Hl & Hk & Hline & Hd); exfalso.
  - destruct Hd as [[_ [Hd | [Hd _]]] | (_ & Hd & _)]; contradiction.
  - rewrite Hk in *. discriminate.
  - assert (lc' = lc) as -> by congruence.
    destruct Hd as [[Hd _] | [Hd _]]; lia.
Qed.

Lemma reuse_excluded_witness :
  canReuseLastCompletion Example.lib Example.cached
                         (Some CompletionTriggerKind.Invoked) None
                         Example.docEmptyTag (Example.at_ 5) = false.
Proof.
  apply (proj1 (reuse_excluded Example.lib Example.cached
                               (Some CompletionTriggerKind.Invoked) None
                               Example.docEmptyTag (Example.at_ 5)));
    discriminate.
Defined.

(** ** What a request leaves in the cache *)

(** X3: after a request that was not turned away before the cache lookup,
    the cache is empty or holds the position of that request and the very list
    the request returned; a list computed afresh is stored under the file path
    of the document. *)
Theorem cache_holds_last_answer
    (lib : Lib) (resolver : Document -> LSAndTSDoc) (config : Config)
    (last : option LastCompletion) (document : Document) (pos : Position)
    (triggerKind : option Z) (triggerCharacter : option string) (cancelled : bool) :
  rejectedBeforeCache lib resolver document pos triggerKind triggerCharacter = false ->
  match cache (getCompletions lib resolver config last document pos triggerKind
                              triggerCharacter cancelled) with
  | None => True
  | Some lc =>
      position lc = pos
      /\ completionList lc
         = returned (getCompletions lib resolver config last document pos triggerKind
                                    triggerCharacter cancelled)
      /\ (canReuseLastCompletion lib last triggerKind triggerCharacter document pos = false ->
          key lc = orEmpty (getFilePath document) /\ completionList lc <> None)
  end.
Proof.
  intros Hrej.
  pattern (getCompletions lib resolver config last document pos triggerKind
                          triggerCharacter cancelled).
  apply getCompletions_cases; cbv zeta; cbn [cache returned]; auto.
  - intros H. rewrite Hrej in H. discriminate H.
  - intros lc _ _ Hreuse. cbn. split; [reflexivity|]. split; [reflexivity|].
    intros H. rewrite H in Hreuse. discriminate.
Qed.

Lemma cache_holds_last_answer_witness :
  match cache (getCompletions Example.lib Example.resolver Example.config None
                              Example.docEmptyTag (Example.at_ 5)
                              (Some CompletionTriggerKind.Invoked) None false) with
  | None => True
  | Some lc =>
      position lc = Example.at_ 5
      /\ completionList lc
         = returned (getCompletions Example.lib Example.resolver Example.config None
                                    Example.docEmptyTag (Example.at_ 5)
                                    (Some CompletionTriggerKind.Invoked) None false)
      /\ (canReuseLastCompletion Example.lib None (Some CompletionTriggerKind.Invoked) None
                                 Example.docEmptyTag (Example.at_ 5) = false ->
          key lc = orEmpty (getFilePath Example.docEmptyTag) /\ completionList lc <> None)
  end.
Proof.
  apply (cache_holds_last_answer
           Example.lib Example.resolver Example.config None Example.docEmptyTag
           (Example.at_ 5) (Some CompletionTriggerKind.Invoked) None false).
  reflexivity.
Defined.

(** X4: a list that [getCompletions] computes itself (the request is not
    served from the cache and is not a doc-comment request) is marked
    incomplete exactly when the document has a parser error. *)
Theorem computed_list_incomplete_iff_parser_error
    (lib : Lib) (resolver : Document -> LSAndTSDoc) (config : Config)
    (last : option LastCompletion) (document : Document) (pos : Position)
    (triggerKind : option Z) (triggerCharacter : option string) (cancelled : bool)
    (l : CompletionList) :
  canReuseLastCompletion lib last triggerKind triggerCharacter document pos = false ->
  triggerCharacter <> Some "*" ->
  returned (getCompletions lib resolver config last document pos triggerKind
                           triggerCharacter cancelled) = Some l ->
  isIncomplete l = hasParserError (tsDocOf resolver document).
Proof.
  intros Hreuse Hstar. revert l.
  pattern (getCompletions lib resolver config last document pos triggerKind
                          triggerCharacter cancelled).
  apply getCompletions_cases; cbv zeta; cbn [returned]; try discriminate.
  - intros lc _ _ H. rewrite H in Hreuse. discriminate.
  - intros _ _ _ H. apply isString_true in H. contradiction.
  - intros _ _ l [= <-]. reflexivity.
  - intros _ _ _ l.
    destruct (hasParserError (tsDocOf resolver document)); [|discriminate].
    intros [= <-]. reflexivity.
  - intros _ _ _ l [= <-]. reflexivity.
  - intros _ _ l [= <-]. reflexivity.
Qed.

Lemma computed_list_incomplete_iff_parser_error_witness :
  isIncomplete
    {| isIncomplete := false;
       items := translatedItemsOf Example.lib Example.resolver Example.config
                                  Example.docEmptyTag (Example.at_ 5) None
                ++ eventAndSlotLetCompletionsOf Example.lib Example.resolver
                                                Example.docEmptyTag (Example.at_ 5) |}
  = hasParserError (tsDocOf Example.resolver Example.docEmptyTag).
Proof.
  apply (computed_list_incomplete_iff_parser_error
           Example.lib Example.resolver Example.config None Example.docEmptyTag
           (Example.at_ 5) (Some CompletionTriggerKind.Invoked) None false);
    [reflexivity | discriminate | vm_compute; reflexivity].
Defined.

(** ** What is asked of the language service *)



(** ** Cancelled requests *)

(** X6: a cancelled request that is neither served from the cache nor a
    doc-comment request is answered [null] without any query of the language
    service; if it was not turned away before the cache lookup, the cache is
    empty afterwards. *)
Theorem cancelled_request
    (lib : Lib) (resolver : Document -> LSAndTSDoc) (config : Config)
    (last : option LastCompletion) (document : Document) (pos : Position)
    (triggerKind : option Z) (triggerCharacter : option string) :
  canReuseLastCompletion lib last triggerKind triggerCharacter document pos = false ->
  triggerCharacter <> Some "*" ->
  let outcome :=
    getCompletions lib resolver config last document pos triggerKind triggerCharacter
                   true in
  returned outcome = None
  /\ queries outcome = []
  /\ (rejectedBeforeCache lib resolver document pos triggerKind triggerCharacter = false ->
      cache outcome = None).
Proof.
  intros Hreuse Hstar. cbv zeta.
  by_cases; cbn [returned queries cache];
    unfold reachesEngineQuery, reachesMetadata; rewrite ?andb_false_r; cbn [andb];
    try discriminate.
  - intros H. repeat split. intros H'. rewrite H in H'. discriminate.
  - intros lc _ _ H. rewrite H in Hreuse. discriminate.
  - intros. repeat split.
  - intros _ _ _ H. apply isString_true in H. contradiction.
Qed.

Lemma cancelled_request_witness :
  let outcome :=
    getCompletions Example.lib Example.resolver Example.config Example.cached
                   Example.docEmptyTag (Example.at_ 5)
                   (Some CompletionTriggerKind.Invoked) None true in
  returned outcome = None
  /\ queries outcome = []
  /\ (rejectedBeforeCache Example.lib Example.resolver Example.docEmptyTag (Example.at_ 5)
                          (Some CompletionTriggerKind.Invoked) None = false ->
      cache outcome = None).
Proof.
  apply (cancelled_request
           Example.lib Example.resolver Example.config Example.cached
           Example.docEmptyTag (Example.at_ 5) (Some CompletionTriggerKind.Invoked) None);
    [reflexivity | discriminate].
Defined.

(** ** The list of a request with up to 500 entries *)

Lemma omap_length_le {A B : Type} (f : A -> option B) (l : list A) :
  (length (omap f l) <= length l)%nat.
Proof.
  induction l as [|x l IH]; [reflexivity|].
  change (omap f (x :: l))
    with (match f x with Some y => y :: omap f l | None => omap f l end).
  destruct (f x); cbn [length]; lia.
Qed.

(** X7: when a request reaches the query of the language service and the
    entries (those of the query, or of the fallback after an empty answer)
    number between 1 and 500, the list returned holds the translated entries
    followed by the metadata items, so no more items than entries and metadata
    items together, and it is stored in the cache under the file path of the
    document at the position of the request. *)
Theorem computed_list_and_cache
    (lib : Lib) (resolver : Document -> LSAndTSDoc) (config : Config)
    (last : option LastCompletion) (document : Document) (pos : Position)
    (triggerKind : option Z) (triggerCharacter : option string) (cancelled : bool) :
  let completions := completionsOf lib resolver config document pos triggerCharacter in
  let metadata := eventAndSlotLetCompletionsOf lib resolver document pos in
  let translated := translatedItemsOf lib resolver config document pos triggerCharacter in
  let outcome :=
    getCompletions lib resolver config last document pos triggerKind triggerCharacter
                   cancelled in
  reachesEngineQuery lib resolver last document pos triggerKind triggerCharacter cancelled
  = true ->
  (0 < length completions <= 500)%nat ->
  returned outcome
  = Some {| isIncomplete := hasParserError (tsDocOf resolver document);
            items := translated ++ metadata |}
  /\ cache outcome
     = Some {| key := orEmpty (getFilePath document);
               position := pos;
               completionList := returned outcome |}
  /\ (length translated <= length completions)%nat.
Proof.
  cbv zeta. intros Hreach Hlen.
  assert (Hparts := Hreach). apply reachesEngineQuery_parts in Hparts.
  destruct Hparts as [Hmeta Hcolon].
  apply reachesMetadata_parts in Hmeta.
  destruct Hmeta as (H1 & H2 & H3 & H4 & H5 & H6 & H7 & H8).
  assert (Hrej : rejectedBeforeCache lib resolver document pos triggerKind
                                     triggerCharacter = false).
  { unfold rejectedBeforeCache, validTriggerCharacterOf, tsDocOf.
    rewrite H1, H2, H3. reflexivity. }
  assert (Hbound :
    (length (translatedItemsOf lib resolver config document pos triggerCharacter)
     <= length (completionsOf lib resolver config document pos triggerCharacter))%nat).
  { unfold translatedItemsOf, acceptedItemsOf. rewrite !length_map.
    etransitivity; [apply omap_length_le|]. apply List.filter_length_le. }
  by_cases; cbn [returned cache].
  - intros H. rewrite Hrej in H. discriminate.
  - intros lc _ _ H. rewrite H4 in H. discriminate.
  - intros _ _ [H | [_ [H | H]]].
    + unfold tsDocOf in H. rewrite H5 in H. discriminate.
    + unfold inPlainText, svelteNodeOf, originalOffsetOf, tsDocOf in H.
      rewrite H7 in H. discriminate.
    + rewrite H8 in H. discriminate.
  - intros _ _ _ H. rewrite H6 in H. discriminate.
  - intros _ H. rewrite Hcolon in H. discriminate.
  - intros _ H _. rewrite H in Hlen. cbn in Hlen. lia.
  - intros _ H _. lia.
  - intros _ H _. lia.
  - intros _ _. repeat split. exact Hbound.
Qed.

Lemma computed_list_and_cache_witness :
  let outcome :=
    getCompletions Example.lib Example.resolver Example.config None
                   Example.docEmptyTag (Example.at_ 5)
                   (Some CompletionTriggerKind.Invoked) None false in
  let translated :=
    translatedItemsOf Example.lib Example.resolver Example.config Example.docEmptyTag
                      (Example.at_ 5) None in
  returned outcome
  = Some {| isIncomplete := hasParserError (tsDocOf Example.resolver Example.docEmptyTag);
            items := translated
                     ++ eventAndSlotLetCompletionsOf Example.lib Example.resolver
                                                     Example.docEmptyTag (Example.at_ 5) |}
  /\ cache outcome
     = Some {| key := orEmpty (getFilePath Example.docEmptyTag);
               position := Example.at_ 5;
               completionList := returned outcome |}
  /\ (length translated
      <= length (completionsOf Example.lib Example.resolver Example.config
                               Example.docEmptyTag (Example.at_ 5) None))%nat.
Proof.
  apply (computed_list_and_cache
           Example.lib Example.resolver Example.config None Example.docEmptyTag
           (Example.at_ 5) (Some CompletionTriggerKind.Invoked) None false).
  - reflexivity.
  - vm_compute. split; lia.
Defined.

(** ** Empty answers without the fallback *)

(** X8: with the new transformation, or without a component at the cursor,
    the fallback contributes nothing: when the query of the language service
    yields no entries and the metadata generator no items, the request is
    answered an empty list marked incomplete if the document has a parser
    error and [null] otherwise, and [getCompletions] has handed the language
    service to [getComponentAtPosition] and then made the completion query:
    the fallback asks nothing of it. *)
Theorem empty_result_without_fallback
    (lib : Lib) (resolver : Document -> LSAndTSDoc) (config : Config)
    (last : option LastCompletion) (document : Document) (pos : Position)
    (triggerKind : option Z) (triggerCharacter : option string) (cancelled : bool) :
  let outcome :=
    getCompletions lib resolver config last document pos triggerKind triggerCharacter
                   cancelled in
  useNewTransformation config = true
  \/ componentInfoOf lib resolver document pos = None ->
  reachesEngineQuery lib resolver last document pos triggerKind triggerCharacter cancelled
  = true ->
  engineEntriesOf resolver document pos triggerCharacter = [] ->
  eventAndSlotLetCompletionsOf lib resolver document pos = [] ->
  returned outcome
  = (if hasParserError (tsDocOf resolver document)
     then Some (CompletionList_create [] true) else None)
  /\ queries outcome
     = [ComponentLookup pos;
        QueryCompletions (filePath (tsDocOf resolver document))
                         (offsetOf resolver document pos)
                         (validTriggerCharacterOf triggerCharacter)].
Proof.
  cbv zeta. intros Hnew Hreach He Hm.
  assert (Hf :
    jsxTransformationPropStringLiteralCompletion
      config (langOf resolver document) (componentInfoOf lib resolver document pos)
      (offsetOf resolver document pos) (tsDocOf resolver document) = (None, [])).
  { unfold jsxTransformationPropStringLiteralCompletion.
    destruct Hnew as [Hnew | Hnew]; rewrite Hnew; [|reflexivity].
    destruct (componentInfoOf lib resolver document pos); reflexivity. }
  assert (Hc : completionsOf lib resolver config document pos triggerCharacter = []).
  { unfold completionsOf, fallbackEntriesOf. rewrite He, Hf. reflexivity. }
  assert (Hlog : engineLogOf lib resolver config document pos triggerCharacter
                 = [ComponentLookup pos;
                    QueryCompletions (filePath (tsDocOf resolver document))
                                     (offsetOf resolver document pos)
                                     (validTriggerCharacterOf triggerCharacter)]).
  { unfold engineLogOf. rewrite He, Hf. reflexivity. }
  assert (Hparts := Hreach). apply reachesEngineQuery_parts in Hparts.
  destruct Hparts as [Hmeta Hcolon].
  apply reachesMetadata_parts in Hmeta.
  destruct Hmeta as (H1 & H2 & H3 & H4 & H5 & H6 & H7 & H8).
  assert (Hrej : rejectedBeforeCache lib resolver document pos triggerKind
                                     triggerCharacter = false).
  { unfold rejectedBeforeCache, validTriggerCharacterOf, tsDocOf.
    rewrite H1, H2, H3. reflexivity. }
  by_cases; cbn [returned queries]; rewrite ?Hc, ?Hlog; cbn [length Z.of_nat].
  - intros H. rewrite Hrej in H. discriminate.
  - intros lc _ _ H. rewrite H4 in H. discriminate.
  - intros _ _ [H | [_ [H | H]]].
    + unfold tsDocOf in H. rewrite H5 in H. discriminate.
    + unfold inPlainText, svelteNodeOf, originalOffsetOf, tsDocOf in H.
      rewrite H7 in H. discriminate.
    + rewrite H8 in H. discriminate.
  - intros _ _ _ H. rewrite H6 in H. discriminate.
  - intros _ H. rewrite Hcolon in H. discriminate.
  - intros _ _ _. split; reflexivity.
  - intros _ H _. lia.
  - intros _ H _. lia.
  - intros _ [H | H]; [now elim H | rewrite Hm in H; now elim H].
Qed.

Lemma empty_result_without_fallback_witness :
  let outcome :=
    getCompletions Example.lib (Example.resolverWith []) Example.config None
                   Example.docDiv (Example.at_ 5)
                   (Some CompletionTriggerKind.Invoked) None false in
  returned outcome
  = (if hasParserError (tsDocOf (Example.resolverWith []) Example.docDiv)
     then Some (CompletionList_create [] true) else None)
  /\ queries outcome
     = [ComponentLookup (Example.at_ 5);
        QueryCompletions (filePath (tsDocOf (Example.resolverWith []) Example.docDiv))
                         (offsetOf (Example.resolverWith []) Example.docDiv (Example.at_ 5))
                         (validTriggerCharacterOf None)].
Proof.
  apply (empty_result_without_fallback
           Example.lib (Example.resolverWith []) Example.config None
           Example.docDiv (Example.at_ 5) (Some CompletionTriggerKind.Invoked) None false);
    [right; reflexivity | reflexivity | reflexivity | reflexivity].
Defined.

(** ** The item translator *)

(** What [toCompletionItem] builds, when it builds an item. *)
Lemma toCompletionItem_some
    (lib : Lib) (snapshot : Snapshot) (comp : CompletionEntry) (uri : string)
    (pos : Position) (existingImports : gset string) (item : CompletionItem) :
  toCompletionItem lib snapshot comp uri pos existingImports = Some item ->
  exists li : LabelAndInsert,
    getCompletionLabelAndInsert lib snapshot comp = Some li
    /\ item
       = {| item_label := li_label li;
            item_insertText := li_insertText li;
            item_kind := scriptElementKindToCompletionItemKind lib (kind comp);
            item_commitCharacters := getCommitCharactersForScriptElement lib (kind comp);
            item_sortText := Some (if li_isSvelteComp li then "-1" else sortText comp);
            item_preselect := if li_isSvelteComp li then Some true else isRecommended comp;
            item_detail := None;
            item_documentation := None;
            item_textEdit :=
              match li_replacementSpan li with
              | Some span =>
                  Some (PlainEdit
                          (TextEdit_replace (convertRange lib snapshot span)
                                            (match li_insertText li with
                                             | Some t => t
                                             | None => li_label li
                                             end)))
              | None => None
              end;
            item_additionalTextEdits := None;
            item_data :=
              Some {| data_entry := comp; data_uri := uri; data_position := pos |} |}.
Proof.
  unfold toCompletionItem.
  destruct (getCompletionLabelAndInsert lib snapshot comp) as [li|]; [|discriminate].
  destruct (li_isSvelteComp li && has existingImports (li_label li)); [discriminate|].
  intros [= <-]. exists li. split; reflexivity.
Qed.

(** X9: an item translated from an entry with the placeholder suffix sorts
    first (sort text [-1]) and is preselected, any other item keeps the sort
    text and the recommendation of the language service; an item has a text
    edit only if its entry has a replacement span, and the edit then replaces
    the converted span with the insert text of the item, or with its label if
    it has none. *)
Theorem translated_item_precedence_and_edit
    (lib : Lib) (snapshot : Snapshot) (comp : CompletionEntry) (uri : string)
    (pos : Position) (existingImports : gset string) (item : CompletionItem) :
  toCompletionItem lib snapshot comp uri pos existingImports = Some item ->
  (if isSvelteComponentImport (name comp)
   then item_sortText item = Some "-1" /\ item_preselect item = Some true
   else item_sortText item = Some (sortText comp)
        /\ item_preselect item = isRecommended comp)
  /\ match item_textEdit item with
     | None => True
     | Some (InsertReplace _) => False
     | Some (PlainEdit e) =>
         exists span : TextSpan,
           replacementSpan comp = Some span
           /\ range e = convertRange lib snapshot span
           /\ newText e = match item_insertText item with
                          | Some t => t
                          | None => item_label item
                          end
     end.
Proof.
  intros H. apply toCompletionItem_some in H. destruct H as (li & Hli & ->).
  destruct (getCompletionLabelAndInsert_some lib snapshot comp li Hli) as [Hc _].
  cbn [item_sortText item_preselect item_textEdit item_insertText item_label].
  rewrite Hc. split.
  - destruct (isSvelteComponentImport (name comp)); split; reflexivity.
  - destruct (li_replacementSpan li) as [span|] eqn:Hspan; [|exact I].
    exists span. split; [|split; reflexivity].
    revert Hli Hspan. unfold getCompletionLabelAndInsert. cbv zeta.
    repeat match goal with
           | |- context [if ?b then _ else _] => destruct b
           end; try discriminate;
      destruct (replacementSpan comp); intros [= <-]; cbn; congruence.
Qed.

Lemma translated_item_precedence_and_edit_witness :
  item_sortText
    {| item_label := "Foo"; item_insertText := None; item_kind := Some 10;
       item_commitCharacters := None; item_sortText := Some "-1";
       item_preselect := Some true; item_detail := None; item_documentation := None;
       item_textEdit := None; item_additionalTextEdits := None;
       item_data := Some {| data_entry := Example.classPlaceholderEntry;
                            data_uri := "file:///src/App.svelte";
                            data_position := Example.at_ 5 |} |} = Some "-1"
  /\ Some true = Some true.
Proof.
  apply (proj1 (translated_item_precedence_and_edit
                  Example.lib (Example.mkSnapshot' Example.textEmptyTag 100)
                  Example.classPlaceholderEntry "file:///src/App.svelte"
                  (Example.at_ 5) ResolveExample.noImports
                  {| item_label := "Foo"; item_insertText := None; item_kind := Some 10;
                     item_commitCharacters := None; item_sortText := Some "-1";
                     item_preselect := Some true; item_detail := None;
                     item_documentation := None; item_textEdit := None;
                     item_additionalTextEdits := None;
                     item_data := Some {| data_entry := Example.classPlaceholderEntry;
                                          data_uri := "file:///src/App.svelte";
                                          data_position := Example.at_ 5 |} |}
                  ltac:(vm_compute; reflexivity))).
Defined.

(** X10: every entry that [getCompletions] translates has passed
    [isValidCompletion]: it is not a declared name of the shims (a name that
    starts with [__sveltets_] or one of the shim types), and in an HTML start
    tag it is not a JSX attribute; the item carries the entry, the uri of the
    snapshot's file and the position of the request as its resolution payload,
    and no additional text edit yet. *)
Theorem accepted_items_payload
    (lib : Lib) (resolver : Document -> LSAndTSDoc) (config : Config)
    (document : Document) (pos : Position) (triggerCharacter : option string)
    (item : CompletionItem) :
  item ∈ acceptedItemsOf lib resolver config document pos triggerCharacter ->
  exists comp : CompletionEntry,
    comp ∈ completionsOf lib resolver config document pos triggerCharacter
    /\ item_data item
       = Some {| data_entry := comp;
                 data_uri := pathToUrl lib (filePath (tsDocOf resolver document));
                 data_position := pos |}
    /\ item_additionalTextEdits item = None
    /\ (kindModifiers comp = Some "declare" ->
        JsString.startsWith (name comp) "__sveltets_" = false
        /\ name comp ∉ svelte2tsxTypes)
    /\ (getNodeIfIsInHTMLStartTag lib document (doc_offsetAt document pos) = true ->
        kind comp <> ScriptElementKind.jsxAttribute).
Proof.
  unfold acceptedItemsOf. intros Hin.
  apply list_elem_of_omap in Hin. destruct Hin as (comp & Hc & Hitem).
  apply list_elem_of_In, List.filter_In in Hc. destruct Hc as [Hc Hvalid].
  exists comp. split; [now apply list_elem_of_In|].
  apply toCompletionItem_some in Hitem. destruct Hitem as (li & _ & ->).
  split; [reflexivity|]. split; [reflexivity|].
  unfold isValidCompletion, isNoSvelte2tsxCompletion in Hvalid. split.
  - intros Hd. rewrite Hd in Hvalid. cbn [isString] in Hvalid.
    change (String.eqb "declare" "declare") with true in Hvalid. cbn [negb orb] in Hvalid.
    assert (Hn : negb (JsString.startsWith (name comp) "__sveltets_")
                 && negb (has svelte2tsxTypes (name comp)) = true).
    { destruct (negb (getNodeIfIsInHTMLStartTag lib document (doc_offsetAt document pos)));
        [exact Hvalid|].
      apply andb_true_iff in Hvalid. tauto. }
    apply andb_true_iff in Hn. destruct Hn as [Hs Ht].
    apply negb_true_iff in Hs. apply negb_true_iff in Ht.
    split; [exact Hs|]. unfold has in Ht. now apply bool_decide_eq_false in Ht.
  - intros Htag. rewrite Htag in Hvalid. cbn [negb] in Hvalid.
    apply andb_true_iff in Hvalid. destruct Hvalid as [Hk _].
    apply negb_true_iff in Hk. now apply String.eqb_neq in Hk.
Qed.

Lemma accepted_items_payload_witness :
  exists comp : CompletionEntry,
    comp ∈ completionsOf Example.lib Example.resolver Example.config
                         Example.docEmptyTag (Example.at_ 5) None
    /\ Some {| data_entry := Example.titleEntry;
               data_uri := "file:///src/App.svelte";
               data_position := Example.at_ 5 |}
       = Some {| data_entry := comp;
                 data_uri := pathToUrl Example.lib
                               (filePath (tsDocOf Example.resolver Example.docEmptyTag));
                 data_position := Example.at_ 5 |}
    /\ @None (list TextEdit) = None
    /\ (kindModifiers comp = Some "declare" ->
        JsString.startsWith (name comp) "__sveltets_" = false
        /\ name comp ∉ svelte2tsxTypes)
    /\ (getNodeIfIsInHTMLStartTag Example.lib Example.docEmptyTag
                                  (doc_offsetAt Example.docEmptyTag (Example.at_ 5)) = true ->
        kind comp <> ScriptElementKind.jsxAttribute).
Proof.
  apply (accepted_items_payload
           Example.lib Example.resolver Example.config Example.docEmptyTag
           (Example.at_ 5) None
           {| item_label := "title"; item_insertText := None; item_kind := Some 10;
              item_commitCharacters := None; item_sortText := Some "11";
              item_preselect := None; item_detail := None; item_documentation := None;
              item_textEdit := None; item_additionalTextEdits := None;
              item_data := Some {| data_entry := Example.titleEntry;
                                   data_uri := "file:///src/App.svelte";
                                   data_position := Example.at_ 5 |} |}).
  vm_compute. constructor.
Defined.

(** ** The prop string-literal fallback *)

(** X11: the fallback yields entries only with the old transformation, for
    a component at the cursor and a JSX attribute of the generated file whose
    initializer is a string literal; the entries are those of the prop named by
    the attribute, each with one and the same replacement span: none for a
    literal of width 0, and otherwise the span between the quotes of the
    literal, from one past its start and two shorter than it. *)
Theorem fallback_replaces_literal_content
    (config : Config) (lang : LanguageService)
    (componentInfo : option ComponentInfoProvider) (offset : Z) (tsDoc : Snapshot)
    (entries : list CompletionEntry) :
  fst (jsxTransformationPropStringLiteralCompletion config lang componentInfo offset tsDoc)
  = Some entries ->
  useNewTransformation config = false
  /\ exists (info : ComponentInfoProvider) (sourceFile : Z -> option JsxAttribute)
            (attribute : JsxAttribute) (init : Initializer),
       componentInfo = Some info
       /\ getSourceFile lang (filePath tsDoc) = Some sourceFile
       /\ sourceFile offset = Some attribute
       /\ initializer attribute = Some init
       /\ isStringLiteral init = true
       /\ map name entries = map name (getProp info (attr_name_text attribute))
       /\ Forall (fun entry =>
                    replacementSpan entry
                    = if getWidth init =? 0 then None
                      else Some {| span_start := getStart init + 1;
                                   span_length := getWidth init - 2 |})
                 entries.
Proof.
  unfold jsxTransformationPropStringLiteralCompletion.
  destruct componentInfo as [info|]; [|discriminate].
  destruct (useNewTransformation config); [discriminate|].
  destruct (getSourceFile lang (filePath tsDoc)) as [sourceFile|]; [|discriminate].
  destruct (sourceFile offset) as [attribute|] eqn:Hattr; [|discriminate].
  destruct (initializer attribute) as [init|] eqn:Hinit; [|discriminate].
  destruct (isStringLiteral init) eqn:Hlit; [|discriminate].
  cbn [negb fst]. intros [= <-]. split; [reflexivity|].
  exists info, sourceFile, attribute, init.
  repeat (split; [reflexivity || assumption|]).
  split.
  - rewrite map_map. reflexivity.
  - apply Forall_forall. intros entry Hin. apply list_elem_of_In in Hin.
    apply List.in_map_iff in Hin.
    destruct Hin as (item & <- & _). reflexivity.
Qed.

Lemma fallback_replaces_literal_content_witness :
  useNewTransformation Example.config = false
  /\ exists (info : ComponentInfoProvider) (sourceFile : Z -> option JsxAttribute)
            (attribute : JsxAttribute) (init : Initializer),
       Some Example.fooInfo = Some info
       /\ getSourceFile (Example.mkLang Example.textValue [])
                        (filePath (Example.mkSnapshot' Example.textValue 100))
          = Some sourceFile
       /\ sourceFile 12 = Some attribute
       /\ initializer attribute = Some init
       /\ isStringLiteral init = true
       /\ map name [mkCompletionEntry "Hello" "string" None "11" None
                                      (Some (mkTextSpan 12 0)) None None]
          = map name (getProp info (attr_name_text attribute))
       /\ Forall (fun entry =>
                    replacementSpan entry
                    = if getWidth init =? 0 then None
                      else Some {| span_start := getStart init + 1;
                                   span_length := getWidth init - 2 |})
                 [mkCompletionEntry "Hello" "string" None "11" None
                                    (Some (mkTextSpan 12 0)) None None].
Proof.
  apply (fallback_replaces_literal_content
           Example.config (Example.mkLang Example.textValue []) (Some Example.fooInfo) 12
           (Example.mkSnapshot' Example.textValue 100)).
  vm_compute. reflexivity.
Defined.

(** ** Code actions for a document with a script region *)

Lemma startsWith_append (p t : string) : JsString.startsWith (p +:+ t) p = true.
Proof.
  unfold JsString.startsWith. induction p as [|a p IH].
  - destruct t; reflexivity.
  - change (String a p +:+ t) with (String a (p +:+ t)). cbn [String.prefix].
    destruct (ascii_dec a a) as [_|Hne]; [exact IH | now elim Hne].
Qed.

(** The edit of a change when the snapshot has a script region. *)
Lemma codeActionChangeToTextEdit_script
    (lib : Lib) (config : Config) (doc : Document) (snapshot : Snapshot)
    (change : TextChange) (isImport : bool) (originalTriggerPosition : Position)
    (scriptTagInfo : TagInformation) :
  scriptTagInfoOf snapshot = Some scriptTagInfo ->
  let text := changeComponentImport lib (change_newText change)
                                    (isInScript lib originalTriggerPosition doc) in
  let e := codeActionChangeToTextEdit lib config doc snapshot change isImport
                                      originalTriggerPosition in
  range e
  = (if usesScriptStart lib snapshot change isImport
     then convertRangeDoc lib doc
            {| span_start :=
                 if isInTag lib originalTriggerPosition (doc_scriptInfo doc)
                 then orElseZ (option_map tag_start (scriptInfo snapshot))
                              (tag_start scriptTagInfo)
                 else if isInTag lib originalTriggerPosition (doc_moduleScriptInfo doc)
                 then orElseZ (option_map tag_start (moduleScriptInfo snapshot))
                              (tag_start scriptTagInfo)
                 else tag_start scriptTagInfo;
               span_length := span_length (change_span change) |}
     else mappedChangeRange lib snapshot change isImport)
  /\ newText e
     = (if atScriptStart doc snapshot e
           && negb (JsString.startsWith text JsString.crlf)
           && negb (JsString.startsWith text JsString.lf)
        then sys_newLine lib +:+ text else text).
Proof.
  intros Htag. cbv zeta.
  unfold codeActionChangeToTextEdit, atScriptStart. rewrite Htag. cbv zeta.
  unfold usesScriptStart, mappedChangeRange. cbv zeta.
  cbn [range newText TextEdit_replace]. split; reflexivity.
Qed.

(** X12: when the snapshot has a single script region (a script region or a
    module-script region, not both) and the mapped range of a change is
    unusable, the edit is placed at the start of that region, with the length
    of the span of the change, wherever the completion was triggered; a usable
    mapped range is kept as it is. *)
Theorem unusable_range_goes_to_script_start
    (lib : Lib) (config : Config) (doc : Document) (snapshot : Snapshot)
    (change : TextChange) (isImport : bool) (originalTriggerPosition : Position)
    (region : TagInformation) :
  scriptInfo snapshot = Some region /\ moduleScriptInfo snapshot = None
  \/ scriptInfo snapshot = None /\ moduleScriptInfo snapshot = Some region ->
  range (codeActionChangeToTextEdit lib config doc snapshot change isImport
                                    originalTriggerPosition)
  = if usesScriptStart lib snapshot change isImport
    then convertRangeDoc lib doc {| span_start := tag_start region;
                                    span_length := span_length (change_span change) |}
    else mappedChangeRange lib snapshot change isImport.
Proof.
  intros Hregion.
  assert (Htag : scriptTagInfoOf snapshot = Some region).
  { unfold scriptTagInfoOf. destruct Hregion as [[-> _] | [-> ->]]; reflexivity. }
  destruct (codeActionChangeToTextEdit_script
              lib config doc snapshot change isImport originalTriggerPosition region Htag)
    as [Hrange _].
  rewrite Hrange.
  destruct (usesScriptStart lib snapshot change isImport); [|reflexivity].
  f_equal. f_equal.
  destruct Hregion as [[-> ->] | [-> ->]]; cbn [option_map orElseZ];
    destruct (isInTag lib originalTriggerPosition (doc_scriptInfo doc));
    destruct (isInTag lib originalTriggerPosition (doc_moduleScriptInfo doc));
    try destruct (tag_start region =? 0); reflexivity.
Qed.

Lemma unusable_range_goes_to_script_start_witness :
  range (codeActionChangeToTextEdit ResolveExample.lib Example.config ResolveExample.doc
                                    ResolveExample.snapshot Example.importChange true
                                    (mkPosition 0 36))
  = if usesScriptStart ResolveExample.lib ResolveExample.snapshot Example.importChange true
    then convertRangeDoc ResolveExample.lib ResolveExample.doc
                         {| span_start := tag_start ResolveExample.scriptRegion;
                            span_length := span_length (change_span Example.importChange) |}
    else mappedChangeRange ResolveExample.lib ResolveExample.snapshot
                           Example.importChange true.
Proof.
  apply (unusable_range_goes_to_script_start
           ResolveExample.lib Example.config ResolveExample.doc ResolveExample.snapshot
           Example.importChange true (mkPosition 0 36) ResolveExample.scriptRegion).
  left. split; reflexivity.
Defined.

(** X13: an edit that [codeActionChangeToTextEdit] places exactly at the
    start of the script region or of the module-script region never has its
    text begin right behind the opening tag: the text begins with a line break
    (CR LF or LF) of its own, or with the line break of the system put before
    it.  Anywhere else the text is the rewritten text of the change. *)
Theorem edit_at_script_start_begins_with_line_break
    (lib : Lib) (config : Config) (doc : Document) (snapshot : Snapshot)
    (change : TextChange) (isImport : bool) (originalTriggerPosition : Position) :
  let text := changeComponentImport lib (change_newText change)
                                    (isInScript lib originalTriggerPosition doc) in
  let e := codeActionChangeToTextEdit lib config doc snapshot change isImport
                                      originalTriggerPosition in
  (atScriptStart doc snapshot e = true ->
   JsString.startsWith (newText e) JsString.crlf = true
   \/ JsString.startsWith (newText e) JsString.lf = true
   \/ JsString.startsWith (newText e) (sys_newLine lib) = true)
  /\ (atScriptStart doc snapshot e = false ->
      scriptTagInfoOf snapshot <> None ->
      newText e = text).
Proof.
  cbv zeta.
  destruct (scriptTagInfoOf snapshot) as [tag|] eqn:Htag.
  - destruct (codeActionChangeToTextEdit_script
                lib config doc snapshot change isImport originalTriggerPosition tag Htag)
      as [_ Htext].
    cbv zeta in Htext. split.
    + intros Hat. rewrite Hat in Htext. cbn [andb] in Htext. rewrite Htext.
      destruct (JsString.startsWith
                  (changeComponentImport lib (change_newText change)
                                         (isInScript lib originalTriggerPosition doc))
                  JsString.crlf) eqn:Hcrlf; [now left|].
      destruct (JsString.startsWith
                  (changeComponentImport lib (change_newText change)
                                         (isInScript lib originalTriggerPosition doc))
                  JsString.lf) eqn:Hlf; [right; now left|].
      cbn [negb andb]. right. right. apply startsWith_append.
    + intros Hat _. rewrite Hat in Htext. exact Htext.
  - split; [|intros _ H; now elim H].
    unfold atScriptStart. unfold scriptTagInfoOf in Htag.
    destruct (scriptInfo snapshot); [discriminate|]. rewrite Htag.
    cbn. discriminate.
Qed.

Lemma edit_at_script_start_begins_with_line_break_witness :
  let e := codeActionChangeToTextEdit ResolveExample.lib Example.config ResolveExample.doc
                                      ResolveExample.snapshot Example.importChange true
                                      (mkPosition 0 36) in
  JsString.startsWith (newText e) JsString.crlf = true
  \/ JsString.startsWith (newText e) JsString.lf = true
  \/ JsString.startsWith (newText e) (sys_newLine ResolveExample.lib) = true.
Proof.
  apply (proj1 (edit_at_script_start_begins_with_line_break
                  ResolveExample.lib Example.config ResolveExample.doc
                  ResolveExample.snapshot Example.importChange true (mkPosition 0 36))).
  vm_compute. reflexivity.
Defined.

(** ** Resolving *)

(** X14: an item without a resolution payload, a snapshot without a file
    path, or a cancelled request: [resolveCompletion] returns the item as it
    is and makes no query of the language service. *)
Theorem resolve_without_payload_or_cancelled
    (lib : Lib) (rlib : ResolveLib) (resolver : Document -> LSAndTSDoc) (config : Config)
    (document : Document) (item : CompletionItem) (cancelled : bool) :
  item_data item = None
  \/ JsString.truthy (filePath (tsDoc (resolver document))) = false
  \/ cancelled = true ->
  resolveCompletion lib rlib resolver config document item cancelled = (item, []).
Proof.
  unfold resolveCompletion. cbv zeta.
  destruct (item_data item) as [comp|]; [|reflexivity].
  intros [H | [H | H]]; [discriminate | |]; rewrite H; cbn [negb orb];
    rewrite ?orb_true_r; reflexivity.
Qed.

Lemma resolve_without_payload_or_cancelled_witness :
  resolveCompletion ResolveExample.lib ResolveExample.rlib ResolveExample.resolver
                    Example.config ResolveExample.doc ResolveExample.fooItem true
  = (ResolveExample.fooItem, []).
Proof.
  apply (resolve_without_payload_or_cancelled
           ResolveExample.lib ResolveExample.rlib ResolveExample.resolver Example.config
           ResolveExample.doc ResolveExample.fooItem true).
  right. right. reflexivity.
Defined.

Lemma length_edits_of_actions
    (F : FileTextChanges -> list TextEdit) (actions : list CodeAction) :
  (forall c : FileTextChanges, length (F c) = length (textChanges c)) ->
  length (concat (map (fun action => concat (map F (changes action))) actions))
  = length (concat (map textChanges (concat (map changes actions)))).
Proof.
  intros HF.
  assert (Hinner : forall l : list FileTextChanges,
             length (concat (map F l)) = length (concat (map textChanges l))).
  { induction l as [|c l IHl]; [reflexivity|].
    cbn [map concat]. rewrite !length_app, HF, IHl. reflexivity. }
  induction actions as [|action actions IH]; [reflexivity|].
  cbn [map concat]. rewrite map_app, concat_app, !length_app, IH, Hinner. reflexivity.
Qed.

(** X15: resolving changes nothing of an item but its detail, its
    documentation and its additional text edits; the additional edits the item
    had (the prefix edit of the range fixer, if any) are kept in front, and one
    edit is appended for every text change of every code action of the detail,
    in their order. *)
Theorem resolve_appends_edits
    (lib : Lib) (rlib : ResolveLib) (resolver : Document -> LSAndTSDoc) (config : Config)
    (document : Document) (item : CompletionItem) (cancelled : bool) :
  let resolved :=
    fst (resolveCompletion lib rlib resolver config document item cancelled) in
  item_label resolved = item_label item
  /\ item_insertText resolved = item_insertText item
  /\ item_kind resolved = item_kind item
  /\ item_sortText resolved = item_sortText item
  /\ item_preselect resolved = item_preselect item
  /\ item_textEdit resolved = item_textEdit item
  /\ item_data resolved = item_data item
  /\ exists appended : list TextEdit,
       additionalTextEditsOf resolved = additionalTextEditsOf item ++ appended
       /\ forall comp : CompletionEntryWithIdentifier,
            item_data item = Some comp ->
            JsString.truthy (filePath (tsDoc (resolver document))) = true ->
            cancelled = false ->
            length appended = length (textChangesOf (detailOf rlib resolver document comp)).
Proof.
  cbv zeta. unfold resolveCompletion. cbv zeta.
  destruct (item_data item) as [comp|] eqn:Hdata.
  2: { cbn [fst]. repeat (split; [reflexivity || assumption|]).
       exists []. split; [now rewrite app_nil_r | discriminate]. }
  destruct (negb (JsString.truthy (filePath (tsDoc (resolver document)))) || cancelled)
    eqn:Hstop.
  { cbn [fst]. repeat (split; [reflexivity || assumption|]).
    exists []. split; [now rewrite app_nil_r|].
    intros comp' _ Hpath Hc. rewrite Hpath, Hc in Hstop. discriminate. }
  unfold detailOf, errorPreventingUserPreferencesOf, textChangesOf.
  match goal with
  | |- context [match ?d with Some _ => _ | None => (item, _) end] =>
      destruct d as [detail|] eqn:Hdetail
  end.
  2: { cbn [fst]. repeat (split; [reflexivity || assumption|]).
       exists []. split; [now rewrite app_nil_r|].
       intros comp' [= <-] _ _. rewrite Hdetail. reflexivity. }
  destruct (codeActions detail) as [actions|] eqn:Hactions.
  2: { cbn [fst withDetail item_label item_insertText item_kind item_sortText
              item_preselect item_textEdit item_data].
       repeat (split; [reflexivity || assumption|]).
       exists []. split; [unfold additionalTextEditsOf; cbn; now rewrite app_nil_r|].
       intros comp' [= <-] _ _. rewrite Hdetail, Hactions. reflexivity. }
  cbn [fst withAdditionalTextEdits withDetail item_label item_insertText item_kind
         item_sortText item_preselect item_textEdit item_data item_additionalTextEdits].
  repeat (split; [reflexivity || assumption|]).
  eexists. split; [unfold additionalTextEditsOf; cbn; reflexivity|].
  intros comp' [= <-] _ _. rewrite Hdetail, Hactions.
  apply length_edits_of_actions. intros c.
  unfold codeActionChangesToTextEdit. apply length_map.
Qed.

Lemma resolve_appends_edits_witness :
  let resolved :=
    fst (resolveCompletion ResolveExample.lib ResolveExample.rlib ResolveExample.resolver
                           Example.config ResolveExample.doc ResolveExample.fooItem false) in
  additionalTextEditsOf resolved
  = additionalTextEditsOf ResolveExample.fooItem
    ++ [ mkTextEdit (mkRange (mkPosition 0 8) (mkPosition 0 8))
                    (JsString.lf +:+ "import Foo from './Foo.svelte';" +:+ JsString.lf) ]
  /\ length [ mkTextEdit (mkRange (mkPosition 0 8) (mkPosition 0 8))
                         (JsString.lf +:+ "import Foo from './Foo.svelte';"
                          +:+ JsString.lf) ]
     = length (textChangesOf
                 (detailOf ResolveExample.rlib ResolveExample.resolver ResolveExample.doc
                           {| data_entry := Example.classPlaceholderEntry;
                              data_uri := "file:///src/App.svelte";
                              data_position := mkPosition 0 36 |})).
Proof.
  pose proof (resolve_appends_edits
                ResolveExample.lib ResolveExample.rlib ResolveExample.resolver
                Example.config ResolveExample.doc ResolveExample.fooItem false) as H.
  cbv zeta in H.
  destruct H as (_ & _ & _ & _ & _ & _ & _ & appended & Happ & Hlen).
  assert (Heq : appended
                = [ mkTextEdit (mkRange (mkPosition 0 8) (mkPosition 0 8))
                               (JsString.lf +:+ "import Foo from './Foo.svelte';"
                                +:+ JsString.lf) ]).
  { vm_compute in Happ. injection Happ as <-. reflexivity. }
  rewrite <- Heq. split.
  - exact Happ.
  - apply (Hlen _ eq_refl eq_refl eq_refl).
Defined.

Lemma fixUserPreferences_not_js (p : UserPreferences) :
  importModuleSpecifierEnding (fixUserPreferencesForSvelteComponentImport p) <> Some "js"
  /\ otherPreferences (fixUserPreferencesForSvelteComponentImport p) = otherPreferences p.
Proof.
  unfold fixUserPreferencesForSvelteComponentImport.
  destruct (isString (importModuleSpecifierEnding p) "js") eqn:Hjs.
  - split; [discriminate | reflexivity].
  - split; [|reflexivity]. intros H. apply isString_true in H.
    rewrite H in Hjs. discriminate.
Qed.

(** X16: resolving makes at most one details query.  For an entry whose
    source ends in [.svelte] the preferences handed over never have the module
    specifier ending [js] ([index] takes its place), for any other entry they
    are the user's preferences; the other preferences are always the user's.
    Fixing the preferences twice is fixing them once. *)
Theorem resolve_query_preferences
    (lib : Lib) (rlib : ResolveLib) (resolver : Document -> LSAndTSDoc) (config : Config)
    (document : Document) (item : CompletionItem) (cancelled : bool) :
  let asked := snd (resolveCompletion lib rlib resolver config document item cancelled) in
  (length asked <= 1)%nat
  /\ (forall (file : string) (offset : Z) (entry : CompletionEntry)
             (preferences : UserPreferences),
        QueryDetails file offset entry preferences ∈ asked ->
        otherPreferences preferences = otherPreferences (userPreferencesOf rlib document)
        /\ match source entry with
           | Some s =>
               if JsString.endsWith s ".svelte"
               then importModuleSpecifierEnding preferences <> Some "js"
               else preferences = userPreferencesOf rlib document
           | None => preferences = userPreferencesOf rlib document
           end)
  /\ (forall p : UserPreferences,
        fixUserPreferencesForSvelteComponentImport
          (fixUserPreferencesForSvelteComponentImport p)
        = fixUserPreferencesForSvelteComponentImport p).
Proof.
  cbv zeta. split; [|split].
  - unfold resolveCompletion. cbv zeta.
    repeat match goal with
           | |- context [match ?x with _ => _ end] =>
               lazymatch x with
               | context [match _ with _ => _ end] => fail
               | _ => destruct x
               end
           end; cbn; lia.
  - intros file offset entry preferences.
    unfold resolveCompletion. cbv zeta.
    destruct (item_data item) as [comp|]; [|cbn; intros H; inversion H].
    destruct (negb (JsString.truthy (filePath (tsDoc (resolver document)))) || cancelled);
      [cbn; intros H; inversion H|].
    match goal with
    | |- _ ∈ snd ?r -> _ =>
        assert (Hsnd : exists x, snd r
                       = [QueryDetails
                            (filePath (tsDoc (resolver document)))
                            (offsetAt (tsDoc (resolver document))
                               (getGeneratedPosition (tsDoc (resolver document))
                                                     (data_position comp)))
                            (data_entry comp) x]
                       /\ x = errorPreventingUserPreferencesOf rlib document comp)
    end.
    { eexists. split; [|reflexivity]. unfold errorPreventingUserPreferencesOf.
      repeat match goal with
             | |- context [match ?x with Some _ => _ | None => (_, _) end] => destruct x
             end; reflexivity. }
    destruct Hsnd as (x & -> & ->).
    intros H. apply list_elem_of_singleton in H. injection H as -> -> -> ->.
    unfold errorPreventingUserPreferencesOf.
    destruct (source (data_entry comp)) as [s|]; [|split; reflexivity].
    destruct (JsString.endsWith s ".svelte"); [|split; reflexivity].
    destruct (fixUserPreferences_not_js (userPreferencesOf rlib document)) as [Hjs Ho].
    split; [exact Ho | exact Hjs].
  - intros p. unfold fixUserPreferencesForSvelteComponentImport at 1.
    destruct (isString (importModuleSpecifierEnding
                          (fixUserPreferencesForSvelteComponentImport p)) "js") eqn:Hjs;
      [|reflexivity].
    apply isString_true in Hjs.
    now destruct (fixUserPreferences_not_js p) as [Hne _].
Qed.

Lemma resolve_query_preferences_witness :
  otherPreferences {| importModuleSpecifierEnding := Some "index"; otherPreferences := [] |}
  = otherPreferences (userPreferencesOf ResolveExample.rlib ResolveExample.doc)
  /\ importModuleSpecifierEnding
       {| importModuleSpecifierEnding := Some "index"; otherPreferences := [] |}
     <> Some "js".
Proof.
  apply (proj1 (proj2 (resolve_query_preferences
                         ResolveExample.lib ResolveExample.rlib ResolveExample.resolver
                         Example.config ResolveExample.doc ResolveExample.fooItem false))
               "/src/App.svelte" 36 Example.classPlaceholderEntry
               {| importModuleSpecifierEnding := Some "index"; otherPreferences := [] |}).
  vm_compute. constructor.
Defined.

(** ** Doc-comment requests *)

(** X17: a request triggered by [*] that passes the checks before the cache
    lookup, is not served from the cache and lies inside the generated region
    is answered what [getJsDocTemplateCompletion] yields for the file and the
    generated offset, also when the cursor is in plain text or the request is
    cancelled; the cache is empty afterwards and no completion query is made. *)
Theorem doc_comment_request
    (lib : Lib) (resolver : Document -> LSAndTSDoc) (config : Config)
    (last : option LastCompletion) (document : Document) (pos : Position)
    (triggerKind : option Z) (cancelled : bool) :
  rejectedBeforeCache lib resolver document pos triggerKind (Some "*") = false ->
  canReuseLastCompletion lib last triggerKind (Some "*") document pos = false ->
  isInGenerated (tsDocOf resolver document) pos = true ->
  getCompletions lib resolver config last document pos triggerKind (Some "*") cancelled
  = {| returned := getJsDocTemplateCompletion
                     lib (tsDocOf resolver document) (langOf resolver document)
                     (filePath (tsDocOf resolver document))
                     (offsetOf resolver document pos);
       cache := None;
       queries := [QueryDocCommentTemplate (filePath (tsDocOf resolver document))
                                           (offsetOf resolver document pos)] |}.
Proof.
  intros Hrej Hreuse Hgen.
  by_cases; unfold reachesEngineQuery, reachesMetadata;
    change (isString (Some "*") "*") with true; cbn [negb andb];
    rewrite ?andb_false_r; cbn [andb]; try discriminate; try reflexivity.
  - intros H. rewrite Hrej in H. discriminate.
  - intros lc _ _ H. rewrite Hreuse in H. discriminate.
  - intros _ _ [H | [H _]]; [rewrite Hgen in H|]; discriminate.
Qed.

Lemma doc_comment_request_witness :
  getCompletions Example.lib Example.resolver Example.config None Example.docEmptyTag
                 (Example.at_ 5) (Some CompletionTriggerKind.TriggerCharacter) (Some "*")
                 true
  = {| returned := getJsDocTemplateCompletion
                     Example.lib (tsDocOf Example.resolver Example.docEmptyTag)
                     (langOf Example.resolver Example.docEmptyTag)
                     (filePath (tsDocOf Example.resolver Example.docEmptyTag))
                     (offsetOf Example.resolver Example.docEmptyTag (Example.at_ 5));
       cache := None;
       queries := [QueryDocCommentTemplate
                     (filePath (tsDocOf Example.resolver Example.docEmptyTag))
                     (offsetOf Example.resolver Example.docEmptyTag (Example.at_ 5))] |}.
Proof.
  apply (doc_comment_request
           Example.lib Example.resolver Example.config None Example.docEmptyTag
           (Example.at_ 5) (Some CompletionTriggerKind.TriggerCharacter) true);
    reflexivity.
Defined.

(** ** Repeating a request *)

(** The entry a request leaves in the cache, for a document with a file path. *)
Lemma cache_entry_after_request
    (lib : Lib) (resolver : Document -> LSAndTSDoc) (config : Config)
    (last : option LastCompletion) (document : Document) (pos : Position)
    (triggerKind : option Z) (triggerCharacter : option string) (cancelled : bool)
    (p : string) (lc : LastCompletion) :
  getFilePath document = Some p ->
  rejectedBeforeCache lib resolver document pos triggerKind triggerCharacter = false ->
  cache (getCompletions lib resolver config last document pos triggerKind
                        triggerCharacter cancelled) = Some lc ->
  lc = {| key := p; position := pos;
          completionList :=
            returned (getCompletions lib resolver config last document pos triggerKind
                                     triggerCharacter cancelled) |}.
Proof.
  intros Hpath Hrej. revert lc.
  pattern (getCompletions lib resolver config last document pos triggerKind
                          triggerCharacter cancelled).
  apply getCompletions_cases; cbv zeta; cbn [cache returned]; try discriminate.
  - intros H. rewrite Hrej in H. discriminate.
  - intros lc0 Hlast _ Hreuse lc [= <-].
    apply canReuseLastCompletion_iff in Hreuse.
    destruct Hreuse as (lc' & Hl & Hk & _).
    assert (lc' = lc0) as -> by congruence.
    rewrite Hpath in Hk. injection Hk as ->. reflexivity.
  - intros _ _ lc [= <-]. rewrite Hpath. reflexivity.
Qed.

(** X18: when a re-trigger request for a document with a file path leaves
    an entry in the cache, the same request again (same document, position and
    trigger) is served from the cache: it returns the same list, leaves the
    same cache and makes no query. *)
Theorem repeated_retrigger_served_from_cache
    (lib : Lib) (resolver : Document -> LSAndTSDoc) (config : Config)
    (last : option LastCompletion) (document : Document) (pos : Position)
    (triggerCharacter : option string) (cancelled cancelled' : bool) (p : string) :
  let triggerKind := Some CompletionTriggerKind.TriggerForIncompleteCompletions in
  let first :=
    getCompletions lib resolver config last document pos triggerKind triggerCharacter
                   cancelled in
  let second :=
    getCompletions lib resolver config (cache first) document pos triggerKind
                   triggerCharacter cancelled' in
  getFilePath document = Some p ->
  rejectedBeforeCache lib resolver document pos triggerKind triggerCharacter = false ->
  cache first <> None ->
  returned second = returned first
  /\ cache second = cache first
  /\ queries second = [].
Proof.
  cbv zeta. intros Hpath Hrej Hsome.
  destruct (cache (getCompletions lib resolver config last document pos
                     (Some CompletionTriggerKind.TriggerForIncompleteCompletions)
                     triggerCharacter cancelled)) as [lc|] eqn:Hcache;
    [|now elim Hsome].
  pose proof (cache_entry_after_request _ _ _ _ _ _ _ _ _ _ _ Hpath Hrej Hcache) as Hlc.
  assert (Hgate := Hrej). unfold rejectedBeforeCache, tsDocOf in Hgate.
  apply orb_false_iff in Hgate. destruct Hgate as [Hgate _].
  apply orb_false_iff in Hgate. destruct Hgate as [Hstyle Htruthy].
  apply negb_false_iff in Htruthy.
  rewrite (getCompletions_hit lib resolver config lc document pos _ triggerCharacter
                              cancelled' Hstyle Htruthy).
  - cbn [returned cache queries]. rewrite Hlc. cbn [key completionList].
    repeat split.
  - apply canReuseLastCompletion_iff. exists lc.
    split; [reflexivity|]. rewrite Hlc. cbn [key position].
    split; [exact Hpath|]. split; [reflexivity|].
    left. split; [|left; reflexivity].
    rewrite Z.sub_diag. cbn. lia.
Qed.

Lemma repeated_retrigger_served_from_cache_witness :
  let triggerKind := Some CompletionTriggerKind.TriggerForIncompleteCompletions in
  let first :=
    getCompletions Example.lib Example.resolver Example.config None Example.docEmptyTag
                   (Example.at_ 5) triggerKind None false in
  let second :=
    getCompletions Example.lib Example.resolver Example.config (cache first)
                   Example.docEmptyTag (Example.at_ 5) triggerKind None false in
  returned second = returned first
  /\ cache second = cache first
  /\ queries second = [].
Proof.
  apply (repeated_retrigger_served_from_cache
           Example.lib Example.resolver Example.config None Example.docEmptyTag
           (Example.at_ 5) None false false "/src/App.svelte").
  - reflexivity.
  - reflexivity.
  - vm_compute. discriminate.
Defined.

(** ** The names of the existing imports *)

Lemma rev_app_append (s t : string) :
  String.rev_app s t = String.rev s +:+ t.
Proof.
  unfold String.rev. revert t. induction s as [|c s IH]; intros t; [reflexivity|].
  cbn [String.rev_app]. rewrite IH, (IH (String c EmptyString)).
  clear IH. generalize (String.rev_app s EmptyString). intros r.
  induction r as [|d r IHr]; [reflexivity|].
  change (String d r +:+ String c t = (String d (r +:+ String c EmptyString)) +:+ t).
  change (String d (r +:+ String c t) = String d ((r +:+ String c EmptyString) +:+ t)).
  f_equal. exact IHr.
Qed.

Lemma append_assoc (a b c : string) : (a +:+ b) +:+ c = a +:+ (b +:+ c).
Proof.
  induction a as [|x a IH]; [reflexivity|].
  change (String x ((a +:+ b) +:+ c) = String x (a +:+ (b +:+ c))). now f_equal.
Qed.

Lemma append_empty (a : string) : a +:+ EmptyString = a.
Proof.
  induction a as [|x a IH]; [reflexivity|].
  change (String x (a +:+ EmptyString) = String x a). now f_equal.
Qed.

Lemma rev_append (a b : string) : String.rev (a +:+ b) = String.rev b +:+ String.rev a.
Proof.
  induction a as [|x a IH].
  - change (String.rev b = String.rev b +:+ EmptyString). now rewrite append_empty.
  - change (String.rev_app (a +:+ b) (String x EmptyString)
            = String.rev b +:+ String.rev_app a (String x EmptyString)).
    rewrite !rev_app_append, IH. apply append_assoc.
Qed.

Lemma rev_involutive (s : string) : String.rev (String.rev s) = s.
Proof.
  induction s as [|x s IH]; [reflexivity|].
  change (String.rev (String.rev_app s (String x EmptyString)) = String x s).
  rewrite rev_app_append, rev_append, IH. reflexivity.
Qed.

Lemma trimStart_suffix (s : string) :
  exists w : string, s = w +:+ trimStart s.
Proof.
  induction s as [|c s [w IH]]; [now exists EmptyString|].
  cbn [trimStart]. destruct (isWhiteSpace c).
  - exists (String c w). change (String c s = String c (w +:+ trimStart s)). now f_equal.
  - now exists EmptyString.
Qed.

Lemma trimStart_clean (s : string) : startsWithWhiteSpace (trimStart s) = false.
Proof.
  induction s as [|c s IH]; [reflexivity|].
  cbn [trimStart]. destruct (isWhiteSpace c) eqn:Hc; [exact IH | exact Hc].
Qed.

Lemma trimStart_fixed (s : string) : startsWithWhiteSpace s = false -> trimStart s = s.
Proof.
  destruct s as [|c s]; [reflexivity|]. cbn. now intros ->.
Qed.

Lemma clean_prefix (a b : string) :
  startsWithWhiteSpace (a +:+ b) = false -> a <> EmptyString ->
  startsWithWhiteSpace a = false.
Proof.
  destruct a as [|c a]; [intros _ H; now elim H|]. intros H _. exact H.
Qed.

(** [trim] leaves no white space at either end. *)
Lemma trim_clean (s : string) :
  startsWithWhiteSpace (trim s) = false /\ endsWithWhiteSpace (trim s) = false.
Proof.
  unfold trim, endsWithWhiteSpace. rewrite rev_involutive. split; [|apply trimStart_clean].
  set (t := trimStart s).
  destruct (trimStart_suffix (String.rev t)) as [w Hw].
  destruct (String.rev (trimStart (String.rev t))) as [|c r] eqn:Hr; [reflexivity|].
  rewrite <- Hr. apply (clean_prefix _ (String.rev w)); [|rewrite Hr; discriminate].
  rewrite <- rev_append, <- Hw, rev_involutive. apply trimStart_clean.
Qed.

Lemma trim_fixed (s : string) :
  startsWithWhiteSpace s = false -> endsWithWhiteSpace s = false -> trim s = s.
Proof.
  unfold trim, endsWithWhiteSpace. intros Hs He.
  rewrite (trimStart_fixed s Hs), (trimStart_fixed _ He). apply rev_involutive.
Qed.

(** X19: the names of [getExistingImports] are the trimmed pieces, between
    commas, of the group that took part in a match of the import pattern; so
    every name of the set has no white space at its ends, and trimming it again
    changes nothing.  A document without a match imports no name. *)
Theorem existing_imports_are_trimmed (lib : Lib) (document : Document) :
  (forall x : string,
     x ∈ getExistingImports lib document
     <-> exists (m : option string * option string) (piece : string),
           m ∈ scriptImportMatches lib (getText document)
           /\ piece ∈ splitComma (match fst m with
                                  | Some g => g
                                  | None => orEmpty (snd m)
                                  end)
           /\ x = trim piece)
  /\ (forall x : string,
        x ∈ getExistingImports lib document ->
        startsWithWhiteSpace x = false /\ endsWithWhiteSpace x = false /\ trim x = x)
  /\ (scriptImportMatches lib (getText document) = [] ->
      getExistingImports lib document = ∅).
Proof.
  assert (Hchar : forall x : string,
    x ∈ getExistingImports lib document
    <-> exists (m : option string * option string) (piece : string),
          m ∈ scriptImportMatches lib (getText document)
          /\ piece ∈ splitComma (match fst m with
                                 | Some g => g
                                 | None => orEmpty (snd m)
                                 end)
          /\ x = trim piece).
  { intros x. unfold getExistingImports. cbv zeta.
    rewrite elem_of_list_to_set, list_elem_of_In, List.in_map_iff. split.
    - intros (piece & <- & Hin). apply List.in_concat in Hin.
      destruct Hin as (pieces & Hp & Hin). apply List.in_map_iff in Hp.
      destruct Hp as (m & <- & Hm).
      exists m, piece. repeat split; now apply list_elem_of_In.
    - intros (m & piece & Hm & Hp & ->). exists piece. split; [reflexivity|].
      apply List.in_concat. eexists. split; [|apply list_elem_of_In; exact Hp].
      apply List.in_map_iff. exists m. split; [reflexivity | now apply list_elem_of_In]. }
  split; [exact Hchar|]. split.
  - intros x Hx. apply Hchar in Hx. destruct Hx as (m & piece & _ & _ & ->).
    destruct (trim_clean piece) as [Hs He].
    split; [exact Hs|]. split; [exact He|]. now apply trim_fixed.
  - intros Hnone. unfold getExistingImports. rewrite Hnone. reflexivity.
Qed.

Lemma existing_imports_are_trimmed_witness :
  startsWithWhiteSpace "a" = false /\ endsWithWhiteSpace "a" = false /\ trim "a" = "a".
Proof.
  apply (proj1 (proj2 (existing_imports_are_trimmed ResolveExample.lib ResolveExample.doc))).
  vm_compute. reflexivity.
Defined.

(** ** Text edits of the returned items *)

(** X20: no item that [getCompletions] translates from an entry has a
    primary text edit that [TextEdit.is] accepts (a text edit whose positions
    are unsigned) and that starts left of the column at which the word under
    the cursor starts. *)
Theorem translated_edits_start_at_word
    (lib : Lib) (resolver : Document -> LSAndTSDoc) (config : Config)
    (document : Document) (pos : Position) (triggerCharacter : option string)
    (item : CompletionItem) (e : TextEdit) :
  item ∈ translatedItemsOf lib resolver config document pos triggerCharacter ->
  item_textEdit item = Some (PlainEdit e) ->
  TextEdit_is e = true ->
  character (doc_positionAt document (wr_start (wordRangeOf lib document pos)))
  <= character (range_start (range e)).
Proof.
  unfold translatedItemsOf. intros Hin He His.
  apply list_elem_of_In, List.in_map_iff in Hin. destruct Hin as (item0 & <- & _).
  set (anchor := doc_positionAt document (wr_start (wordRangeOf lib document pos))) in *.
  unfold fixTextEditRange in He.
  destruct (item_textEdit item0) as [[e0|e0]|] eqn:He0;
    try (rewrite He0 in He; discriminate).
  destruct (TextEdit_is e0) eqn:His0; cbn [negb] in He.
  - rewrite Z.eqb_refl in He. cbn [negb orb] in He.
    destruct (character (range_start (range e0)) >? character anchor) eqn:Hgt.
    + rewrite He0 in He. injection He as <-.
      rewrite Z.gtb_ltb in Hgt. apply Z.ltb_lt in Hgt. lia.
    + cbn [item_textEdit] in He. injection He as <-. cbn. lia.
  - rewrite He0 in He. injection He as <-. rewrite His0 in His. discriminate His.
Qed.

Lemma translated_edits_start_at_word_witness :
  character (doc_positionAt Example.docValue
                            (wr_start (wordRangeOf Example.lib Example.docValue
                                                   (Example.at_ 12))))
  <= character (range_start (range (mkTextEdit (mkRange (Example.at_ 12) (Example.at_ 12))
                                               "Hello"))).
Proof.
  apply (translated_edits_start_at_word
           Example.lib Example.resolver Example.config Example.docValue (Example.at_ 12)
           None
           {| item_label := "Hello"; item_insertText := None; item_kind := Some 10;
              item_commitCharacters := None; item_sortText := Some "11";
              item_preselect := None; item_detail := None; item_documentation := None;
              item_textEdit :=
                Some (PlainEdit (mkTextEdit (mkRange (Example.at_ 12) (Example.at_ 12))
                                            "Hello"));
              item_additionalTextEdits := None;
              item_data :=
                Some {| data_entry :=
                          mkCompletionEntry "Hello" "string" None "11" None
                                            (Some (mkTextSpan 12 0)) None None;
                        data_uri := "file:///src/App.svelte";
                        data_position := Example.at_ 12 |} |}).
  - vm_compute. constructor.
  - reflexivity.
  - reflexivity.
Defined.

(** X21: the edit of a new import (an import whose converted span starts at
    column 0 of a line after the second) whose mapped range is usable starts
    and ends at column 0: the range is that of the line before, mapped to the
    original document and moved one line down, at the start of its lines. *)
Theorem new_import_at_start_of_line
    (lib : Lib) (config : Config) (doc : Document) (snapshot : Snapshot)
    (change : TextChange) (originalTriggerPosition : Position) :
  let virtualRange := convertRange lib snapshot (change_span change) in
  let mapped :=
    mapRangeToOriginal
      lib snapshot
      (mkRange (mkPosition (line (range_start virtualRange) - 1) 0)
               (mkPosition (line (range_end virtualRange) - 1) 0)) in
  scriptTagInfoOf snapshot <> None ->
  character (range_start virtualRange) = 0 ->
  1 < line (range_start virtualRange) ->
  usesScriptStart lib snapshot change true = false ->
  range (codeActionChangeToTextEdit lib config doc snapshot change true
                                    originalTriggerPosition)
  = mkRange (mkPosition (line (range_start mapped) + 1) 0)
            (mkPosition (line (range_end mapped) + 1) 0).
Proof.
  cbv zeta. intros Htag Hcol Hline Huse.
  destruct (scriptTagInfoOf snapshot) as [tag|] eqn:Htag'; [|now elim Htag].
  destruct (codeActionChangeToTextEdit_script
              lib config doc snapshot change true originalTriggerPosition tag Htag')
    as [Hrange _].
  rewrite Hrange, Huse. unfold mappedChangeRange. cbv zeta.
  rewrite Hcol. cbn [andb Z.eqb].
  assert (Hgt : (line (range_start (convertRange lib snapshot (change_span change))) >? 1)
                = true) by (rewrite Z.gtb_ltb; apply Z.ltb_lt; exact Hline).
  rewrite Hgt. unfold mapRangeForNewImport, offsetLinesAndMovetoStartOfLine.
  cbn [range_start range_end line]. reflexivity.
Qed.

Lemma new_import_at_start_of_line_witness :
  range (codeActionChangeToTextEdit ResolveExample.mappingLib Example.config
                                    ResolveExample.doc ResolveExample.snapshot
                                    Example.importChange true (mkPosition 0 36))
  = mkRange (mkPosition (0 + 1) 0) (mkPosition (0 + 1) 0).
Proof.
  apply (new_import_at_start_of_line
           ResolveExample.mappingLib Example.config ResolveExample.doc
           ResolveExample.snapshot Example.importChange (mkPosition 0 36)).
  - discriminate.
  - reflexivity.
  - reflexivity.
  - reflexivity.
Defined.

(** X22: every item for an event, a slot-let or a prop of the component has
    the sort text [-1], no insert text and no resolution payload.  It is the
    item of an event, a slot-let or a prop that the component at the cursor
    declares: its label is the name of that part after [on:] for an event,
    after [let:] for a slot-let and as it is for a prop, and its detail is the
    name and the type of that same part, as [name: type].  When there is a word
    at the cursor, its text edit replaces the range of that word with its
    label, and when there is none, it has no text edit. *)
Theorem component_items_replace_word
    (lib : Lib) (resolver : Document -> LSAndTSDoc)
    (document : Document) (pos : Position) (item : CompletionItem) :
  item ∈ eventAndSlotLetCompletionsOf lib resolver document pos
         ++ propCompletionsOf lib resolver document pos ->
  let wordRange := wordRangeOf lib document pos in
  item_sortText item = Some "-1"
  /\ item_insertText item = None
  /\ item_data item = None
  /\ item_additionalTextEdits item = None
  /\ (exists (componentInfo : ComponentInfoProvider) (part : ComponentPart)
             (prefix : string),
        componentInfoOf lib resolver document pos = Some componentInfo
        /\ (part ∈ getEvents componentInfo /\ prefix = "on:"
            \/ part ∈ getSlotLets componentInfo /\ prefix = "let:"
            \/ part ∈ getProps componentInfo /\ prefix = EmptyString)
        /\ item_label item = prefix +:+ part_name part
        /\ item_detail item = Some (part_name part +:+ ": " +:+ part_type part))
  /\ item_textEdit item
     = if wr_start wordRange =? wr_end wordRange then None
       else Some (PlainEdit
                    {| range := toRange lib (getText document) (wr_start wordRange)
                                        (wr_end wordRange);
                       newText := item_label item |}).
Proof.
  intros Hin. cbv zeta.
  assert (Hpart :
    exists (componentInfo : ComponentInfoProvider) (part : ComponentPart)
           (prefix : string) (k : option Z),
      componentInfoOf lib resolver document pos = Some componentInfo
      /\ (part ∈ getEvents componentInfo /\ prefix = "on:"
          \/ part ∈ getSlotLets componentInfo /\ prefix = "let:"
          \/ part ∈ getProps componentInfo /\ prefix = EmptyString)
      /\ item = componentInfoToCompletionEntry lib part prefix k document
                                               (wordRangeOf lib document pos)).
  { apply elem_of_app in Hin. destruct Hin as [Hin | Hin].
    - unfold eventAndSlotLetCompletionsOf, getEventAndSlotLetCompletions in Hin.
      destruct (componentInfoOf lib resolver document pos) as [info|];
        [|inversion Hin].
      destruct (match attributeContextOf lib resolver document pos with
                | Some ctx => inValue ctx
                | None => false
                end); [inversion Hin|].
      apply elem_of_app in Hin.
      destruct Hin as [Hin | Hin]; apply list_elem_of_In, List.in_map_iff in Hin;
        destruct Hin as (part & <- & Hpart); apply list_elem_of_In in Hpart.
      + exists info, part, "on:", None. split; [reflexivity|]. split; [|reflexivity].
        left. now split.
      + exists info, part, "let:", None. split; [reflexivity|]. split; [|reflexivity].
        right. left. now split.
    - unfold propCompletionsOf in Hin.
      destruct (inAttributeValue lib resolver document pos); [inversion Hin|].
      destruct (componentInfoOf lib resolver document pos) as [info|];
        [|inversion Hin].
      apply list_elem_of_In, List.in_map_iff in Hin.
      destruct Hin as (part & <- & Hpart). apply list_elem_of_In in Hpart.
      exists info, part, EmptyString, (Some CompletionItemKind.Field).
      split; [reflexivity|]. split; [|reflexivity]. right. right. now split. }
  destruct Hpart as (info & part & prefix & k & Hinfo & Hdecl & ->).
  unfold componentInfoToCompletionEntry. cbv zeta.
  cbn [item_sortText item_insertText item_data item_additionalTextEdits item_detail
         item_textEdit item_label].
  repeat (split; [reflexivity|]).
  split; [exists info, part, prefix; repeat split; assumption|].
  destruct (wr_start (wordRangeOf lib document pos)
            =? wr_end (wordRangeOf lib document pos)); reflexivity.
Qed.

Lemma component_items_replace_word_witness :
  let item :=
    componentInfoToCompletionEntry
      Example.lib (mkComponentPart "click" "MouseEvent" None) "on:" None
      Example.docEmptyTag
      (wordRangeOf Example.lib Example.docEmptyTag (Example.at_ 5)) in
  item_label item = "on:click"
  /\ item_sortText item = Some "-1"
  /\ (exists (componentInfo : ComponentInfoProvider) (part : ComponentPart)
             (prefix : string),
        componentInfoOf Example.lib Example.resolver Example.docEmptyTag (Example.at_ 5)
        = Some componentInfo
        /\ (part ∈ getEvents componentInfo /\ prefix = "on:"
            \/ part ∈ getSlotLets componentInfo /\ prefix = "let:"
            \/ part ∈ getProps componentInfo /\ prefix = EmptyString)
        /\ item_label item = prefix +:+ part_name part
        /\ item_detail item = Some (part_name part +:+ ": " +:+ part_type part))
  /\ item_textEdit item
     = if wr_start (wordRangeOf Example.lib Example.docEmptyTag (Example.at_ 5))
          =? wr_end (wordRangeOf Example.lib Example.docEmptyTag (Example.at_ 5))
       then None
       else Some (PlainEdit
                    {| range := toRange Example.lib (getText Example.docEmptyTag)
                                  (wr_start (wordRangeOf Example.lib Example.docEmptyTag
                                                         (Example.at_ 5)))
                                  (wr_end (wordRangeOf Example.lib Example.docEmptyTag
                                                       (Example.at_ 5)));
                       newText := item_label item |}).
Proof.
  cbv zeta. split; [reflexivity|].
  pose proof (component_items_replace_word
                Example.lib Example.resolver Example.docEmptyTag (Example.at_ 5)
                (componentInfoToCompletionEntry
                   Example.lib (mkComponentPart "click" "MouseEvent" None) "on:" None
                   Example.docEmptyTag
                   (wordRangeOf Example.lib Example.docEmptyTag (Example.at_ 5)))) as H.
  cbv zeta in H.
  destruct H as (Hsort & _ & _ & _ & Hpart & Hedit); [vm_compute; constructor|].
  split; [exact Hsort|]. split; [exact Hpart | exact Hedit].
Defined.
